(** * House Victoria MCP server: the task / workflow / progress core.

    A shallow embedding of

      - [house_victoria_mcp/tt/task_manager.py]     (module [TaskManagerPy]),
      - [house_victoria_mcp/tt/progress_tracker.py] (module [ProgressTrackerPy]),
      - [house_victoria_mcp/tt/workflow_engine.py]  (module [WorkflowEnginePy]),

    followed by the properties of the specification that concern them.

    Modelling conventions.

      - A Python [dict] whose iteration order is observable (the task table,
        which [list_tasks] walks before a stable sort) is an insertion-ordered
        association list with unique keys ([OrderedDict]); tables that are only
        looked up by key are [gmap]s.
      - Python [float]s are exact rationals ([Q]).  Where a float operation
        of the code raises (a quotient or an integer beyond the range of a
        float, an instant beyond the range of [datetime]) the model raises
        too.  Rounding is not modelled, and neither are [inf] and [nan]: a
        product that overflows to [inf] in the code (a step quotient times
        100) is the exact rational here.  The theorems state a float only
        where it is exact in binary64 (0, 100, 20/10*100, a clamped
        argument) and otherwise bound it or leave it open.
      - A [str] is a [string]; whether [str.encode()] accepts it is asked
        of the library ([utf8_error]).
      - [datetime.now()] and the event-loop clock are an argument [now] of the
        operation that reads them.
      - An [asyncio.Task] is an entry of the event loop's unit pool, addressed
        by its position (the handle).  The result of awaiting caller-supplied
        code is an [outcome]: a value or a raised exception (cancellation is
        the exception [CancelledError], a [BaseException] that
        [except Exception] does not catch, as in Python 3.8 and later).
      - A method mutates the object found in the table; the model writes the
        updated record back under the same key, which keeps its position. *)

From Stdlib Require Import ZArith QArith Qabs String Ascii List Bool Lia.
From Stdlib Require Import Permutation Sorted.
From stdpp Require Import base option list strings pretty gmap.
Import ListNotations.

Set Warnings "-register-all".

Local Open Scope string_scope.
Local Open Scope list_scope.

(* ===================================================================== *)
(** * Python preliminaries                                                 *)
(* ===================================================================== *)

(** ** Floats *)

Definition Qltb (x y : Q) : bool := negb (Qle_bool y x).

(** [min(a, b)]: the first argument unless the second is strictly smaller. *)
Definition py_min (a b : Q) : Q := if Qltb b a then b else a.

(** [max(a, b)]: the first argument unless the second is strictly greater. *)
Definition py_max (a b : Q) : Q := if Qltb a b then b else a.

(** [int(x)] on a float truncates towards zero. *)
Definition py_int (x : Q) : Z := Z.quot (Qnum x) (Zpos (Qden x)).

(** The value is beyond the range of a float: the largest float is
    [2^1024 - 2^971], and rounding to nearest sends everything from
    [2^1024 - 2^970] on past it.  Converting such an integer to a float,
    and dividing two integers with such a quotient, raises
    [OverflowError]. *)
Definition float_overflows (x : Q) : bool :=
  Qle_bool (inject_Z (2 ^ 1024 - 2 ^ 970)) (Qabs x).

(** ** Values

    The JSON-like fragment of Python values that task results, tool
    arguments and step results are made of. *)

Inductive pyval : Type :=
| VNone
| VBool (b : bool)
| VInt (z : Z)
| VFloat (q : Q)
| VStr (s : string)
| VList (l : list pyval)
| VDict (d : list (string * pyval)).

Abbreviation pydict := (list (string * pyval)).

(** Truth value testing: [None], [False], zero, and empty strings and
    containers are false. *)
Definition truthy (v : pyval) : bool :=
  match v with
  | VNone => false
  | VBool b => b
  | VInt z => negb (Z.eqb z 0)
  | VFloat q => negb (Qeq_bool q 0)
  | VStr s => negb (String.eqb s "")
  | VList l => match l with [] => false | _ => true end
  | VDict d => match d with [] => false | _ => true end
  end.

(** [if s:] on an optional string, and [if l:] on an optional list. *)
Definition truthy_str (o : option string) : bool :=
  match o with
  | Some s => negb (String.eqb s "")
  | None => false
  end.

Definition truthy_list {A : Type} (o : option (list A)) : bool :=
  match o with
  | Some (_ :: _) => true
  | _ => false
  end.

(** [x or default] for an optional container argument. *)
Definition or_default {A : Type} (o : option (list A)) (d : list A) : list A :=
  match o with
  | Some (x :: l) => x :: l
  | _ => d
  end.

(** ** Exceptions *)

Inductive exn : Type :=
| CancelledError                    (* asyncio.CancelledError *)
| ValueError (msg : string)
| KeyError (key : string)
| AttributeError (msg : string)
| ZeroDivisionError (msg : string)
| OverflowError (msg : string)
| UnicodeEncodeError (msg : string)
| OtherException (msg : string)     (* any other subclass of Exception *)
| OtherBaseException (msg : string) (* KeyboardInterrupt, SystemExit, ... *).

(** [isinstance(e, Exception)] *)
Definition is_Exception (e : exn) : bool :=
  match e with
  | CancelledError | OtherBaseException _ => false
  | _ => true
  end.

(** [str(e)] *)
Definition str_exn (e : exn) : string :=
  match e with
  | CancelledError => ""
  | ValueError m | AttributeError m | ZeroDivisionError m
  | OverflowError m | UnicodeEncodeError m
  | OtherException m | OtherBaseException m => m
  | KeyError k => "'" +:+ k +:+ "'"
  end.

(** What a call yields: a value, or a raised exception. *)
Inductive outcome (A : Type) : Type :=
| Ok (a : A)
| Raise (e : exn).
Arguments Ok {A} a.
Arguments Raise {A} e.

(** ** Library functions

    Functions of the Python library that the code calls and that this
    development takes as given. *)
Record PyLib : Type := mkPyLib {
  utf8_error : string -> option string;
    (* s.encode(): [None] when the string can be encoded, and the text of
       the UnicodeEncodeError that is raised when it cannot, which is when
       it holds a lone surrogate *)
  sha256_hexdigest : string -> string;
    (* hashlib.sha256(s.encode()).hexdigest(), for a string that can be
       encoded *)
  isoformat : Z -> string;
    (* datetime.isoformat() *)
  str_time : Z -> string;
    (* str() of a timedelta or of a float *)
}.

(** ** Insertion-ordered dictionaries *)

Module OrderedDict.
Section Dict.
Context {V : Type}.

Definition t := list (string * V).

Definition empty : t := [].

(** [d.get(k)] *)
Fixpoint get (k : string) (d : t) : option V :=
  match d with
  | [] => None
  | (k', v) :: d' => if String.eqb k k' then Some v else get k d'
  end.

(** [d[k] = v]: an existing key keeps its position, a new key goes last. *)
Fixpoint set (k : string) (v : V) (d : t) : t :=
  match d with
  | [] => [(k, v)]
  | (k', v') :: d' =>
      if String.eqb k k' then (k, v) :: d' else (k', v') :: set k v d'
  end.

(** [del d[k]] (for a key that is present; a no-op otherwise). *)
Fixpoint del (k : string) (d : t) : t :=
  match d with
  | [] => []
  | (k', v') :: d' =>
      if String.eqb k k' then d' else (k', v') :: del k d'
  end.

(** [list(d.values())], in insertion order. *)
Definition values (d : t) : list V := map snd d.

Definition keys (d : t) : list string := map fst d.

(** [k in d] *)
Definition mem (k : string) (d : t) : bool :=
  match get k d with Some _ => true | None => false end.

End Dict.
Arguments t : clear implicits.
End OrderedDict.

(** ** The event loop's pool of concurrent units

    [asyncio.create_task] appends a unit and returns its handle;
    [handle.cancel()] requests cancellation of a unit that has not finished. *)

(** A caller-supplied coroutine function.  The model never looks inside: what
    awaiting it yields is an [outcome] supplied when the unit runs. *)
Inductive callable : Type :=
| Callable (label : string).

Inductive coroutine : Type :=
| ExecuteWrapper (task_id : string) (execution_func : callable)
    (* TaskManager.execute_task._execute_wrapper *)
| ExecuteWorkflowTask (workflow_id : string)
    (* WorkflowEngine._execute_workflow_task *).

Inductive UnitState : Type :=
| Scheduled          (* created, not finished *)
| CancelRequested    (* cancel() was called on it before it finished *)
| Finished.

Record AsyncUnit : Type := mkAsyncUnit {
  unit_coro : coroutine;
  unit_state : UnitState;
}.

Abbreviation EventLoop := (list AsyncUnit).

(** [asyncio.create_task(coro)] *)
Definition create_unit (c : coroutine) (loop : EventLoop) : nat * EventLoop :=
  (length loop, loop ++ [mkAsyncUnit c Scheduled]).

Definition request_cancel (u : AsyncUnit) : AsyncUnit :=
  match unit_state u with
  | Scheduled => mkAsyncUnit (unit_coro u) CancelRequested
  | _ => u
  end.

(** [handle.cancel()] *)
Definition cancel_unit (h : nat) (loop : EventLoop) : EventLoop :=
  alter request_cancel h loop.

Definition finish_unit (h : nat) (loop : EventLoop) : EventLoop :=
  alter (fun u => mkAsyncUnit (unit_coro u) Finished) h loop.

(* ===================================================================== *)
(** * tt/task_manager.py                                                   *)
(* ===================================================================== *)

Module TaskManagerPy.

Inductive TaskStatus : Type :=
| PENDING | IN_PROGRESS | COMPLETED | FAILED | CANCELLED.

Inductive TaskPriority : Type :=
| LOW | MEDIUM | HIGH | URGENT.

#[global] Instance TaskStatus_eq_dec : EqDecision TaskStatus.
Proof. solve_decision. Defined.

#[global] Instance TaskPriority_eq_dec : EqDecision TaskPriority.
Proof. solve_decision. Defined.

(** [a == b] on the two enumerations *)
Definition status_eqb (a b : TaskStatus) : bool := bool_decide (a = b).
Definition priority_eqb (a b : TaskPriority) : bool := bool_decide (a = b).

(** The [Task] dataclass.  Timestamps are instants of the wall clock. *)
Record Task : Type := mkTask {
  task_id : string;
  task_name : string;
  task_description : string;
  task_status : TaskStatus;
  task_priority : TaskPriority;
  task_created_at : Z;
  task_updated_at : Z;
  task_completed_at : option Z;
  task_assigned_to : option string;
  task_tags : list string;
  task_progress : Q;
  task_result : option pydict;
  task_error : option string;
  task_metadata : pydict;
  task_dependencies : list string;
  task_workflow_id : option string;
}.

(** Field assignments [task.f = v]. *)
Definition set_status (v : TaskStatus) (t : Task) : Task :=
  mkTask (task_id t) (task_name t) (task_description t) v (task_priority t)
    (task_created_at t) (task_updated_at t) (task_completed_at t)
    (task_assigned_to t) (task_tags t) (task_progress t) (task_result t)
    (task_error t) (task_metadata t) (task_dependencies t) (task_workflow_id t).

Definition set_updated_at (v : Z) (t : Task) : Task :=
  mkTask (task_id t) (task_name t) (task_description t) (task_status t)
    (task_priority t) (task_created_at t) v (task_completed_at t)
    (task_assigned_to t) (task_tags t) (task_progress t) (task_result t)
    (task_error t) (task_metadata t) (task_dependencies t) (task_workflow_id t).

Definition set_completed_at (v : option Z) (t : Task) : Task :=
  mkTask (task_id t) (task_name t) (task_description t) (task_status t)
    (task_priority t) (task_created_at t) (task_updated_at t) v
    (task_assigned_to t) (task_tags t) (task_progress t) (task_result t)
    (task_error t) (task_metadata t) (task_dependencies t) (task_workflow_id t).

Definition set_progress (v : Q) (t : Task) : Task :=
  mkTask (task_id t) (task_name t) (task_description t) (task_status t)
    (task_priority t) (task_created_at t) (task_updated_at t)
    (task_completed_at t) (task_assigned_to t) (task_tags t) v (task_result t)
    (task_error t) (task_metadata t) (task_dependencies t) (task_workflow_id t).

Definition set_result (v : option pydict) (t : Task) : Task :=
  mkTask (task_id t) (task_name t) (task_description t) (task_status t)
    (task_priority t) (task_created_at t) (task_updated_at t)
    (task_completed_at t) (task_assigned_to t) (task_tags t) (task_progress t)
    v (task_error t) (task_metadata t) (task_dependencies t)
    (task_workflow_id t).

Definition set_error (v : option string) (t : Task) : Task :=
  mkTask (task_id t) (task_name t) (task_description t) (task_status t)
    (task_priority t) (task_created_at t) (task_updated_at t)
    (task_completed_at t) (task_assigned_to t) (task_tags t) (task_progress t)
    (task_result t) v (task_metadata t) (task_dependencies t)
    (task_workflow_id t).

(** The [TaskManager] object: the task table and the table of handles of
    the execution units it launched. *)
Record TaskManager : Type := mkTaskManager {
  tasks : OrderedDict.t Task;
  _running_tasks : gmap string nat;
}.

(** The manager together with the event loop its units live in. *)
Record State : Type := mkState {
  manager : TaskManager;
  loop : EventLoop;
}.

(** [TaskManager()] on a fresh event loop. *)
Definition init_manager : State := mkState (mkTaskManager OrderedDict.empty ∅) [].

Section WithLibrary.

Variable py : PyLib.

(** [_generate_task_id].  [combined.encode()] raises for a name that
    cannot be encoded. *)
Definition _generate_task_id (now : Z) (name : string) : outcome string :=
  let timestamp := isoformat py now in
  let combined := name +:+ "_" +:+ timestamp in
  match utf8_error py combined with
  | Some msg => Raise (UnicodeEncodeError msg)
  | None => Ok (String.substring 0 16 (sha256_hexdigest py combined))
  end.

(** [create_task].  No argument is validated; the only failure is that of
    the id generation, before anything is built or stored. *)
Definition create_task (now : Z) (name description : string)
    (priority : TaskPriority) (assigned_to : option string)
    (tags : option (list string)) (metadata : option pydict)
    (dependencies : option (list string)) (workflow_id : option string)
    (st : State) : outcome Task * State :=
  match _generate_task_id now name with
  | Raise e => (Raise e, st)
  | Ok task_id =>
      let task :=
        {| task_id := task_id;
           task_name := name;
           task_description := description;
           task_status := PENDING;
           task_priority := priority;
           task_created_at := now;
           task_updated_at := now;
           task_completed_at := None;
           task_assigned_to := assigned_to;
           task_tags := or_default tags [];
           task_progress := 0;
           task_result := None;
           task_error := None;
           task_metadata := or_default metadata [];
           task_dependencies := or_default dependencies [];
           task_workflow_id := workflow_id |} in
      let m := manager st in
      (Ok task,
       mkState (mkTaskManager (OrderedDict.set task_id task (tasks m))
                              (_running_tasks m))
               (loop st))
  end.

End WithLibrary.

(** [get_task] *)
Definition get_task (task_id : string) (st : State) : option Task :=
  OrderedDict.get task_id (tasks (manager st)).

(** [update_task_status] *)
Definition update_task_status (now : Z) (task_id : string)
    (status : TaskStatus) (progress : option Q) (result : option pydict)
    (error : option string) (st : State) : option Task * State :=
  let m := manager st in
  match OrderedDict.get task_id (tasks m) with
  | None => (None, st)
  | Some task =>
      let task := set_status status task in
      let task := set_updated_at now task in
      let task :=
        match progress with
        | Some p => set_progress (py_max 0 (py_min 100 p)) task
        | None => task
        end in
      let task :=
        match result with
        | Some r => set_result (Some r) task
        | None => task
        end in
      let task :=
        match error with
        | Some e => set_error (Some e) task
        | None => task
        end in
      if status_eqb status COMPLETED then
        let task := set_completed_at (Some now) task in
        let task := set_progress 100 task in
        (* Stop any running async task *)
        match _running_tasks m !! task_id with
        | Some h =>
            (Some task,
             mkState (mkTaskManager (OrderedDict.set task_id task (tasks m))
                                    (delete task_id (_running_tasks m)))
                     (cancel_unit h (loop st)))
        | None =>
            (Some task,
             mkState (mkTaskManager (OrderedDict.set task_id task (tasks m))
                                    (_running_tasks m))
                     (loop st))
        end
      else
        (Some task,
         mkState (mkTaskManager (OrderedDict.set task_id task (tasks m))
                                (_running_tasks m))
                 (loop st))
  end.

(** The sort key of [list_tasks]:
    [(priority_order.get(t.priority, 4), t.created_at)].  Every member of
    [TaskPriority] is a key of [priority_order], so the default 4 is never
    taken. *)
Definition priority_order (p : TaskPriority) : nat :=
  match p with
  | URGENT => 0
  | HIGH => 1
  | MEDIUM => 2
  | LOW => 3
  end.

Definition sort_key (t : Task) : nat * Z :=
  (priority_order (task_priority t), task_created_at t).

(** Tuple comparison [a <= b], lexicographic. *)
Definition key_leb (a b : nat * Z) : bool :=
  Nat.ltb a.1 b.1 || (Nat.eqb a.1 b.1 && Z.leb a.2 b.2).

(** [list.sort(key=...)] is a stable sort; it is modelled by the stable
    insertion sort: an element is placed before the first element of the
    sorted tail whose key is not smaller. *)
Fixpoint insert_by_key (x : Task) (l : list Task) : list Task :=
  match l with
  | [] => [x]
  | y :: l' =>
      if key_leb (sort_key x) (sort_key y) then x :: y :: l'
      else y :: insert_by_key x l'
  end.

Fixpoint sort_by_key (l : list Task) : list Task :=
  match l with
  | [] => []
  | x :: l' => insert_by_key x (sort_by_key l')
  end.

(** [any(tag in t.tags for tag in tags)] *)
Definition any_tag_in (tags : list string) (t : Task) : bool :=
  existsb (fun tag => existsb (String.eqb tag) (task_tags t)) tags.

(** [list_tasks].  Each filter is applied under [if <argument>:], that is
    when the argument is present and not empty. *)
Definition list_tasks (status : option TaskStatus)
    (priority : option TaskPriority) (assigned_to workflow_id : option string)
    (tags : option (list string)) (st : State) : list Task :=
  let tasks := OrderedDict.values (tasks (manager st)) in
  let tasks :=
    match status with
    | Some s => List.filter (fun t => status_eqb (task_status t) s) tasks
    | None => tasks
    end in
  let tasks :=
    match priority with
    | Some p => List.filter (fun t => priority_eqb (task_priority t) p) tasks
    | None => tasks
    end in
  let tasks :=
    if truthy_str assigned_to then
      List.filter (fun t => bool_decide (task_assigned_to t = assigned_to))
                  tasks
    else tasks in
  let tasks :=
    if truthy_str workflow_id then
      List.filter (fun t => bool_decide (task_workflow_id t = workflow_id))
                  tasks
    else tasks in
  let tasks :=
    if truthy_list tags then
      List.filter (any_tag_in (default [] tags)) tasks
    else tasks in
  sort_by_key tasks.

(** [delete_task] *)
Definition delete_task (task_id : string) (st : State) : bool * State :=
  let m := manager st in
  if OrderedDict.mem task_id (tasks m) then
    let tasks' := OrderedDict.del task_id (tasks m) in
    (* Cancel if running *)
    match _running_tasks m !! task_id with
    | Some h =>
        (true,
         mkState (mkTaskManager tasks' (delete task_id (_running_tasks m)))
                 (cancel_unit h (loop st)))
    | None =>
        (true, mkState (mkTaskManager tasks' (_running_tasks m)) (loop st))
    end
  else (false, st).

(** The dependency check of [execute_task]: the ids, in order, of the
    dependencies that are unknown or not completed. *)
Definition dep_unmet (tbl : OrderedDict.t Task) (dep_id : string) : bool :=
  match OrderedDict.get dep_id tbl with
  | None => true
  | Some dep_task => negb (status_eqb (task_status dep_task) COMPLETED)
  end.

Fixpoint pending_deps (tbl : OrderedDict.t Task) (deps : list string)
  : list string :=
  match deps with
  | [] => []
  | dep_id :: deps' =>
      if dep_unmet tbl dep_id then dep_id :: pending_deps tbl deps'
      else pending_deps tbl deps'
  end.

(** [execute_task].  Returns the task object (as the call leaves it), or
    [None] for an unknown id. *)
Definition execute_task (now : Z) (task_id : string)
    (execution_func : callable) (st : State) : option Task * State :=
  match OrderedDict.get task_id (tasks (manager st)) with
  | None => (None, st)
  | Some task =>
      (* Check dependencies *)
      let pending := pending_deps (tasks (manager st))
                                  (task_dependencies task) in
      match pending with
      | _ :: _ =>
          let error_msg :=
            "Dependencies not completed: " +:+ String.concat ", " pending in
          let st1 :=
            (update_task_status now task_id PENDING None None
                                (Some error_msg) st).2 in
          (get_task task_id st1, st1)
      | [] =>
          (* Update to in-progress *)
          let st1 :=
            (update_task_status now task_id IN_PROGRESS (Some 0%Q) None None
                                st).2 in
          (* Start execution *)
          let (h, loop') :=
            create_unit (ExecuteWrapper task_id execution_func) (loop st1) in
          let m1 := manager st1 in
          let st2 :=
            mkState (mkTaskManager (tasks m1)
                                   (<[task_id := h]> (_running_tasks m1)))
                    loop' in
          (get_task task_id st2, st2)
      end
  end.

(** The body of [_execute_wrapper], run by the event loop with the
    [outcome] of [await execution_func(task)].  An exception that is neither
    a cancellation nor an [Exception] escapes the wrapper and leaves the
    task untouched. *)
Definition _execute_wrapper (now : Z) (task_id : string)
    (awaited : outcome pyval) (st : State) : State :=
  match awaited with
  | Ok result =>
      (* Mark as completed *)
      (update_task_status now task_id COMPLETED (Some 100%Q)
         (Some (if truthy result then [("data", result)] else []))
         None st).2
  | Raise CancelledError =>
      (update_task_status now task_id CANCELLED None None None st).2
  | Raise e =>
      if is_Exception e then
        let error_msg := str_exn e in
        (update_task_status now task_id FAILED None None (Some error_msg)
                            st).2
      else st
  end.

(** The event loop runs unit [h] to its end. A unit whose cancellation was
    requested before it ever ran is dropped without entering its body;
    otherwise the wrapper runs with the outcome of the execution function. *)
Definition run_unit (now : Z) (h : nat) (started : bool)
    (awaited : outcome pyval) (st : State) : State :=
  match loop st !! h with
  | Some (mkAsyncUnit (ExecuteWrapper task_id _) Scheduled) =>
      let st1 := _execute_wrapper now task_id awaited st in
      mkState (manager st1) (finish_unit h (loop st1))
  | Some (mkAsyncUnit (ExecuteWrapper task_id _) CancelRequested) =>
      if started then
        let st1 := _execute_wrapper now task_id awaited st in
        mkState (manager st1) (finish_unit h (loop st1))
      else mkState (manager st) (finish_unit h (loop st))
  | _ => st
  end.

End TaskManagerPy.

(* ===================================================================== *)
(** * tt/progress_tracker.py                                               *)
(* ===================================================================== *)

(** [round(x)] to the nearest integer, ties to even. *)
Definition py_round (x : Q) : Z :=
  let n := Qnum x in
  let d := Zpos (Qden x) in
  let fl := Z.div n d in
  let twice_rem := (2 * (n - fl * d))%Z in
  if Z.ltb twice_rem d then fl
  else if Z.ltb d twice_rem then (fl + 1)%Z
  else if Z.even fl then fl else (fl + 1)%Z.

(** [round(x, 2)] *)
Definition py_round2 (x : Q) : Q := Qmake (py_round (x * 100)) 100.

Module ProgressTrackerPy.

Inductive ProgressState : Type :=
| NOT_STARTED | IN_PROGRESS | COMPLETED | FAILED | PAUSED.

#[global] Instance ProgressState_eq_dec : EqDecision ProgressState.
Proof. solve_decision. Defined.

Definition state_eqb (a b : ProgressState) : bool := bool_decide (a = b).

(** [state.value] *)
Definition state_value (s : ProgressState) : string :=
  match s with
  | NOT_STARTED => "not_started"
  | IN_PROGRESS => "in_progress"
  | COMPLETED => "completed"
  | FAILED => "failed"
  | PAUSED => "paused"
  end.

Record ProgressUpdate : Type := mkProgressUpdate {
  upd_id : string;
  upd_entity_type : string;
  upd_entity_id : string;
  upd_progress : Q;
  upd_state : ProgressState;
  upd_message : option string;
  upd_data : pydict;
  upd_timestamp : Z;
}.

(** The [ProgressMeter] dataclass.  Instants are microseconds of the wall
    clock. *)
Record ProgressMeter : Type := mkProgressMeter {
  meter_id : string;
  meter_name : string;
  total_steps : Z;
  current_step : Z;
  progress : Q;
  state : ProgressState;
  started_at : option Z;
  estimated_completion : option Z;
  updates : list ProgressUpdate;
  metadata : pydict;
}.

Definition set_current_step (v : Z) (m : ProgressMeter) : ProgressMeter :=
  mkProgressMeter (meter_id m) (meter_name m) (total_steps m) v (progress m)
    (state m) (started_at m) (estimated_completion m) (updates m) (metadata m).

Definition set_meter_progress (v : Q) (m : ProgressMeter) : ProgressMeter :=
  mkProgressMeter (meter_id m) (meter_name m) (total_steps m) (current_step m)
    v (state m) (started_at m) (estimated_completion m) (updates m)
    (metadata m).

Definition set_state (v : ProgressState) (m : ProgressMeter) : ProgressMeter :=
  mkProgressMeter (meter_id m) (meter_name m) (total_steps m) (current_step m)
    (progress m) v (started_at m) (estimated_completion m) (updates m)
    (metadata m).

Definition set_started_at (v : option Z) (m : ProgressMeter) : ProgressMeter :=
  mkProgressMeter (meter_id m) (meter_name m) (total_steps m) (current_step m)
    (progress m) (state m) v (estimated_completion m) (updates m) (metadata m).

Definition set_estimated_completion (v : option Z) (m : ProgressMeter)
  : ProgressMeter :=
  mkProgressMeter (meter_id m) (meter_name m) (total_steps m) (current_step m)
    (progress m) (state m) (started_at m) v (updates m) (metadata m).

Definition append_update (u : ProgressUpdate) (m : ProgressMeter)
  : ProgressMeter :=
  mkProgressMeter (meter_id m) (meter_name m) (total_steps m) (current_step m)
    (progress m) (state m) (started_at m) (estimated_completion m)
    (updates m ++ [u]) (metadata m).

(** The [ProgressTracker] object.  A registered callback is the function
    from the update it is awaited on to what awaiting it yields. *)
Record ProgressTracker : Type := mkProgressTracker {
  meters : OrderedDict.t ProgressMeter;
  _callbacks : list (ProgressUpdate -> outcome unit);
}.

(** [ProgressTracker()] *)
Definition init_tracker : ProgressTracker :=
  mkProgressTracker OrderedDict.empty [].

Definition store (m : ProgressMeter) (key : string) (tr : ProgressTracker)
  : ProgressTracker :=
  mkProgressTracker (OrderedDict.set key m (meters tr)) (_callbacks tr).


(** The notification loop of [update_progress]: an [Exception] raised by a
    callback is logged and swallowed; anything else escapes. *)
Fixpoint notify (callbacks : list (ProgressUpdate -> outcome unit))
    (update : ProgressUpdate) : outcome unit :=
  match callbacks with
  | [] => Ok tt
  | callback :: rest =>
      match callback update with
      | Ok _ => notify rest update
      | Raise e => if is_Exception e then notify rest update else Raise e
      end
  end.

Section WithLibrary.

Variable py : PyLib.

(** [_generate_meter_id], for a name that [encode()] accepts; this
    development creates meters with such names only. *)
Definition _generate_meter_id (now : Z) (name : string) : string :=
  let timestamp := isoformat py now in
  let combined := "meter:" +:+ name +:+ ":" +:+ timestamp in
  String.substring 0 16 (sha256_hexdigest py combined).

(** [_generate_update_id].  The ids of the meters a tracker creates are
    hexadecimal digests, which [encode()] accepts. *)
Definition _generate_update_id (now : Z) (meter_id : string) : string :=
  let timestamp := isoformat py now in
  let combined := "update:" +:+ meter_id +:+ ":" +:+ timestamp in
  String.substring 0 8 (sha256_hexdigest py combined).

(** [create_meter] *)
Definition create_meter (now : Z) (name : string) (total_steps : Z)
    (metadata : option pydict) (tr : ProgressTracker)
  : ProgressMeter * ProgressTracker :=
  let meter_id := _generate_meter_id now name in
  let meter :=
    {| meter_id := meter_id;
       meter_name := name;
       total_steps := total_steps;
       current_step := 0;
       progress := 0;
       state := NOT_STARTED;
       started_at := None;
       estimated_completion := None;
       updates := [];
       metadata := or_default metadata [] |} in
  (meter, store meter meter_id tr).

(** The three update channels of [update_progress], in source order. *)

Definition apply_state (now : Z) (st : option ProgressState)
    (meter : ProgressMeter) : ProgressMeter :=
  match st with
  | None => meter
  | Some s =>
      let meter := set_state s meter in
      (* Start/complete tracking based on state *)
      if state_eqb s IN_PROGRESS && bool_decide (started_at meter = None)
      then set_started_at (Some now) meter
      else if state_eqb s COMPLETED
      then set_meter_progress 100 (set_current_step (total_steps meter) meter)
      else meter
  end.

(** [current_step / meter.total_steps], a division of two integers, raises
    on a zero divisor and on a quotient beyond the range of a float, in
    both cases after [meter.current_step] has been assigned. *)
Definition apply_step (step : option Z) (meter : ProgressMeter)
  : outcome unit * ProgressMeter :=
  match step with
  | None => (Ok tt, meter)
  | Some cs =>
      let meter := set_current_step cs meter in
      if Z.eqb (total_steps meter) 0
      then (Raise (ZeroDivisionError "division by zero"), meter)
      else if float_overflows (inject_Z cs / inject_Z (total_steps meter))
      then (Raise (OverflowError
                     "integer division result too large for a float"),
            meter)
      else
        (Ok tt,
         set_meter_progress
           ((inject_Z cs / inject_Z (total_steps meter)) * 100)%Q meter)
  end.

(** The product of a float and [meter.total_steps] converts the integer to
    a float, which raises on a total beyond the range of a float, after
    [meter.progress] has been assigned. *)
Definition apply_progress (p : option Q) (meter : ProgressMeter)
  : outcome unit * ProgressMeter :=
  match p with
  | None => (Ok tt, meter)
  | Some p =>
      let meter := set_meter_progress (py_max 0 (py_min 100 p)) meter in
      if float_overflows (inject_Z (total_steps meter))
      then (Raise (OverflowError "int too large to convert to float"), meter)
      else
        (Ok tt,
         set_current_step
           (py_int ((progress meter / 100) * inject_Z (total_steps meter))%Q)
           meter)
  end.

(** Instants count microseconds from [datetime.min]; [datetime_max] is the
    last instant a [datetime] can hold and [timedelta_max] the longest
    span a [timedelta] can. *)
Definition datetime_max : Z := 315537897599999999.
Definition timedelta_max : Z := 86399999999999999999.

(** Estimate completion time.  [timedelta(seconds=...)] rounds to the
    microsecond.  Building the span, and adding it to the instant, raise
    [OverflowError] when the result is out of range, before the estimate
    is assigned; the text of the error is that of the addition. *)
Definition estimate (now : Z) (meter : ProgressMeter)
  : outcome unit * ProgressMeter :=
  match started_at meter with
  | Some started =>
      if state_eqb (state meter) IN_PROGRESS then
        let elapsed := (inject_Z (now - started) / 1000000)%Q in
        if Qltb 0 (progress meter) then
          let time_per_progress := (elapsed / progress meter)%Q in
          let remaining_progress := (100 - progress meter)%Q in
          let remaining_seconds :=
            (time_per_progress * remaining_progress)%Q in
          let span := py_round (remaining_seconds * 1000000) in
          if Z.ltb timedelta_max (Z.abs span)
             || Z.ltb (now + span) 0 || Z.ltb datetime_max (now + span)
          then (Raise (OverflowError "date value out of range"), meter)
          else (Ok tt, set_estimated_completion (Some (now + span)%Z) meter)
        else (Ok tt, meter)
      else (Ok tt, meter)
  | None => (Ok tt, meter)
  end.

(** [update_progress].  The meter is mutated in place, so what was assigned
    before an exception stays assigned. *)
Definition update_progress (now : Z) (meter_id : string)
    (current_step : option Z) (progress : option Q)
    (state : option ProgressState) (message : option string)
    (data : option pydict) (tr : ProgressTracker)
  : outcome (option ProgressMeter) * ProgressTracker :=
  match OrderedDict.get meter_id (meters tr) with
  | None => (Ok None, tr)
  | Some meter =>
      (* Update state *)
      let meter := apply_state now state meter in
      (* Update step count *)
      match apply_step current_step meter with
      | (Raise e, meter) => (Raise e, store meter meter_id tr)
      | (Ok _, meter) =>
      (* Update progress directly *)
      match apply_progress progress meter with
      | (Raise e, meter) => (Raise e, store meter meter_id tr)
      | (Ok _, meter) =>
          (* Update message *)
          let (notified, meter) :=
            match message with
            | Some msg =>
                let update :=
                  {| upd_id := _generate_update_id now meter_id;
                     upd_entity_type := "meter";
                     upd_entity_id := meter_id;
                     upd_progress := ProgressTrackerPy.progress meter;
                     upd_state := ProgressTrackerPy.state meter;
                     upd_message := Some msg;
                     upd_data := or_default data [];
                     upd_timestamp := now |} in
                (notify (_callbacks tr) update, append_update update meter)
            | None => (Ok tt, meter)
            end in
          match notified with
          | Raise e => (Raise e, store meter meter_id tr)
          | Ok _ =>
              (* Estimate completion time *)
              match estimate now meter with
              | (Raise e, meter) => (Raise e, store meter meter_id tr)
              | (Ok _, meter) => (Ok (Some meter), store meter meter_id tr)
              end
          end
      end
      end
  end.

End WithLibrary.

(** [get_meter] *)
Definition get_meter (meter_id : string) (tr : ProgressTracker)
  : option ProgressMeter :=
  OrderedDict.get meter_id (meters tr).

(** [list_meters] *)
Definition list_meters (st : option ProgressState) (tr : ProgressTracker)
  : list ProgressMeter :=
  let all := OrderedDict.values (meters tr) in
  match st with
  | Some s => List.filter (fun m => state_eqb (state m) s) all
  | None => all
  end.

(** [delete_meter] *)
Definition delete_meter (meter_id : string) (tr : ProgressTracker)
  : bool * ProgressTracker :=
  if OrderedDict.mem meter_id (meters tr) then
    (true,
     mkProgressTracker (OrderedDict.del meter_id (meters tr)) (_callbacks tr))
  else (false, tr).

(** The [is_complete] property. *)
Definition is_complete (m : ProgressMeter) : bool :=
  state_eqb (state m) COMPLETED || Z.leb (total_steps m) (current_step m).

Definition opt_str (o : option string) : pyval :=
  match o with
  | Some s => VStr s
  | None => VNone
  end.

(** [get_meter_summary] *)
Definition get_meter_summary (py : PyLib) (now : Z) (meter_id : string)
    (tr : ProgressTracker) : option pydict :=
  match OrderedDict.get meter_id (meters tr) with
  | None => None
  | Some meter =>
      let time_elapsed := (fun started => now - started)%Z <$> started_at meter in
      Some
        [ ("id", VStr (ProgressTrackerPy.meter_id meter));
          ("name", VStr (meter_name meter));
          ("progress", VFloat (py_round2 (progress meter)));
          ("state", VStr (state_value (state meter)));
          ("current_step", VInt (current_step meter));
          ("total_steps", VInt (total_steps meter));
          ("started_at", opt_str (isoformat py <$> started_at meter));
          ("estimated_completion",
           opt_str (isoformat py <$> estimated_completion meter));
          ("time_elapsed",
           match time_elapsed with
           | Some d => if Z.eqb d 0 then VNone else VStr (str_time py d)
           | None => VNone
           end);
          ("is_complete", VBool (is_complete meter));
          ("updates_count", VInt (Z.of_nat (length (updates meter))));
          ("metadata", VDict (metadata meter)) ]
  end.

End ProgressTrackerPy.

(* ===================================================================== *)
(** * tt/workflow_engine.py                                                *)
(* ===================================================================== *)

Module WorkflowEnginePy.
Import TaskManagerPy.

Inductive WorkflowStatus : Type :=
| W_PENDING | W_RUNNING | W_PAUSED | W_COMPLETED | W_FAILED | W_CANCELLED.

Inductive WorkflowStepType : Type :=
| TASK | CONDITION | PARALLEL | DELAY | TOOL_CALL.

#[global] Instance WorkflowStatus_eq_dec : EqDecision WorkflowStatus.
Proof. solve_decision. Defined.

Definition wstatus_eqb (a b : WorkflowStatus) : bool := bool_decide (a = b).

(** [step_config]: the entries the engine reads, each absent or present.
    A nested step specification [s] of a parallel step carries what
    [s['id']], [s.get("name", "Parallel Step")],
    [s.get("type", WorkflowStepType.TASK)] and [s.get("config", {})] give. *)
Inductive StepConfig : Type := mkStepConfig {
  cfg_description : option string;
  cfg_execution_func : option callable;
  cfg_tool_name : option string;
  cfg_tool_args : option pydict;
  cfg_seconds : option Q;
  cfg_condition : option (pyval -> outcome pyval);
  cfg_context : option pyval;
  cfg_steps : option (list SubStep);
}
with SubStep : Type := mkSubStep {
  sub_id : option string;
  sub_name : string;
  sub_type : WorkflowStepType;
  sub_config : StepConfig;
}.

(** The empty configuration [{}]. *)
Definition empty_config : StepConfig :=
  mkStepConfig None None None None None None None None.

(** What [step.result] can hold: the task object [execute_task] returned,
    or a plain value. *)
Inductive StepResult : Type :=
| ResTask (t : option Task)
| ResVal (v : pyval).

Record WorkflowStep : Type := mkWorkflowStep {
  step_id : string;
  step_name : string;
  step_type : WorkflowStepType;
  step_config : StepConfig;
  depends_on : list string;
  step_status : TaskStatus;
  step_result : option StepResult;
  step_error : option string;
}.

Record Workflow : Type := mkWorkflow {
  wf_id : string;
  wf_name : string;
  wf_description : string;
  wf_steps : list WorkflowStep;
  wf_status : WorkflowStatus;
  wf_created_at : Z;
  wf_started_at : option Z;
  wf_completed_at : option Z;
  wf_progress : Q;
  wf_metadata : pydict;
}.

Definition set_step_status (v : TaskStatus) (s : WorkflowStep) : WorkflowStep :=
  mkWorkflowStep (step_id s) (step_name s) (step_type s) (step_config s)
    (depends_on s) v (step_result s) (step_error s).

Definition set_step_result (v : option StepResult) (s : WorkflowStep)
  : WorkflowStep :=
  mkWorkflowStep (step_id s) (step_name s) (step_type s) (step_config s)
    (depends_on s) (step_status s) v (step_error s).

Definition set_step_error (v : option string) (s : WorkflowStep)
  : WorkflowStep :=
  mkWorkflowStep (step_id s) (step_name s) (step_type s) (step_config s)
    (depends_on s) (step_status s) (step_result s) v.

Definition set_wf_steps (v : list WorkflowStep) (w : Workflow) : Workflow :=
  mkWorkflow (wf_id w) (wf_name w) (wf_description w) v (wf_status w)
    (wf_created_at w) (wf_started_at w) (wf_completed_at w) (wf_progress w)
    (wf_metadata w).

Definition set_wf_status (v : WorkflowStatus) (w : Workflow) : Workflow :=
  mkWorkflow (wf_id w) (wf_name w) (wf_description w) (wf_steps w) v
    (wf_created_at w) (wf_started_at w) (wf_completed_at w) (wf_progress w)
    (wf_metadata w).

Definition set_wf_started_at (v : option Z) (w : Workflow) : Workflow :=
  mkWorkflow (wf_id w) (wf_name w) (wf_description w) (wf_steps w)
    (wf_status w) (wf_created_at w) v (wf_completed_at w) (wf_progress w)
    (wf_metadata w).

Definition set_wf_completed_at (v : option Z) (w : Workflow) : Workflow :=
  mkWorkflow (wf_id w) (wf_name w) (wf_description w) (wf_steps w)
    (wf_status w) (wf_created_at w) (wf_started_at w) v (wf_progress w)
    (wf_metadata w).

Definition set_wf_progress (v : Q) (w : Workflow) : Workflow :=
  mkWorkflow (wf_id w) (wf_name w) (wf_description w) (wf_steps w)
    (wf_status w) (wf_created_at w) (wf_started_at w) (wf_completed_at w) v
    (wf_metadata w).

(** The [WorkflowEngine] object. *)
Record WorkflowEngine : Type := mkWorkflowEngine {
  task_manager : TaskManager;
  workflows : OrderedDict.t Workflow;
  _running_workflows : gmap string nat;
}.

(** The engine, the event loop, and the environment's script for the
    suspension points of the running workflow unit: the n-th
    [asyncio.sleep] raises [CancelledError] when the n-th entry is [true]
    (somebody cancelled the unit while it slept) and resumes normally
    otherwise, also when the script is exhausted.  A [pause_workflow] or
    [cancel_workflow] that reaches the unit while it sleeps is such an
    entry; the status it sets is overwritten by the handler of the
    cancellation.  No other caller of the engine is followed during a
    run. *)
Record World : Type := mkWorld {
  engine : WorkflowEngine;
  wloop : EventLoop;
  script : list bool;
}.

(** [WorkflowEngine()] on a fresh event loop, with nothing scripted. *)
Definition init_engine : World :=
  mkWorld (mkWorkflowEngine (mkTaskManager OrderedDict.empty ∅)
                            OrderedDict.empty ∅) [] [].

(** The tool registry: each tool is the function from its keyword
    arguments to what awaiting the call yields. *)
Abbreviation ToolRegistry := (OrderedDict.t (pydict -> outcome pyval)).

(** Calls into the task manager see the manager and the shared loop. *)
Definition tm_state (w : World) : State :=
  mkState (task_manager (engine w)) (wloop w).

Definition with_tm_state (s : State) (w : World) : World :=
  mkWorld (mkWorkflowEngine (manager s) (workflows (engine w))
                            (_running_workflows (engine w)))
          (loop s) (script w).

Definition with_workflows (t : OrderedDict.t Workflow) (w : World) : World :=
  mkWorld (mkWorkflowEngine (task_manager (engine w)) t
                            (_running_workflows (engine w)))
          (wloop w) (script w).

Definition with_running (r : gmap string nat) (w : World) : World :=
  mkWorld (mkWorkflowEngine (task_manager (engine w)) (workflows (engine w)) r)
          (wloop w) (script w).

Definition with_loop (l : EventLoop) (w : World) : World :=
  mkWorld (engine w) l (script w).

(** [await asyncio.sleep(_)], as the sleeping unit sees it: it resumes, or
    it is cancelled.  What the event loop runs in the meantime (the
    wrappers of tasks that earlier steps launched, other callers of the
    task manager) is not followed: after a sleep the model's task manager
    and loop say what this unit did to them and no more. *)
Definition sleep (w : World) : outcome unit * World :=
  match script w with
  | [] => (Ok tt, w)
  | cancelled :: rest =>
      (if cancelled then Raise CancelledError else Ok tt,
       mkWorld (engine w) (wloop w) rest)
  end.

(** [_get_step_by_id] *)
Definition _get_step_by_id (workflow : Workflow) (id : string)
  : option WorkflowStep :=
  List.find (fun step => String.eqb (step_id step) id) (wf_steps workflow).

(** The dependency check of [_execute_workflow_task]: one sleep for each
    dependency that is unknown or not completed, then on to the next one. *)
Fixpoint check_dependencies (workflow : Workflow) (deps : list string)
    (w : World) : outcome unit * World :=
  match deps with
  | [] => (Ok tt, w)
  | dep_id :: rest =>
      let waiting :=
        match _get_step_by_id workflow dep_id with
        | None => true
        | Some dep_step => negb (status_eqb (step_status dep_step) COMPLETED)
        end in
      if waiting then
        match sleep w with
        | (Ok _, w1) => check_dependencies workflow rest w1
        | (Raise e, w1) => (Raise e, w1)
        end
      else check_dependencies workflow rest w
  end.

(** The first exception of a list of outcomes in the order of the list, or
    all the values. *)
Fixpoint gathered (rs : list (outcome pyval)) : outcome (list pyval) :=
  match rs with
  | [] => Ok []
  | Raise e :: _ => Raise e
  | Ok v :: rs' =>
      match gathered rs' with
      | Ok vs => Ok (v :: vs)
      | Raise e => Raise e
      end
  end.

Section WithLibrary.

Variable py : PyLib.
Variable now : Z.
Variable tool_registry : ToolRegistry.

(** The [try] block of [_execute_step]: what is assigned to [step.result],
    or the exception raised before the assignment.

    In the parallel branch, [asyncio.gather] starts every nested step; the
    model runs them to their end one after the other in declaration order
    and then raises the first exception, if any.  That is the exception
    [asyncio.gather] raises when at most one nested step fails; when
    several fail, the code raises the one that fails first in time, which
    the model does not determine.  A nested step object is local to
    [execute_parallel_step], so its status and error vanish with it, and
    [_execute_step] returns [None]. *)
Fixpoint step_body (cfg : StepConfig) (id name : string)
    (ty : WorkflowStepType) (w : World) {struct cfg}
  : outcome StepResult * World :=
  match cfg with
  | mkStepConfig description execution_func tool_name tool_args seconds
                 condition context steps =>
      match ty with
      | TASK =>
          (* Create and execute task *)
          let (created, s1) :=
            create_task py now name (default "" description) MEDIUM None None
              (Some [("step_id", VStr id); ("workflow", VBool true)])
              None None (tm_state w) in
          let w1 := with_tm_state s1 w in
          match created with
          | Raise e => (Raise e, w1)
          | Ok task =>
              match execution_func with
              | Some func =>
                  let (result, s2) :=
                    execute_task now (task_id task) func (tm_state w1) in
                  (Ok (ResTask result), with_tm_state s2 w1)
              | None =>
                  (* Just create the task *)
                  (Ok (ResVal (VDict [("task_id", VStr (task_id task))])), w1)
              end
          end
      | TOOL_CALL =>
          match tool_name with
          | None => (Raise (KeyError "tool_name"), w)
          | Some tool_name =>
              let tool_args := default [] tool_args in
              match OrderedDict.get tool_name tool_registry with
              | None => (Raise (ValueError ("Tool not found: " +:+ tool_name)), w)
              | Some tool_func =>
                  match tool_func tool_args with
                  | Ok v => (Ok (ResVal v), w)
                  | Raise e => (Raise e, w)
                  end
              end
          end
      | DELAY =>
          let delay_seconds := default 1%Q seconds in
          match sleep w with
          | (Ok _, w1) =>
              (Ok (ResVal (VDict [("delayed", VFloat delay_seconds)])), w1)
          | (Raise e, w1) => (Raise e, w1)
          end
      | CONDITION =>
          match condition with
          | None => (Raise (ValueError "Condition function not provided"), w)
          | Some condition_func =>
              match condition_func (default (VDict []) context) with
              | Ok result =>
                  (Ok (ResVal (VDict [("condition_result", result)])), w)
              | Raise e => (Raise e, w)
              end
          end
      | PARALLEL =>
          (* Execute multiple steps in parallel *)
          let fix run_all (parallel_steps : list SubStep) (w : World)
            : list (outcome pyval) * World :=
            match parallel_steps with
            | [] => ([], w)
            | s :: rest =>
                let (r, w1) :=
                  (* execute_parallel_step(s) *)
                  match s with
                  | mkSubStep None _ _ _ => (Raise (KeyError "id"), w)
                  | mkSubStep (Some sid) sname stype sconfig =>
                      match step_body sconfig (id +:+ "_" +:+ sid) sname
                                      stype w with
                      | (Ok _, w1) => (Ok VNone, w1)
                      | (Raise e, w1) => (Raise e, w1)
                      end
                  end in
                let (rs, w2) := run_all rest w1 in
                (r :: rs, w2)
            end in
          let (rs, w1) :=
            match steps with
            | Some parallel_steps => run_all parallel_steps w
            | None => ([], w)
            end in
          match gathered rs with
          | Ok results =>
              (Ok (ResVal (VDict [("parallel_results", VList results)])), w1)
          | Raise e => (Raise e, w1)
          end
      end
  end.

(** [_execute_step].  The step object is mutated in place; the model
    returns it next to the outcome.  [except Exception] does not catch a
    cancellation, which leaves the step in progress. *)
Definition _execute_step (step : WorkflowStep) (w : World)
  : outcome unit * WorkflowStep * World :=
  let step := set_step_status IN_PROGRESS step in
  match step_body (step_config step) (step_id step) (step_name step)
                  (step_type step) w with
  | (Ok result, w1) =>
      let step := set_step_result (Some result) step in
      let step := set_step_status COMPLETED step in
      (Ok tt, step, w1)
  | (Raise e, w1) =>
      if is_Exception e then
        let step := set_step_status FAILED step in
        let step := set_step_error (Some (str_exn e)) step in
        (Raise e, step, w1)
      else (Raise e, step, w1)
  end.

(** The [for step in workflow.steps] loop of [_execute_workflow_task];
    [steps_executed] is also the position of [step] in [workflow.steps]. *)
Fixpoint run_steps (todo : list WorkflowStep) (steps_executed : nat)
    (workflow : Workflow) (w : World) : outcome unit * Workflow * World :=
  match todo with
  | [] => (Ok tt, workflow, w)
  | step :: todo' =>
      (* Check dependencies *)
      match check_dependencies workflow (depends_on step) w with
      | (Raise e, w1) => (Raise e, workflow, w1)
      | (Ok _, w1) =>
          (* Execute step *)
          let '(r, step', w2) := _execute_step step w1 in
          let workflow :=
            set_wf_steps (<[steps_executed := step']> (wf_steps workflow))
                         workflow in
          match r with
          | Raise e => (Raise e, workflow, w2)
          | Ok _ =>
              let workflow :=
                set_wf_progress
                  ((inject_Z (Z.of_nat (steps_executed + 1))
                    / inject_Z (Z.of_nat (length (wf_steps workflow))))
                   * 100)%Q workflow in
              run_steps todo' (steps_executed + 1) workflow w2
          end
      end
  end.

(** [_execute_workflow_task].  In the [except Exception] handler the code
    reads [WorkflowStatus.FALED], which the enumeration does not define:
    the attribute lookup raises [AttributeError] before anything is
    assigned.  The [finally] clause then removes the handle, raising
    [KeyError] if there is none under [workflow.id]. *)
Definition _execute_workflow_task (workflow : Workflow) (w : World)
  : outcome unit * Workflow * World :=
  let '(r, workflow, w1) :=
    match run_steps (wf_steps workflow) 0 workflow w with
    | (Ok _, workflow, w1) =>
        let workflow := set_wf_status W_COMPLETED workflow in
        let workflow := set_wf_completed_at (Some now) workflow in
        (Ok tt, workflow, w1)
    | (Raise CancelledError, workflow, w1) =>
        let workflow := set_wf_status W_CANCELLED workflow in
        (Ok tt, workflow, w1)
    | (Raise e, workflow, w1) =>
        if is_Exception e then (Raise (AttributeError "FALED"), workflow, w1)
        else (Raise e, workflow, w1)
    end in
  (* finally *)
  match _running_workflows (engine w1) !! wf_id workflow with
  | Some _ =>
      (r, workflow,
       with_running (delete (wf_id workflow) (_running_workflows (engine w1)))
                    w1)
  | None => (Raise (KeyError (wf_id workflow)), workflow, w1)
  end.

(** [execute_workflow], when nothing reaches the unit between its
    creation and its first step ([execute_workflow_after] below has the
    other case): the unit is created and awaited at once and runs to its
    end; the workflow object it mutated is the one in the table. *)
Definition execute_workflow (workflow_id : string) (w : World)
  : outcome Workflow * World :=
  match OrderedDict.get workflow_id (workflows (engine w)) with
  | None => (Raise (ValueError ("Workflow not found: " +:+ workflow_id)), w)
  | Some workflow =>
      let workflow := set_wf_status W_RUNNING workflow in
      let workflow := set_wf_started_at (Some now) workflow in
      (* Create execution task *)
      let (h, loop1) :=
        create_unit (ExecuteWorkflowTask workflow_id) (wloop w) in
      let w1 :=
        with_running (<[workflow_id := h]> (_running_workflows (engine w)))
                     (with_loop loop1 w) in
      (* Wait for completion *)
      let '(r, workflow, w2) := _execute_workflow_task workflow w1 in
      let w3 :=
        with_workflows
          (OrderedDict.set workflow_id workflow (workflows (engine w2)))
          (with_loop (finish_unit h (wloop w2)) w2) in
      match r with
      | Ok _ => (Ok workflow, w3)
      | Raise e => (Raise e, w3)
      end
  end.

(** [_generate_workflow_id].  [combined.encode()] raises for a name that
    cannot be encoded. *)
Definition _generate_workflow_id (name : string) : outcome string :=
  let timestamp := str_time py now in
  let combined := name +:+ "_" +:+ timestamp in
  match utf8_error py combined with
  | Some msg => Raise (UnicodeEncodeError msg)
  | None => Ok (String.substring 0 16 (sha256_hexdigest py combined))
  end.

(** [create_workflow].  The only failure is that of the id generation,
    before anything is built or stored. *)
Definition create_workflow (name description : string)
    (steps : list WorkflowStep) (metadata : option pydict) (w : World)
  : outcome Workflow * World :=
  match _generate_workflow_id name with
  | Raise e => (Raise e, w)
  | Ok workflow_id =>
      let workflow :=
        {| wf_id := workflow_id;
           wf_name := name;
           wf_description := description;
           wf_steps := steps;
           wf_status := W_PENDING;
           wf_created_at := now;
           wf_started_at := None;
           wf_completed_at := None;
           wf_progress := 0;
           wf_metadata := or_default metadata [] |} in
      (Ok workflow,
       with_workflows
         (OrderedDict.set workflow_id workflow (workflows (engine w))) w)
  end.

End WithLibrary.

(** [get_workflow] *)
Definition get_workflow (workflow_id : string) (w : World) : option Workflow :=
  OrderedDict.get workflow_id (workflows (engine w)).

(** [pause_workflow] and [cancel_workflow] differ in the status they set. *)
Definition stop_workflow (status : WorkflowStatus) (workflow_id : string)
    (w : World) : bool * World :=
  match _running_workflows (engine w) !! workflow_id with
  | Some h =>
      let w1 := with_loop (cancel_unit h (wloop w)) w in
      match OrderedDict.get workflow_id (workflows (engine w1)) with
      | Some workflow =>
          (true,
           with_workflows
             (OrderedDict.set workflow_id (set_wf_status status workflow)
                              (workflows (engine w1))) w1)
      | None => (true, w1)
      end
  | None => (false, w)
  end.

Definition pause_workflow := stop_workflow W_PAUSED.
Definition cancel_workflow := stop_workflow W_CANCELLED.

(** What can reach the new unit of [execute_workflow] between its creation
    and its first step, while [execute_workflow] is suspended in its
    [await]: another coroutine calls [pause_workflow] or [cancel_workflow]
    with this id, or the task that awaits [execute_workflow] is cancelled
    itself, and asyncio passes that [cancel()] on to the unit it waits
    for. *)
Inductive early_call : Type :=
| EarlyPause
| EarlyCancel
| AwaiterCancelled.

Definition early (workflow_id : string) (h : nat) (w : World)
    (c : early_call) : World :=
  match c with
  | EarlyPause => (pause_workflow workflow_id w).2
  | EarlyCancel => (cancel_workflow workflow_id w).2
  | AwaiterCancelled => with_loop (cancel_unit h (wloop w)) w
  end.

(** [execute_workflow], given the calls that arrive before the first step
    of the unit it creates.  With no such call the unit runs as soon as it
    is awaited, which is [execute_workflow] above.  Otherwise [cancel()]
    finds the unit not started: asyncio then raises [CancelledError] in
    the coroutine before its first statement, so neither the [try] block
    nor the [finally] clause of [_execute_workflow_task] runs, the unit
    ends cancelled, and the [await] raises [CancelledError].  The workflow
    object was mutated before the unit was created, and the calls see
    it. *)
Definition execute_workflow_after (calls : list early_call) (py : PyLib)
    (now : Z) (tool_registry : ToolRegistry) (workflow_id : string)
    (w : World) : outcome Workflow * World :=
  match calls with
  | [] => execute_workflow py now tool_registry workflow_id w
  | _ :: _ =>
      match OrderedDict.get workflow_id (workflows (engine w)) with
      | None =>
          (Raise (ValueError ("Workflow not found: " +:+ workflow_id)), w)
      | Some workflow =>
          let workflow := set_wf_status W_RUNNING workflow in
          let workflow := set_wf_started_at (Some now) workflow in
          let (h, loop1) :=
            create_unit (ExecuteWorkflowTask workflow_id) (wloop w) in
          let w1 :=
            with_workflows
              (OrderedDict.set workflow_id workflow (workflows (engine w)))
              (with_running
                 (<[workflow_id := h]> (_running_workflows (engine w)))
                 (with_loop loop1 w)) in
          let w2 := foldl (early workflow_id h) w1 calls in
          (Raise CancelledError, with_loop (finish_unit h (wloop w2)) w2)
      end
  end.

(** [list_workflows] *)
Definition list_workflows (status : option WorkflowStatus) (w : World)
  : list Workflow :=
  let all := OrderedDict.values (workflows (engine w)) in
  match status with
  | Some s => List.filter (fun x => wstatus_eqb (wf_status x) s) all
  | None => all
  end.

(** [delete_workflow] *)
Definition delete_workflow (workflow_id : string) (w : World) : bool * World :=
  if OrderedDict.mem workflow_id (workflows (engine w)) then
    (true,
     with_workflows (OrderedDict.del workflow_id (workflows (engine w))) w)
  else (false, w).

End WorkflowEnginePy.

(* ===================================================================== *)
(** * Runs of the task manager                                             *)
(* ===================================================================== *)

(** The state-changing operations a caller (or the event loop, for
    [RunUnit]) can perform on a task manager, and the states they reach
    from a fresh manager.  Each operation comes with the instant at which
    it happens. *)

Module TaskManagerRuns.
Import TaskManagerPy.

Inductive operation : Type :=
| CreateTask (name description : string) (priority : TaskPriority)
    (assigned_to : option string) (tags : option (list string))
    (metadata : option pydict) (dependencies : option (list string))
    (workflow_id : option string)
| UpdateTaskStatus (task_id : string) (status : TaskStatus)
    (progress : option Q) (result : option pydict) (error : option string)
| DeleteTask (task_id : string)
| ExecuteTask (task_id : string) (execution_func : callable)
| RunUnit (h : nat) (started : bool) (awaited : outcome pyval).

Definition apply (py : PyLib) (now : Z) (op : operation) (st : State) : State :=
  match op with
  | CreateTask name description priority assigned_to tags metadata
               dependencies workflow_id =>
      (create_task py now name description priority assigned_to tags metadata
                   dependencies workflow_id st).2
  | UpdateTaskStatus task_id status progress result error =>
      (update_task_status now task_id status progress result error st).2
  | DeleteTask task_id => (delete_task task_id st).2
  | ExecuteTask task_id execution_func =>
      (execute_task now task_id execution_func st).2
  | RunUnit h started awaited => run_unit now h started awaited st
  end.

Fixpoint run (py : PyLib) (ops : list (Z * operation)) (st : State) : State :=
  match ops with
  | [] => st
  | (now, op) :: ops' => run py ops' (apply py now op st)
  end.

Definition reachable (py : PyLib) (st : State) : Prop :=
  exists ops, st = run py ops init_manager.

End TaskManagerRuns.

(* ===================================================================== *)
(** * Concrete inputs used by the examples                                 *)
(* ===================================================================== *)

(** A stand-in for the library: the digest of a string is the string
    itself and an instant prints as its number in decimal.  A string
    holds the bytes of its UTF-8 form, a lone surrogate showing as the
    three bytes that the [surrogatepass] handler writes for it: 0xED, a
    byte from 0xA0 on, and one more. *)
Fixpoint has_surrogate (s : string) : bool :=
  match s with
  | String a rest =>
      match rest with
      | String b _ =>
          (Nat.eqb (nat_of_ascii a) 237 && Nat.leb 160 (nat_of_ascii b))
          || has_surrogate rest
      | EmptyString => false
      end
  | EmptyString => false
  end.

Definition demo_py : PyLib :=
  mkPyLib
    (fun s => if has_surrogate s then Some "surrogates not allowed" else None)
    (fun s => s) pretty pretty.

(** The one-character string [chr(0xDC80)]. *)
Definition lone_surrogate : string :=
  String (ascii_of_nat 237) (String (ascii_of_nat 178)
                               (String (ascii_of_nat 128) EmptyString)).

(* ===================================================================== *)
(** * tt/task_manager.py: statistics                                       *)
(* ===================================================================== *)

Module TaskStatisticsPy.
Import TaskManagerPy.

(** [status.value] and [priority.value] *)
Definition status_value (s : TaskStatus) : string :=
  match s with
  | PENDING => "pending"
  | IN_PROGRESS => "in_progress"
  | COMPLETED => "completed"
  | FAILED => "failed"
  | CANCELLED => "cancelled"
  end.

Definition priority_value (p : TaskPriority) : string :=
  match p with
  | LOW => "low"
  | MEDIUM => "medium"
  | HIGH => "high"
  | URGENT => "urgent"
  end.

(** [for status in TaskStatus] and [for priority in TaskPriority] walk the
    members in definition order. *)
Definition all_statuses : list TaskStatus :=
  [PENDING; IN_PROGRESS; COMPLETED; FAILED; CANCELLED].

Definition all_priorities : list TaskPriority := [LOW; MEDIUM; HIGH; URGENT].

(** [sum(1 for t in self.tasks.values() if t.status == status)] *)
Definition count_status (s : TaskStatus) (ts : list Task) : Z :=
  Z.of_nat (length (List.filter (fun t => status_eqb (task_status t) s) ts)).

Definition count_priority (p : TaskPriority) (ts : list Task) : Z :=
  Z.of_nat (length (List.filter (fun t => priority_eqb (task_priority t) p) ts)).

(** [sum(t.progress for t in self.tasks.values())] *)
Definition sum_progress (ts : list Task) : Q :=
  fold_left (fun acc t => (acc + task_progress t)%Q) ts 0%Q.

(** [get_task_statistics] *)
Definition get_task_statistics (st : State) : pydict :=
  let ts := OrderedDict.values (tasks (manager st)) in
  let total_tasks := Z.of_nat (length ts) in
  let status_counts :=
    map (fun s => (status_value s, VInt (count_status s ts))) all_statuses in
  let priority_counts :=
    map (fun p => (priority_value p, VInt (count_priority p ts)))
        all_priorities in
  let avg_progress :=
    if Z.ltb 0 total_tasks
    then (sum_progress ts / inject_Z total_tasks)%Q
    else 0%Q in
  [ ("total_tasks", VInt total_tasks);
    ("status_counts", VDict status_counts);
    ("priority_counts", VDict priority_counts);
    ("average_progress", VFloat (py_round2 avg_progress));
    ("running_tasks", VInt (Z.of_nat (size (_running_tasks (manager st))))) ].

End TaskStatisticsPy.

(* ===================================================================== *)
(** * server.py: the task and progress tools                               *)
(* ===================================================================== *)

(** The tools that [register_tt_tools] wraps around the task manager and
    the progress tracker.  A tool returns a dictionary, or raises what the
    conversion of its string arguments raises. *)

Module ServerToolsPy.
Import TaskManagerPy TaskStatisticsPy.

(** [TaskPriority(value)] and [TaskStatus(value)]: the member with that
    value, or [ValueError]. *)
Definition TaskPriority_of (value : string) : outcome TaskPriority :=
  if String.eqb value "low" then Ok LOW
  else if String.eqb value "medium" then Ok MEDIUM
  else if String.eqb value "high" then Ok HIGH
  else if String.eqb value "urgent" then Ok URGENT
  else Raise (ValueError ("'" +:+ value +:+ "' is not a valid TaskPriority")).

Definition TaskStatus_of (value : string) : outcome TaskStatus :=
  if String.eqb value "pending" then Ok PENDING
  else if String.eqb value "in_progress" then Ok IN_PROGRESS
  else if String.eqb value "completed" then Ok COMPLETED
  else if String.eqb value "failed" then Ok FAILED
  else if String.eqb value "cancelled" then Ok CANCELLED
  else Raise (ValueError ("'" +:+ value +:+ "' is not a valid TaskStatus")).

Definition not_found (what : string) : pydict :=
  [("success", VBool false); ("error", VStr (what +:+ " not found"))].

(** [task_create] *)
Definition task_create (py : PyLib) (now : Z) (name description : string)
    (priority : string) (assigned_to : option string)
    (tags dependencies : option (list string)) (st : State)
  : outcome pydict * State :=
  match TaskPriority_of priority with
  | Raise e => (Raise e, st)
  | Ok p =>
      let (created, st') :=
        create_task py now name description p assigned_to tags None
                    dependencies None st in
      match created with
      | Raise e => (Raise e, st')
      | Ok task =>
          (Ok [ ("success", VBool true);
                ("task_id", VStr (task_id task));
                ("name", VStr (task_name task));
                ("priority", VStr priority) ],
           st')
      end
  end.

(** [task_get] *)
Definition task_get (task_id : string) (st : State) : pydict :=
  match get_task task_id st with
  | None => not_found "Task"
  | Some task =>
      [ ("success", VBool true);
        ("task",
         VDict [ ("id", VStr (TaskManagerPy.task_id task));
                 ("name", VStr (task_name task));
                 ("description", VStr (task_description task));
                 ("status", VStr (status_value (task_status task)));
                 ("priority", VStr (priority_value (task_priority task)));
                 ("progress", VFloat (task_progress task)) ]) ]
  end.

(** [task_update_status] *)
Definition task_update_status (now : Z) (task_id : string) (status : string)
    (progress : option Q) (st : State) : outcome pydict * State :=
  match TaskStatus_of status with
  | Raise e => (Raise e, st)
  | Ok s =>
      match update_task_status now task_id s progress None None st with
      | (None, st') => (Ok (not_found "Task"), st')
      | (Some task, st') =>
          (Ok [ ("success", VBool true);
                ("task_id", VStr (TaskManagerPy.task_id task));
                ("status", VStr (status_value (task_status task)));
                ("progress", VFloat (task_progress task)) ],
           st')
      end
  end.

(** [task_list]: [status=TaskStatus(status) if status else None]. *)
Definition task_list (status assigned_to : option string) (st : State)
  : outcome (list pyval) :=
  let converted :=
    if truthy_str status
    then match TaskStatus_of (default "" status) with
         | Ok s => Ok (Some s)
         | Raise e => Raise e
         end
    else Ok None in
  match converted with
  | Raise e => Raise e
  | Ok filter =>
      Ok (map (fun t =>
                 VDict [ ("id", VStr (task_id t));
                         ("name", VStr (task_name t));
                         ("status", VStr (status_value (task_status t)));
                         ("priority",
                          VStr (priority_value (task_priority t)));
                         ("progress", VFloat (task_progress t)) ])
              (list_tasks filter None assigned_to None None st))
  end.

(** [progress_get]: [if not summary] holds for [None] and for an empty
    dictionary. *)
Definition progress_get (py : PyLib) (now : Z) (meter_id : string)
    (tr : ProgressTrackerPy.ProgressTracker) : pydict :=
  match ProgressTrackerPy.get_meter_summary py now meter_id tr with
  | Some (entry :: rest) =>
      [("success", VBool true); ("progress", VDict (entry :: rest))]
  | _ => not_found "Progress meter"
  end.

(** [progress_update]: always passes [state=ProgressState.IN_PROGRESS]. *)
Definition progress_update (py : PyLib) (now : Z) (meter_id : string)
    (progress : Q) (message : option string)
    (tr : ProgressTrackerPy.ProgressTracker)
  : outcome pydict * ProgressTrackerPy.ProgressTracker :=
  match ProgressTrackerPy.update_progress py now meter_id None (Some progress)
          (Some ProgressTrackerPy.IN_PROGRESS) message None tr with
  | (Raise e, tr') => (Raise e, tr')
  | (Ok None, tr') => (Ok (not_found "Progress meter"), tr')
  | (Ok (Some meter), tr') =>
      (Ok [ ("success", VBool true);
            ("meter_id", VStr (ProgressTrackerPy.meter_id meter));
            ("progress", VFloat (ProgressTrackerPy.progress meter));
            ("state",
             VStr (ProgressTrackerPy.state_value
                     (ProgressTrackerPy.state meter))) ],
       tr')
  end.

(** The calls a client can make on the two progress tools, and the
    trackers they reach from the fresh one the server creates. *)
Inductive progress_call : Type :=
| ProgressGet (meter_id : string)
| ProgressUpdate (meter_id : string) (progress : Q) (message : option string).

Definition progress_apply (py : PyLib) (now : Z) (c : progress_call)
    (tr : ProgressTrackerPy.ProgressTracker)
  : outcome pydict * ProgressTrackerPy.ProgressTracker :=
  match c with
  | ProgressGet meter_id => (Ok (progress_get py now meter_id tr), tr)
  | ProgressUpdate meter_id progress message =>
      progress_update py now meter_id progress message tr
  end.

Fixpoint progress_run (py : PyLib) (calls : list (Z * progress_call))
    (tr : ProgressTrackerPy.ProgressTracker)
  : ProgressTrackerPy.ProgressTracker :=
  match calls with
  | [] => tr
  | (now, c) :: calls' =>
      progress_run py calls' (progress_apply py now c tr).2
  end.

End ServerToolsPy.

(* ===================================================================== *)
(** * Vocabulary of the properties                                         *)
(* ===================================================================== *)

(** [s] occurs in [m] as a contiguous piece. *)
Definition occurs_in (s m : string) : Prop :=
  exists pre post, m = pre +:+ s +:+ post.

Module TaskManagerSpec.
Import TaskManagerPy.

(** The task [update_task_status] leaves under a known id. *)
Definition updated_task (now : Z) (status : TaskStatus) (progress : option Q)
    (result : option pydict) (error : option string) (task : Task) : Task :=
  let task := set_updated_at now (set_status status task) in
  let task :=
    match progress with
    | Some p => set_progress (py_max 0 (py_min 100 p)) task
    | None => task
    end in
  let task :=
    match result with Some r => set_result (Some r) task | None => task end in
  let task :=
    match error with Some e => set_error (Some e) task | None => task end in
  if status_eqb status COMPLETED
  then set_progress 100 (set_completed_at (Some now) task)
  else task.

(** A completed task has its completion instant and full progress. *)
Definition completed_ok (t : Task) : Prop :=
  task_status t = COMPLETED ->
  is_Some (task_completed_at t) /\ task_progress t = 100%Q.

Definition table_ok (st : State) : Prop :=
  forall t, In t (OrderedDict.values (tasks (manager st))) -> completed_ok t.

(** The invariant the specification gives a task: [completed_at] is set
    exactly in status [COMPLETED], and [error] only in status [FAILED]. *)
Definition stated_invariant (t : Task) : Prop :=
  (is_Some (task_completed_at t) <-> task_status t = COMPLETED) /\
  (is_Some (task_error t) -> task_status t = FAILED).

(** The order of the result: a more urgent priority first, and within a
    priority the earlier creation first. *)
Definition task_le (a b : Task) : Prop :=
  priority_order (task_priority a) < priority_order (task_priority b) \/
  (priority_order (task_priority a) = priority_order (task_priority b) /\
   (task_created_at a <= task_created_at b)%Z).

Definition has_key (k : nat * Z) (t : Task) : bool :=
  bool_decide (sort_key t = k).

(** A task passes the filters when it agrees with every filter that is
    present and not empty. *)
Definition matches (status : option TaskStatus) (priority : option TaskPriority)
    (assigned_to workflow_id : option string) (tags : option (list string))
    (t : Task) : Prop :=
  (forall s, status = Some s -> task_status t = s) /\
  (forall p, priority = Some p -> task_priority t = p) /\
  (forall a, assigned_to = Some a -> a <> "" -> task_assigned_to t = Some a) /\
  (forall w, workflow_id = Some w -> w <> "" -> task_workflow_id t = Some w) /\
  (forall l, tags = Some l -> l <> [] ->
             exists tag, In tag l /\ In tag (task_tags t)).

(** The reading of the specification: every filter that is supplied
    counts, an empty one as well. *)
Definition stated_matches (status : option TaskStatus)
    (priority : option TaskPriority) (assigned_to workflow_id : option string)
    (tags : option (list string)) (t : Task) : Prop :=
  (forall s, status = Some s -> task_status t = s) /\
  (forall p, priority = Some p -> task_priority t = p) /\
  (forall a, assigned_to = Some a -> task_assigned_to t = Some a) /\
  (forall w, workflow_id = Some w -> task_workflow_id t = Some w) /\
  (forall l, tags = Some l -> exists tag, In tag l /\ In tag (task_tags t)).

(** [matches], as a boolean function. *)
Definition matchesb (status : option TaskStatus)
    (priority : option TaskPriority) (assigned_to workflow_id : option string)
    (tags : option (list string)) (t : Task) : bool :=
  match status with Some s => status_eqb (task_status t) s | None => true end
  && match priority with
     | Some p => priority_eqb (task_priority t) p
     | None => true
     end
  && (negb (truthy_str assigned_to)
      || bool_decide (task_assigned_to t = assigned_to))
  && (negb (truthy_str workflow_id)
      || bool_decide (task_workflow_id t = workflow_id))
  && (negb (truthy_list tags) || any_tag_in (default [] tags) t).

End TaskManagerSpec.

Module ProgressTrackerSpec.
Import ProgressTrackerPy.

(** The range the specification gives the two counters of a meter. *)
Definition in_range (m : ProgressMeter) : Prop :=
  (0 <= progress m)%Q /\ (progress m <= 100)%Q /\
  (0 <= current_step m <= total_steps m)%Z.

End ProgressTrackerSpec.

Module WorkflowEngineSpec.
Import TaskManagerPy WorkflowEnginePy.

(** A step that calls a tool nobody registered. *)
Definition missing_tool_step : WorkflowStep :=
  {| step_id := "s1";
     step_name := "call";
     step_type := TOOL_CALL;
     step_config :=
       mkStepConfig None None (Some "missing") None None None None None;
     depends_on := [];
     step_status := PENDING;
     step_result := None;
     step_error := None |}.

End WorkflowEngineSpec.

Module TaskManagerExtraSpec.
Import TaskManagerPy.

(** The name can be encoded: the string that [_generate_task_id] hashes at
    the instant [now] is one that [encode()] accepts. *)
Definition name_encodes (py : PyLib) (now : Z) (name : string) : bool :=
  match utf8_error py (name +:+ "_" +:+ isoformat py now) with
  | None => true
  | Some _ => false
  end.

(** The progress of a task is a percentage. *)
Definition progress_ok (t : Task) : Prop :=
  (0 <= task_progress t)%Q /\ (task_progress t <= 100)%Q.

(** The task table has one entry per id, filed under the task's own id. *)
Definition keys_ok (st : State) : Prop :=
  NoDup (OrderedDict.keys (tasks (manager st))) /\
  forall k t, In (k, t) (tasks (manager st)) -> task_id t = k.

(** A registered handle belongs to a task of the table and designates a
    unit of the loop that wraps an execution of that task. *)
Definition handles_ok (st : State) : Prop :=
  forall id h, _running_tasks (manager st) !! id = Some h ->
    is_Some (get_task id st) /\
    exists f s, loop st !! h = Some (mkAsyncUnit (ExecuteWrapper id f) s).

(** A property that every task of the table has. *)
Definition every_task (P : Task -> Prop) (st : State) : Prop :=
  forall t, In t (OrderedDict.values (tasks (manager st))) -> P t.

(** A loop that still has every unit of another one, with the same
    coroutine. *)
Definition loop_keeps (l l' : EventLoop) : Prop :=
  forall h c s, l !! h = Some (mkAsyncUnit c s) ->
                exists s', l' !! h = Some (mkAsyncUnit c s').

(** Every dependency of the task is a completed task of the table. *)
Definition deps_met (st : State) (task : Task) : Prop :=
  forall d, In d (task_dependencies task) ->
            dep_unmet (tasks (manager st)) d = false.

(** The sum of the integer entries of a dictionary of counts. *)
Fixpoint sum_counts (d : pydict) : Z :=
  match d with
  | [] => 0
  | (_, VInt n) :: d' => n + sum_counts d'
  | _ :: d' => sum_counts d'
  end.

End TaskManagerExtraSpec.

Module ProgressTrackerExtraSpec.
Import ProgressTrackerPy.

(** Every registered callback returns, or raises an [Exception]. *)
Definition callbacks_contained (tr : ProgressTracker) : Prop :=
  forall callback update e,
    In callback (_callbacks tr) -> callback update = Raise e ->
    is_Exception e = true.

(** The division of the step channel does not fail: the total is not 0
    and the quotient is within the range of a float. *)
Definition step_divides (current_step : option Z) (m : ProgressMeter) : Prop :=
  match current_step with
  | None => True
  | Some c =>
      total_steps m <> 0%Z /\
      float_overflows (inject_Z c / inject_Z (total_steps m)) = false
  end.

(** The conversion of the total in the progress channel does not fail:
    the total is within the range of a float. *)
Definition total_converts (p : option Q) (m : ProgressMeter) : Prop :=
  match p with
  | None => True
  | Some _ => float_overflows (inject_Z (total_steps m)) = false
  end.

(** The clamp of the direct progress channel. *)
Definition clamp (p : Q) : Q := py_max 0 (py_min 100 p).

End ProgressTrackerExtraSpec.

Module WorkflowEngineExtraSpec.
Import TaskManagerPy WorkflowEnginePy TaskManagerExtraSpec.


(** The test of the dependency loop of [_execute_workflow_task]: the
    dependency is unknown or not completed. *)
Definition waiting (workflow : Workflow) (dep_id : string) : bool :=
  match _get_step_by_id workflow dep_id with
  | None => true
  | Some dep_step => negb (status_eqb (step_status dep_step) COMPLETED)
  end.

Definition count_waiting (workflow : Workflow) (deps : list string) : nat :=
  length (List.filter (waiting workflow) deps).

(** The nested steps of a parallel step, run as [step_body] runs them. *)
Fixpoint run_parallel (py : PyLib) (now : Z) (reg : ToolRegistry)
    (id : string) (l : list SubStep) (w : World)
  : list (outcome pyval) * World :=
  match l with
  | [] => ([], w)
  | s :: rest =>
      let (r, w1) :=
        match sub_id s with
        | None => (Raise (KeyError "id"), w)
        | Some sid =>
            match step_body py now reg (sub_config s) (id +:+ "_" +:+ sid)
                            (sub_name s) (sub_type s) w with
            | (Ok _, w1) => (Ok VNone, w1)
            | (Raise e, w1) => (Raise e, w1)
            end
        end in
      let (rs, w2) := run_parallel py now reg id rest w1 in
      (r :: rs, w2)
  end.





(** [wf'] differs from [wf] in its steps and its progress at most. *)
Definition only_steps_and_progress (wf wf' : Workflow) : Prop :=
  wf' = set_wf_progress (wf_progress wf') (set_wf_steps (wf_steps wf') wf).



(** The world in which the unit of [execute_workflow] starts. *)
Definition launched (workflow_id : string) (w : World) : World :=
  with_running (<[workflow_id := length (wloop w)]>
                  (_running_workflows (engine w)))
    (with_loop (wloop w ++ [mkAsyncUnit (ExecuteWorkflowTask workflow_id)
                                        Scheduled]) w).

(** Concrete steps for the examples: a registry with one tool that
    returns its arguments, and a step of each kind. *)
Definition echo_registry : ToolRegistry :=
  [("echo", fun tool_args => Ok (VDict tool_args))].

Definition pending_step (id : string) (ty : WorkflowStepType)
    (cfg : StepConfig) (deps : list string) : WorkflowStep :=
  {| step_id := id;
     step_name := id;
     step_type := ty;
     step_config := cfg;
     depends_on := deps;
     step_status := PENDING;
     step_result := None;
     step_error := None |}.

Definition echo_config : StepConfig :=
  mkStepConfig None None (Some "echo") None None None None None.


Definition job_config : StepConfig :=
  mkStepConfig None (Some (Callable "job")) None None None None None None.

Definition parallel_config : StepConfig :=
  mkStepConfig None None None None None None None
    (Some [mkSubStep (Some "x") "Parallel Step" TASK empty_config;
           mkSubStep (Some "y") "call" TOOL_CALL echo_config]).

Definition sure_steps : list WorkflowStep :=
  [pending_step "a" TASK job_config ["z"];
   pending_step "b" TOOL_CALL echo_config ["c"];
   pending_step "c" PARALLEL parallel_config []].

(** The status that the calls arriving before the unit's first step leave
    on a running workflow: that of the last [pause_workflow] or
    [cancel_workflow] among them. *)
Definition after_call (status : WorkflowStatus) (c : early_call)
  : WorkflowStatus :=
  match c with
  | EarlyPause => W_PAUSED
  | EarlyCancel => W_CANCELLED
  | AwaiterCancelled => status
  end.


(** The engine's two tables are the same in both worlds. *)
Definition same_tables (w w' : World) : Prop :=
  workflows (engine w') = workflows (engine w) /\
  _running_workflows (engine w') = _running_workflows (engine w).

End WorkflowEngineExtraSpec.

(* ===================================================================== *)
(** * Properties                                                           *)
(* ===================================================================== *)

(** ** Dictionaries *)

Module OrderedDictFacts.
Import OrderedDict.
Section Facts.
Context {V : Type}.
Implicit Types (d : OrderedDict.t V) (k : string) (v : V).

Lemma get_set_eq d k v : get k (set k v d) = Some v.
Proof.
  induction d as [|[k' v'] d IH]; simpl.
  - by rewrite String.eqb_refl.
  - destruct (String.eqb k k') eqn:E; simpl.
    + by rewrite String.eqb_refl.
    + by rewrite E.
Qed.

Lemma get_set_ne d k k' v : k <> k' -> get k' (set k v d) = get k' d.
Proof.
  intros Hne. induction d as [|[k0 v0] d IH]; simpl.
  - destruct (String.eqb k' k) eqn:E; [|done].
    apply String.eqb_eq in E. congruence.
  - destruct (String.eqb k k0) eqn:E; simpl.
    + apply String.eqb_eq in E. subst k0.
      destruct (String.eqb k' k) eqn:E'; [|done].
      apply String.eqb_eq in E'. congruence.
    + destruct (String.eqb k' k0); [done|apply IH].
Qed.

Lemma del_absent d k : get k d = None -> del k d = d.
Proof.
  induction d as [|[k0 v0] d IH]; simpl; [done|].
  destruct (String.eqb k k0); [done|]. intros H. by rewrite IH.
Qed.

Lemma mem_false d k : get k d = None -> mem k d = false.
Proof. unfold mem. by intros ->. Qed.

Lemma get_In d k v : get k d = Some v -> In v (values d).
Proof.
  induction d as [|[k0 v0] d IH]; simpl; [done|].
  destruct (String.eqb k k0).
  - intros [= ->]. by left.
  - intros H. right. by apply IH.
Qed.

(** Every value of the updated table is the new value or an old one. *)
Lemma In_values_set d k v x :
  In x (values (set k v d)) -> x = v \/ In x (values d).
Proof.
  induction d as [|[k0 v0] d IH]; simpl.
  - intros [<-|[]]. by left.
  - destruct (String.eqb k k0); simpl.
    + intros [<-|H]; [by left|by right; right].
    + intros [<-|H]; [by right; left|].
      destruct (IH H) as [->|H']; [by left|by right; right].
Qed.

Lemma In_values_del d k x : In x (values (del k d)) -> In x (values d).
Proof.
  induction d as [|[k0 v0] d IH]; simpl; [done|].
  destruct (String.eqb k k0); simpl.
  - by right.
  - intros [<-|H]; [by left|right; by apply IH].
Qed.

End Facts.
End OrderedDictFacts.

(** ** Strings *)

Lemma append_assoc (a b c : string) : (a +:+ b) +:+ c = a +:+ (b +:+ c).
Proof.
  induction a as [|x a IH]; [done|].
  change (String x ((a +:+ b) +:+ c) = String x (a +:+ (b +:+ c))).
  by rewrite IH.
Qed.

Lemma append_empty_r (a : string) : a +:+ "" = a.
Proof.
  induction a as [|x a IH]; [done|].
  change (String x (a +:+ "") = String x a). by rewrite IH.
Qed.

Lemma occurs_in_prepend (p s m : string) :
  occurs_in s m -> occurs_in s (p +:+ m).
Proof.
  intros (pre & post & ->). exists (p +:+ pre), post.
  by rewrite append_assoc.
Qed.

(** Every element of a joined list occurs in the result of the join. *)
Lemma occurs_in_concat (sep : string) (l : list string) (s : string) :
  In s l -> occurs_in s (String.concat sep l).
Proof.
  induction l as [|x l IH]; [done|].
  intros [->|Hin].
  - destruct l as [|y l]; simpl.
    + exists "", "". by rewrite append_empty_r.
    + by exists "", (sep +:+ String.concat sep (y :: l)).
  - destruct l as [|y l]; [done|].
    change (String.concat sep (x :: y :: l))
      with (x +:+ sep +:+ String.concat sep (y :: l)).
    by do 2 apply occurs_in_prepend; apply IH.
Qed.

(** ** Task manager *)

Module TaskManagerProps.
Import TaskManagerPy TaskManagerSpec OrderedDictFacts.

Lemma update_task_status_known now task_id status progress result error st task :
  get_task task_id st = Some task ->
  let t' := updated_task now status progress result error task in
  let r := update_task_status now task_id status progress result error st in
  r.1 = Some t' /\
  tasks (manager r.2) = OrderedDict.set task_id t' (tasks (manager st)) /\
  get_task task_id r.2 = Some t'.
Proof.
  unfold get_task, update_task_status, updated_task. intros ->. simpl.
  destruct (status_eqb status COMPLETED);
    [destruct (_running_tasks (manager st) !! task_id)|];
    simpl; unfold get_task; simpl; by rewrite get_set_eq.
Qed.

Lemma update_task_status_keeps_units now task_id status progress result error st :
  status <> COMPLETED ->
  let r := update_task_status now task_id status progress result error st in
  loop r.2 = loop st /\
  _running_tasks (manager r.2) = _running_tasks (manager st).
Proof.
  intros Hs. unfold update_task_status.
  destruct (OrderedDict.get task_id (tasks (manager st))); [|done].
  unfold status_eqb. by rewrite bool_decide_eq_false_2.
Qed.

(** C3, as amended.  [create_task] validates nothing.  It fails exactly
    when the string it hashes for the id, the name followed by the
    instant, cannot be encoded, which is when the name holds a lone
    surrogate: it then raises [UnicodeEncodeError] and stores nothing.
    For every other name, the empty one included, it returns a task with
    that name, status [PENDING] and progress 0, and stores it under its
    id. *)
Theorem create_task_fails_only_on_encoding (py : PyLib) (now : Z)
    (name description : string) (priority : TaskPriority)
    (assigned_to : option string) (tags : option (list string))
    (metadata : option pydict) (dependencies : option (list string))
    (workflow_id : option string) (st : State) :
  let r := create_task py now name description priority assigned_to tags
                       metadata dependencies workflow_id st in
  match utf8_error py (name +:+ "_" +:+ isoformat py now) with
  | None =>
      exists task,
        r.1 = Ok task /\
        task_name task = name /\
        task_status task = PENDING /\
        task_progress task = 0%Q /\
        get_task (task_id task) r.2 = Some task
  | Some msg =>
      r.1 = Raise (UnicodeEncodeError msg) /\ r.2 = st
  end.
Proof.
  unfold create_task, _generate_task_id.
  destruct (utf8_error py (name +:+ "_" +:+ isoformat py now)) as [msg|];
    [done|].
  eexists. split; [reflexivity|]. simpl.
  repeat split. unfold get_task. simpl. apply get_set_eq.
Qed.

(** The two cases on the stand-in library: the name ["job"] is accepted,
    and the name [chr(0xDC80)] is refused before anything is stored. *)
Lemma create_task_encoding_examples :
  (exists task,
     (create_task demo_py 0 "job" "" MEDIUM None None None None None
                  init_manager).1 = Ok task /\
     task_id task = "job_0") /\
  create_task demo_py 0 lone_surrogate "" MEDIUM None None None None None
              init_manager
  = (Raise (UnicodeEncodeError "surrogates not allowed"), init_manager).
Proof. split; [by eexists|reflexivity]. Qed.

(** C3 fails as stated: creating a task with the empty name succeeds; no
    error is raised. *)
Lemma create_task_empty_name_succeeds :
  let r := create_task demo_py 0 "" "nameless" MEDIUM None None None None None
                       init_manager in
  (exists task, r.1 = Ok task /\ task_name task = "") /\
  ~ (exists e, r.1 = Raise e).
Proof.
  split.
  - by eexists.
  - intros [e He]. discriminate He.
Qed.

(** C7.  For a known task, [update_task_status] with [COMPLETED] returns
    and stores the task with status [COMPLETED], progress 100 and
    [completed_at] set; and if a handle is registered under the id, its
    unit receives [cancel()] and the handle leaves the running table,
    which is otherwise unchanged. *)
Theorem update_completed_forces_progress_and_deregisters
    (now : Z) (task_id : string) (progress : option Q)
    (result : option pydict) (error : option string) (st : State)
    (task : Task)
    (Hknown : get_task task_id st = Some task) :
  let r := update_task_status now task_id COMPLETED progress result error st in
  exists task',
    r.1 = Some task' /\
    get_task task_id r.2 = Some task' /\
    task_status task' = COMPLETED /\
    task_progress task' = 100%Q /\
    task_completed_at task' = Some now /\
    forall h, _running_tasks (manager st) !! task_id = Some h ->
      _running_tasks (manager r.2) = delete task_id (_running_tasks (manager st)) /\
      _running_tasks (manager r.2) !! task_id = None /\
      loop r.2 = cancel_unit h (loop st) /\
      forall u, loop st !! h = Some u -> loop r.2 !! h = Some (request_cancel u).
Proof.
  intros r.
  destruct (update_task_status_known now task_id COMPLETED progress result
              error st task Hknown) as (Hr & _ & Hget).
  fold r in Hr, Hget. eexists. split; [exact Hr|]. split; [exact Hget|].
  split; [|split; [|split]].
  - unfold updated_task. by destruct progress, result, error.
  - unfold updated_task. by destruct progress, result, error.
  - unfold updated_task. by destruct progress, result, error.
  - intros h Hh. subst r. unfold update_task_status.
    unfold get_task in Hknown. rewrite Hknown. simpl. rewrite Hh. simpl.
    split; [done|]. split; [apply lookup_delete_eq|]. split; [done|].
    intros u Hu. unfold cancel_unit. by rewrite list_lookup_alter_eq, Hu.
Qed.

Lemma update_completed_forces_progress_and_deregisters_witness :
  let st0 := (create_task demo_py 0 "job" "" MEDIUM None None None None None
                          init_manager).2 in
  let st1 := (execute_task 1 "job_0" (Callable "f") st0).2 in
  let r := update_task_status 2 "job_0" COMPLETED None None None st1 in
  _running_tasks (manager st1) !! "job_0" = Some 0 /\
  exists task',
    get_task "job_0" r.2 = Some task' /\
    task_progress task' = 100%Q /\
    task_completed_at task' = Some 2%Z /\
    _running_tasks (manager r.2) !! "job_0" = None /\
    loop r.2 !! 0 = Some (mkAsyncUnit (ExecuteWrapper "job_0" (Callable "f"))
                                      CancelRequested).
Proof.
  intros st0 st1 r. split; [reflexivity|].
  destruct (update_completed_forces_progress_and_deregisters
              2 "job_0" None None None st1 _ eq_refl)
    as (task' & _ & Hget & _ & Hp & Hc & Hunit).
  destruct (Hunit 0 eq_refl) as (_ & Hgone & _ & Hcancel).
  exists task'.
  split; [exact Hget|]. split; [exact Hp|]. split; [exact Hc|].
  split; [exact Hgone|]. exact (Hcancel _ eq_refl).
Defined.

Lemma pending_deps_In (tbl : OrderedDict.t Task) (deps : list string) (d : string) :
  In d (pending_deps tbl deps) <-> In d deps /\ dep_unmet tbl d = true.
Proof.
  induction deps as [|x deps IH]; simpl; [tauto|].
  destruct (dep_unmet tbl x) eqn:E; simpl; rewrite IH; intuition congruence.
Qed.

(** C5.  When some dependency of a known task is unknown or not completed,
    [execute_task] returns the task in status [PENDING] (so not
    [IN_PROGRESS]) with the error message
    ["Dependencies not completed: "] followed by the unmet ids joined by
    [", "]; the message is not empty and every unmet dependency id occurs
    in it; and no unit is created: the event loop and the running table
    are as before. *)
Theorem execute_task_unmet_dependencies
    (now : Z) (task_id : string) (execution_func : callable) (st : State)
    (task : Task) (d : string)
    (Hknown : get_task task_id st = Some task)
    (Hdep : In d (task_dependencies task))
    (Hunmet : dep_unmet (tasks (manager st)) d = true) :
  let r := execute_task now task_id execution_func st in
  exists task' msg,
    r.1 = Some task' /\
    get_task task_id r.2 = Some task' /\
    task_status task' = PENDING /\
    task_status task' <> IN_PROGRESS /\
    task_error task' = Some msg /\
    msg = "Dependencies not completed: "
          +:+ String.concat ", "
                (pending_deps (tasks (manager st)) (task_dependencies task)) /\
    msg <> "" /\
    (forall d', In d' (task_dependencies task) ->
                dep_unmet (tasks (manager st)) d' = true ->
                occurs_in d' msg) /\
    loop r.2 = loop st /\
    _running_tasks (manager r.2) = _running_tasks (manager st).
Proof.
  intros r. subst r. unfold execute_task.
  pose proof Hknown as Hk. unfold get_task in Hk. rewrite Hk.
  set (tbl := tasks (manager st)).
  assert (Hin : In d (pending_deps tbl (task_dependencies task)))
    by (apply pending_deps_In; done).
  destruct (pending_deps tbl (task_dependencies task)) as [|p ps] eqn:Ep;
    [done|].
  set (msg := "Dependencies not completed: " +:+ String.concat ", " (p :: ps)).
  destruct (update_task_status_known now task_id PENDING None None (Some msg)
              st task Hknown) as (_ & _ & Hget).
  destruct (update_task_status_keeps_units now task_id PENDING None None
              (Some msg) st) as (Hloop & Hrun); [done|].
  simpl in Hget, Hloop, Hrun. cbn [fst snd].
  eexists _, msg. split; [exact Hget|]. split; [exact Hget|].
  repeat split; try done.
  intros d' Hd' Hu. apply occurs_in_prepend, occurs_in_concat.
  rewrite <- Ep. by apply pending_deps_In.
Qed.

Lemma execute_task_unmet_dependencies_witness :
  let st := (create_task demo_py 0 "b" "" URGENT None None None
                         (Some ["a_0"]) None init_manager).2 in
  let r := execute_task 1 "b_0" (Callable "g") st in
  dep_unmet (tasks (manager st)) "a_0" = true /\
  exists task',
    r.1 = Some task' /\
    task_status task' = PENDING /\
    task_error task' = Some "Dependencies not completed: a_0" /\
    loop r.2 = loop st.
Proof.
  intros st r. split; [reflexivity|].
  destruct (execute_task_unmet_dependencies
              1 "b_0" (Callable "g") st _ "a_0" eq_refl
              (or_introl eq_refl) eq_refl)
    as (task' & msg & Hr & _ & Hs & _ & He & Hmsg & _ & _ & Hloop & _).
  exists task'.
  split; [exact Hr|]. split; [exact Hs|]. split; [|exact Hloop].
  rewrite He, Hmsg. reflexivity.
Defined.

(** C8, as amended.  When the execution function of a known task returns
    [v], the wrapper leaves the task in status [COMPLETED] with progress
    100, and with result [{"data": v}] if [v] is true in a boolean context
    and the empty dictionary [{}] if it is not. *)
Theorem wrapper_result_wrapped_unless_falsy
    (now : Z) (task_id : string) (v : pyval) (st : State) (task : Task)
    (Hknown : get_task task_id st = Some task) :
  let st' := _execute_wrapper now task_id (Ok v) st in
  exists task',
    get_task task_id st' = Some task' /\
    task_status task' = COMPLETED /\
    task_progress task' = 100%Q /\
    task_result task' = Some (if truthy v then [("data", v)] else []).
Proof.
  intros st'. subst st'. unfold _execute_wrapper.
  destruct (update_task_status_known now task_id COMPLETED (Some 100%Q)
              (Some (if truthy v then [("data", v)] else [])) None st task
              Hknown) as (_ & _ & Hget).
  eexists. split; [exact Hget|]. done.
Qed.

Lemma wrapper_result_wrapped_unless_falsy_witness :
  let st0 := (create_task demo_py 0 "job" "" MEDIUM None None None None None
                          init_manager).2 in
  let st1 := (execute_task 1 "job_0" (Callable "f") st0).2 in
  let st2 := _execute_wrapper 2 "job_0" (Ok (VStr "out")) st1 in
  exists task',
    get_task "job_0" st2 = Some task' /\
    task_status task' = COMPLETED /\
    task_result task' = Some [("data", VStr "out")].
Proof.
  intros st0 st1 st2.
  destruct (wrapper_result_wrapped_unless_falsy
              2 "job_0" (VStr "out") st1 _ eq_refl)
    as (task' & Hget & Hs & _ & Hr).
  exists task'. split; [exact Hget|]. split; [exact Hs|exact Hr].
Defined.

(** C8 fails as stated: a function that returns 0 leaves the result [{}],
    not [{"data": 0}]. *)
Lemma wrapper_drops_falsy_result :
  let st0 := (create_task demo_py 0 "job" "" MEDIUM None None None None None
                          init_manager).2 in
  let st1 := (execute_task 1 "job_0" (Callable "f") st0).2 in
  let st2 := _execute_wrapper 2 "job_0" (Ok (VInt 0)) st1 in
  exists task,
    get_task "job_0" st2 = Some task /\
    task_status task = COMPLETED /\
    task_result task = Some [] /\
    task_result task <> Some [("data", VInt 0)].
Proof. vm_compute. eexists. repeat split. discriminate. Qed.

(** *** The invariant of the task table *)

Import TaskManagerRuns.

Lemma updated_task_ok now status progress result error task :
  completed_ok (updated_task now status progress result error task).
Proof.
  unfold completed_ok, updated_task, status_eqb.
  destruct (decide (status = COMPLETED)) as [->|Hne].
  - rewrite bool_decide_eq_true_2 by done.
    by destruct progress, result, error.
  - rewrite bool_decide_eq_false_2 by done.
    by destruct progress, result, error.
Qed.

Lemma update_task_status_ok now task_id status progress result error st :
  table_ok st ->
  table_ok (update_task_status now task_id status progress result error st).2.
Proof.
  intros Hok. destruct (get_task task_id st) as [task|] eqn:Hget.
  - destruct (update_task_status_known now task_id status progress result
                error st task Hget) as (_ & Htbl & _).
    intros t Hin. rewrite Htbl in Hin.
    apply In_values_set in Hin as [->|Hin]; [apply updated_task_ok|by apply Hok].
  - unfold update_task_status. unfold get_task in Hget. by rewrite Hget.
Qed.

Lemma create_task_ok py now name description priority assigned_to tags metadata
    dependencies workflow_id st :
  table_ok st ->
  table_ok (create_task py now name description priority assigned_to tags
                        metadata dependencies workflow_id st).2.
Proof.
  intros Hok. unfold create_task.
  destruct (_generate_task_id py now name) as [id|e]; [|done].
  intros t Hin. simpl in Hin.
  apply In_values_set in Hin as [->|Hin]; [done|by apply Hok].
Qed.

Lemma delete_task_ok task_id st : table_ok st -> table_ok (delete_task task_id st).2.
Proof.
  intros Hok. unfold delete_task.
  destruct (OrderedDict.mem task_id (tasks (manager st))); [|done].
  destruct (_running_tasks (manager st) !! task_id);
    intros t Hin; simpl in Hin; apply In_values_del in Hin; by apply Hok.
Qed.

Lemma execute_task_ok now task_id execution_func st :
  table_ok st -> table_ok (execute_task now task_id execution_func st).2.
Proof.
  intros Hok. unfold execute_task.
  destruct (OrderedDict.get task_id (tasks (manager st))) as [task|]; [|done].
  destruct (pending_deps _ _); cbn [snd].
  - pose proof (update_task_status_ok now task_id IN_PROGRESS (Some 0%Q) None
                  None st Hok) as H.
    intros t Hin. by apply H.
  - by apply update_task_status_ok.
Qed.

Lemma _execute_wrapper_ok now task_id awaited st :
  table_ok st -> table_ok (_execute_wrapper now task_id awaited st).
Proof.
  intros Hok. unfold _execute_wrapper.
  destruct awaited as [v|e]; [by apply update_task_status_ok|].
  destruct e; simpl; try done; by apply update_task_status_ok.
Qed.

Lemma run_unit_ok now h started awaited st :
  table_ok st -> table_ok (run_unit now h started awaited st).
Proof.
  intros Hok. unfold run_unit.
  destruct (loop st !! h) as [[[task_id f|wid] []]|]; try done.
  - intros t Hin. by apply (_execute_wrapper_ok now task_id awaited st Hok).
  - destruct started; [|done].
    intros t Hin. by apply (_execute_wrapper_ok now task_id awaited st Hok).
Qed.

Lemma apply_ok py now op st : table_ok st -> table_ok (apply py now op st).
Proof.
  destruct op; simpl.
  - apply create_task_ok.
  - apply update_task_status_ok.
  - apply delete_task_ok.
  - apply execute_task_ok.
  - apply run_unit_ok.
Qed.

Lemma run_ok py ops st : table_ok st -> table_ok (run py ops st).
Proof.
  revert st. induction ops as [|[now op] ops IH]; intros st Hok; [done|].
  simpl. by apply IH, apply_ok.
Qed.

(** C4, as amended.  In every state reached from a fresh manager by
    creating, updating, deleting and executing tasks and by running their
    units, a task whose status is [COMPLETED] has [completed_at] set (and
    progress 100).  The converse is not claimed, and nothing is claimed
    about the error field: neither field is ever cleared. *)
Theorem completed_implies_completed_at
    (py : PyLib) (st : State) (task_id : string) (task : Task)
    (Hreach : reachable py st)
    (Hknown : get_task task_id st = Some task)
    (Hdone : task_status task = COMPLETED) :
  is_Some (task_completed_at task) /\ task_progress task = 100%Q.
Proof.
  destruct Hreach as [ops ->].
  assert (Hok : table_ok (run py ops init_manager)) by (by apply run_ok).
  apply (Hok task); [|done]. by apply (get_In _ task_id).
Qed.

Lemma completed_implies_completed_at_witness :
  let ops :=
    [ (0, CreateTask "a" "" HIGH None None None None None);
      (1, UpdateTaskStatus "a_0" COMPLETED None None None) ]%Z in
  let st := run demo_py ops init_manager in
  exists task,
    get_task "a_0" st = Some task /\
    task_status task = COMPLETED /\
    is_Some (task_completed_at task) /\
    task_progress task = 100%Q.
Proof.
  intros ops st. eexists.
  split; [reflexivity|]. split; [reflexivity|].
  apply (completed_implies_completed_at demo_py st "a_0").
  - exists ops. reflexivity.
  - reflexivity.
  - reflexivity.
Defined.

(** C4 fails as stated.  A task that completed and is executed again is
    in progress with [completed_at] still set; a task executed before its
    dependency completed is pending with an error.  Both are reachable and
    break the stated invariant. *)
Lemma completed_at_and_error_outlive_their_status :
  let ops :=
    [ (0, CreateTask "a" "" HIGH None None None None None);
      (1, ExecuteTask "a_0" (Callable "f"));
      (2, RunUnit 0 true (Ok (VStr "done")));
      (3, ExecuteTask "a_0" (Callable "f"));
      (4, CreateTask "b" "" URGENT None None None (Some ["nope"]) None);
      (5, ExecuteTask "b_4" (Callable "g")) ]%Z in
  let st := run demo_py ops init_manager in
  reachable demo_py st /\
  (exists a, get_task "a_0" st = Some a /\
             task_status a = IN_PROGRESS /\
             task_completed_at a = Some 2%Z /\
             ~ stated_invariant a) /\
  (exists b, get_task "b_4" st = Some b /\
             task_status b = PENDING /\
             task_error b = Some "Dependencies not completed: nope" /\
             ~ stated_invariant b).
Proof.
  split; [by eexists|].
  split; eexists; (split; [vm_compute; reflexivity|]);
    (split; [reflexivity|]); (split; [reflexivity|]).
  - intros [[H _] _]. by specialize (H (mk_is_Some _ _ eq_refl)).
  - intros [_ H]. by specialize (H (mk_is_Some _ _ eq_refl)).
Qed.

End TaskManagerProps.

(** ** Listing tasks *)

Module ListTasksProps.
Import TaskManagerPy TaskManagerSpec.

Lemma any_tag_in_spec (l : list string) (t : Task) :
  any_tag_in l t = true <-> exists tag, In tag l /\ In tag (task_tags t).
Proof.
  unfold any_tag_in. rewrite existsb_exists. split.
  - intros (tag & Hl & Ht). apply existsb_exists in Ht as (x & Hx & E).
    apply String.eqb_eq in E. subst x. eauto.
  - intros (tag & Hl & Ht). exists tag. split; [done|].
    apply existsb_exists. exists tag. by rewrite String.eqb_refl.
Qed.

Lemma truthy_str_spec (o : option string) :
  truthy_str o = true <-> exists a, o = Some a /\ a <> "".
Proof.
  destruct o as [a|]; simpl.
  - rewrite negb_true_iff, String.eqb_neq. split; [eauto|].
    by intros (? & [= <-] & ?).
  - split; [done|]. by intros (? & ? & ?).
Qed.

Lemma matchesb_spec status priority assigned_to workflow_id tags t :
  matchesb status priority assigned_to workflow_id tags t = true
  <-> matches status priority assigned_to workflow_id tags t.
Proof.
  unfold matchesb, matches, status_eqb, priority_eqb.
  rewrite !andb_true_iff, !orb_true_iff, !negb_true_iff.
  rewrite !bool_decide_eq_true.
  split.
  - intros ((((Hs & Hp) & Ha) & Hw) & Ht). repeat split.
    + intros s ->. by apply bool_decide_eq_true in Hs.
    + intros p ->. by apply bool_decide_eq_true in Hp.
    + intros a -> Hne. destruct Ha as [Ha|Ha]; [|done].
      simpl in Ha. apply negb_false_iff, String.eqb_eq in Ha. done.
    + intros w -> Hne. destruct Hw as [Hw|Hw]; [|done].
      simpl in Hw. apply negb_false_iff, String.eqb_eq in Hw. done.
    + intros l -> Hne. destruct Ht as [Ht|Ht].
      * by destruct l.
      * by apply any_tag_in_spec in Ht.
  - intros (Hs & Hp & Ha & Hw & Ht). repeat split.
    + destruct status as [s|]; [|done]. apply bool_decide_eq_true. by apply Hs.
    + destruct priority as [p|]; [|done]. apply bool_decide_eq_true.
      by apply Hp.
    + destruct assigned_to as [a|]; [|by left]. simpl.
      destruct (String.eqb_spec a ""); [by left|right]. by apply Ha.
    + destruct workflow_id as [w|]; [|by left]. simpl.
      destruct (String.eqb_spec w ""); [by left|right]. by apply Hw.
    + destruct tags as [[|x l]|]; [by left| |by left].
      right. apply any_tag_in_spec. by apply Ht.
Qed.

(** The cascade of filters is one filter by the conjunction. *)
Lemma filter_filter {A} (f g : A -> bool) (l : list A) :
  List.filter g (List.filter f l) = List.filter (fun x => f x && g x) l.
Proof.
  induction l as [|x l IH]; simpl; [done|].
  destruct (f x); simpl; [destruct (g x)|]; by rewrite IH.
Qed.

Lemma filter_true {A} (l : list A) : List.filter (fun _ => true) l = l.
Proof. induction l as [|x l IH]; simpl; by rewrite ?IH. Qed.

Lemma filter_if {A} (c : bool) (f : A -> bool) (l : list A) :
  (if c then List.filter f l else l) = List.filter (fun x => negb c || f x) l.
Proof. destruct c; simpl; [done|by rewrite filter_true]. Qed.

Lemma list_tasks_unfold status priority assigned_to workflow_id tags st :
  list_tasks status priority assigned_to workflow_id tags st
  = sort_by_key
      (List.filter (matchesb status priority assigned_to workflow_id tags)
                   (OrderedDict.values (tasks (manager st)))).
Proof.
  unfold list_tasks, matchesb. f_equal.
  rewrite !filter_if, !filter_filter.
  destruct status as [s|], priority as [p|]; simpl; rewrite ?filter_filter;
    apply filter_ext; intros x; simpl;
    by rewrite ?andb_true_r, ?andb_assoc.
Qed.

(** *** The stable sort *)

Lemma key_leb_spec (a b : Task) :
  key_leb (sort_key a) (sort_key b) = true <-> task_le a b.
Proof.
  unfold key_leb, task_le, sort_key. simpl.
  rewrite orb_true_iff, andb_true_iff, Nat.ltb_lt, Nat.eqb_eq, Z.leb_le.
  done.
Qed.

Lemma task_le_total (a b : Task) :
  key_leb (sort_key a) (sort_key b) = false -> task_le b a.
Proof.
  intros H. destruct (key_leb (sort_key b) (sort_key a)) eqn:E;
    [by apply key_leb_spec|].
  exfalso. revert H E. unfold key_leb, sort_key. simpl.
  rewrite !orb_false_iff, !andb_false_iff, !Nat.ltb_ge, !Nat.eqb_neq,
    !Z.leb_gt. lia.
Qed.

Lemma task_le_trans (a b c : Task) : task_le a b -> task_le b c -> task_le a c.
Proof. unfold task_le. lia. Qed.

Lemma insert_by_key_perm (x : Task) (l : list Task) :
  Permutation (insert_by_key x l) (x :: l).
Proof.
  induction l as [|y l IH]; simpl; [done|].
  destruct (key_leb (sort_key x) (sort_key y)); [done|].
  rewrite IH. apply perm_swap.
Qed.

Lemma sort_by_key_perm (l : list Task) : Permutation (sort_by_key l) l.
Proof.
  induction l as [|x l IH]; simpl; [done|].
  rewrite insert_by_key_perm. by constructor.
Qed.

Lemma insert_by_key_sorted (x : Task) (l : list Task) :
  StronglySorted task_le l -> StronglySorted task_le (insert_by_key x l).
Proof.
  induction l as [|y l IH]; simpl; intros Hs.
  - repeat constructor.
  - apply StronglySorted_inv in Hs as [Hl Hy].
    destruct (key_leb (sort_key x) (sort_key y)) eqn:E.
    + apply key_leb_spec in E. constructor; [by constructor|].
      constructor; [done|].
      eapply Forall_impl; [exact Hy|]. intros z. by apply task_le_trans.
    + apply task_le_total in E. constructor; [by apply IH|].
      rewrite Forall_forall. intros z Hz.
      apply list_elem_of_In in Hz.
      apply (Permutation_in _ (insert_by_key_perm x l)) in Hz as [<-|Hz];
        [done|].
      rewrite Forall_forall in Hy. apply Hy. by apply list_elem_of_In.
Qed.

Lemma sort_by_key_sorted (l : list Task) : StronglySorted task_le (sort_by_key l).
Proof.
  induction l as [|x l IH]; simpl; [constructor|by apply insert_by_key_sorted].
Qed.

(** Insertion never moves an element past one with the same key. *)
Lemma insert_by_key_filter (k : nat * Z) (x : Task) (l : list Task) :
  List.filter (has_key k) (insert_by_key x l)
  = List.filter (has_key k) (x :: l).
Proof.
  induction l as [|y l IH]; [done|].
  cbn [insert_by_key].
  destruct (key_leb (sort_key x) (sort_key y)) eqn:E; [done|].
  cbn [List.filter] in *. rewrite IH.
  destruct (has_key k x) eqn:Ex, (has_key k y) eqn:Ey; try done.
  unfold has_key in Ex, Ey.
  apply bool_decide_eq_true in Ex, Ey. exfalso.
  assert (Hrefl : key_leb (sort_key x) (sort_key y) = true).
  { rewrite Ex, Ey. unfold key_leb.
    rewrite Nat.eqb_refl, Z.leb_refl. apply orb_true_r. }
  congruence.
Qed.

Lemma sort_by_key_stable (k : nat * Z) (l : list Task) :
  List.filter (has_key k) (sort_by_key l) = List.filter (has_key k) l.
Proof.
  induction l as [|x l IH]; [done|].
  cbn [sort_by_key]. rewrite insert_by_key_filter.
  cbn [List.filter]. by rewrite IH.
Qed.

(** C6, as amended.  A filter counts when it is present and not empty (an
    empty [assigned_to] or [workflow_id] string and an empty tag list filter
    nothing).  [list_tasks] returns exactly the tasks of the table that
    agree with all such filters, a tag filter being met by any common tag;
    the result is ordered by priority in the order urgent, high, medium,
    low, then by creation time ascending; and tasks with the same priority
    and creation time keep the order they have in the table. *)
Theorem list_tasks_filters_and_sorts
    (status : option TaskStatus) (priority : option TaskPriority)
    (assigned_to workflow_id : option string) (tags : option (list string))
    (st : State) :
  let result := list_tasks status priority assigned_to workflow_id tags st in
  let table := OrderedDict.values (tasks (manager st)) in
  let wanted :=
    List.filter (matchesb status priority assigned_to workflow_id tags) table in
  Permutation result wanted /\
  (forall t, In t result <->
             In t table /\
             matches status priority assigned_to workflow_id tags t) /\
  StronglySorted task_le result /\
  (forall k, List.filter (has_key k) result = List.filter (has_key k) wanted) /\
  (priority_order URGENT < priority_order HIGH /\
   priority_order HIGH < priority_order MEDIUM /\
   priority_order MEDIUM < priority_order LOW).
Proof.
  intros result table wanted.
  assert (Hres : result = sort_by_key wanted) by apply list_tasks_unfold.
  rewrite Hres. split; [apply sort_by_key_perm|].
  split; [|split; [apply sort_by_key_sorted|split;
                   [intros k; apply sort_by_key_stable|simpl; lia]]].
  intros t. rewrite <- matchesb_spec. subst wanted.
  rewrite <- filter_In. split; apply Permutation_in;
    [|symmetry]; apply sort_by_key_perm.
Qed.

(** C6 fails as stated: with the filter [assigned_to = ""], and with the
    filter [tags = []], the result contains a task that is assigned to
    somebody else and has no tag at all. *)
Lemma list_tasks_ignores_empty_filters :
  let st := (create_task demo_py 0 "a" "" LOW (Some "bob") None None None None
                         init_manager).2 in
  exists t,
    list_tasks None None (Some "") None None st = [t] /\
    ~ stated_matches None None (Some "") None None t /\
    list_tasks None None None None (Some []) st = [t] /\
    ~ stated_matches None None None None (Some []) t.
Proof.
  eexists. split; [vm_compute; reflexivity|].
  split; [|split; [vm_compute; reflexivity|]].
  - intros (_ & _ & H & _). by specialize (H "" eq_refl).
  - intros (_ & _ & _ & _ & H). by destruct (H [] eq_refl) as (? & [] & _).
Qed.

End ListTasksProps.

(** ** Workflow engine *)

Module WorkflowEngineProps.
Import TaskManagerPy WorkflowEnginePy WorkflowEngineSpec OrderedDictFacts.

(** C1 fails on the code.  A workflow whose only step calls an
    unregistered tool: the step fails with [ValueError], the handler of
    [_execute_workflow_task] raises [AttributeError] on
    [WorkflowStatus.FALED], [execute_workflow] raises that error to its
    caller, and the workflow stays in status [W_RUNNING]. *)
Theorem failed_step_leaves_workflow_running :
  let w0 := (create_workflow demo_py 0 "wf" "" [missing_tool_step] None init_engine).2 in
  let r := execute_workflow demo_py 1 [] "wf_0" w0 in
  r.1 = Raise (AttributeError "FALED") /\
  exists wf step,
    get_workflow "wf_0" r.2 = Some wf /\
    wf_status wf = W_RUNNING /\
    wf_status wf <> W_FAILED /\
    wf_steps wf = [step] /\
    step_status step = FAILED /\
    step_error step = Some "Tool not found: missing".
Proof. vm_compute. split; [done|]. eexists _, _. repeat split. discriminate. Qed.

(** The loop over the steps never assigns the workflow's status. *)
Lemma run_steps_status py now registry todo n workflow w :
  wf_status (run_steps py now registry todo n workflow w).1.2
  = wf_status workflow.
Proof.
  revert n workflow w. induction todo as [|step todo IH]; intros n wf w;
    [done|].
  cbn [run_steps].
  destruct (check_dependencies wf (depends_on step) w) as [[?|e] w1]; [|done].
  destruct (_execute_step py now registry step w1) as [[[?|e] step'] w2];
    [|done].
  by rewrite IH.
Qed.

(** No run of [_execute_workflow_task] ends in status [W_FAILED] unless
    the workflow was in that status before: the status is set to
    [W_COMPLETED] or [W_CANCELLED], or left alone. *)
Lemma _execute_workflow_task_status py now registry workflow w :
  let wf' := (_execute_workflow_task py now registry workflow w).1.2 in
  wf_status wf' = W_COMPLETED \/ wf_status wf' = W_CANCELLED \/
  wf_status wf' = wf_status workflow.
Proof.
  unfold _execute_workflow_task.
  pose proof (run_steps_status py now registry (wf_steps workflow) 0
                workflow w) as Hs.
  destruct (run_steps py now registry (wf_steps workflow) 0 workflow w)
    as [[[?|e] wf1] w1]; simpl in Hs.
  - destruct (_running_workflows (engine w1) !! wf_id _); simpl; by left.
  - destruct e; simpl;
      destruct (_running_workflows (engine w1) !! wf_id _); simpl;
      first [by right; left | by right; right].
Qed.

(** Whenever a step raises an [Exception], the run raises too (the
    handler's [AttributeError], or the [KeyError] of the [finally]
    clause), and the workflow keeps the status it had. *)
Lemma step_exception_escapes py now registry workflow w e wf1 w1 :
  run_steps py now registry (wf_steps workflow) 0 workflow w
    = (Raise e, wf1, w1) ->
  is_Exception e = true ->
  let r := _execute_workflow_task py now registry workflow w in
  (exists e', r.1.1 = Raise e') /\ wf_status r.1.2 = wf_status workflow.
Proof.
  intros Hrun He. unfold _execute_workflow_task.
  pose proof (run_steps_status py now registry (wf_steps workflow) 0
                workflow w) as Hs.
  rewrite Hrun in *. simpl in Hs.
  destruct e; try done; simpl;
    destruct (_running_workflows (engine w1) !! wf_id wf1); simpl; eauto.
Qed.

(** C10.  For a stored workflow without steps (stored under its own id,
    with the progress 0 it was created with), [execute_workflow] returns
    normally, and returns and stores the workflow with status
    [W_COMPLETED], [completed_at] set and progress still 0, not 100. *)
Theorem execute_empty_workflow
    (py : PyLib) (now : Z) (registry : ToolRegistry) (workflow_id : string)
    (w : World) (workflow : Workflow)
    (Hknown : get_workflow workflow_id w = Some workflow)
    (Hid : wf_id workflow = workflow_id)
    (Hempty : wf_steps workflow = [])
    (Hzero : wf_progress workflow = 0%Q) :
  let r := execute_workflow py now registry workflow_id w in
  exists workflow',
    r.1 = Ok workflow' /\
    get_workflow workflow_id r.2 = Some workflow' /\
    wf_status workflow' = W_COMPLETED /\
    wf_completed_at workflow' = Some now /\
    wf_progress workflow' = 0%Q /\
    ~ (wf_progress workflow' == 100)%Q.
Proof.
  intros r. subst r workflow_id. unfold execute_workflow.
  unfold get_workflow in Hknown. rewrite Hknown. cbn [create_unit].
  unfold _execute_workflow_task. cbn [wf_steps set_wf_started_at
    set_wf_status]. rewrite Hempty. cbn [run_steps].
  cbn [set_wf_completed_at set_wf_status wf_id with_running with_loop engine
       _running_workflows].
  rewrite lookup_insert_eq. cbn [fst snd].
  eexists. split; [reflexivity|].
  split; [unfold get_workflow; simpl; apply get_set_eq|].
  cbn. rewrite Hzero. repeat split. by intros H.
Qed.

Lemma execute_empty_workflow_witness :
  let w0 := (create_workflow demo_py 0 "wf" "" [] None init_engine).2 in
  let r := execute_workflow demo_py 1 [] "wf_0" w0 in
  exists workflow',
    r.1 = Ok workflow' /\
    wf_status workflow' = W_COMPLETED /\
    wf_completed_at workflow' = Some 1%Z /\
    wf_progress workflow' = 0%Q.
Proof.
  intros w0 r.
  destruct (execute_empty_workflow demo_py 1 [] "wf_0" w0 _
              eq_refl eq_refl eq_refl eq_refl)
    as (workflow' & Hr & _ & Hs & Hc & Hp & _).
  exists workflow'.
  split; [exact Hr|]. split; [exact Hs|]. split; [exact Hc|exact Hp].
Defined.

End WorkflowEngineProps.

(** ** Progress tracker *)

Module ProgressTrackerProps.
Import ProgressTrackerPy ProgressTrackerSpec OrderedDictFacts.

(** C2 fails on the code.  A meter with 10 steps, updated with
    [current_step = 20]: the step channel stores the step as given and
    derives the progress from it without clamping, so the meter ends with
    step 20 of 10 and progress 200. *)
Theorem step_update_escapes_range :
  let created := create_meter demo_py 0 "job" 10 None init_tracker in
  let r := update_progress demo_py 1 "meter:job:0" (Some 20%Z) None None None
                           None created.2 in
  in_range created.1 /\
  exists m,
    r.1 = Ok (Some m) /\
    get_meter "meter:job:0" r.2 = Some m /\
    total_steps m = 10%Z /\
    current_step m = 20%Z /\
    (progress m == 200)%Q /\
    ~ in_range m.
Proof.
  vm_compute. split.
  - repeat split; discriminate.
  - eexists. repeat split. intros (_ & H & _). by apply H.
Qed.

(** The clamp of the direct progress channel, which the step channel
    lacks. *)

Lemma py_clamp_range (p : Q) :
  (0 <= py_max 0 (py_min 100 p))%Q /\ (py_max 0 (py_min 100 p) <= 100)%Q.
Proof.
  unfold py_max, py_min, Qltb.
  destruct (Qle_bool 100 p) eqn:E1; simpl.
  - by vm_compute.
  - destruct (Qle_bool p 0) eqn:E2; simpl.
    + by vm_compute.
    + assert (H1 : ~ (100 <= p)%Q) by (rewrite <- Qle_bool_iff; congruence).
      assert (H2 : ~ (p <= 0)%Q) by (rewrite <- Qle_bool_iff; congruence).
      apply Qnot_le_lt in H1, H2. split; by apply Qlt_le_weak.
Qed.

End ProgressTrackerProps.

(** ** Unknown ids *)

Module UnknownIdProps.
Import OrderedDictFacts.

(** C9 fails as stated: [execute_workflow] on an unknown id raises
    [ValueError]. *)
Lemma execute_unknown_workflow_raises :
  WorkflowEnginePy.execute_workflow demo_py 0 [] "nope" WorkflowEnginePy.init_engine
  = (Raise (ValueError "Workflow not found: nope"), WorkflowEnginePy.init_engine).
Proof. reflexivity. Qed.

(** C9, as amended.  With an id that is not in the table concerned, no
    operation changes any state, and every operation but one signals the
    absence by its result: [update_task_status], [execute_task],
    [update_progress] and [get_meter_summary] return [None];
    [delete_task], [delete_meter] and [delete_workflow] return [False];
    [pause_workflow] and [cancel_workflow] return [False] when no unit is
    registered under the id; [_get_step_by_id] returns [None].  The
    exception is [execute_workflow], which raises [ValueError]. *)
Theorem unknown_id_is_signalled
    (py : PyLib) (now : Z) (id : string)
    (st : TaskManagerPy.State) (tr : ProgressTrackerPy.ProgressTracker)
    (w : WorkflowEnginePy.World)
    (status : TaskManagerPy.TaskStatus) (progress : option Q)
    (result : option pydict) (error : option string) (func : callable)
    (current_step : option Z) (state : option ProgressTrackerPy.ProgressState)
    (message : option string) (data : option pydict)
    (registry : WorkflowEnginePy.ToolRegistry)
    (Htask : TaskManagerPy.get_task id st = None)
    (Hmeter : ProgressTrackerPy.get_meter id tr = None)
    (Hworkflow : WorkflowEnginePy.get_workflow id w = None)
    (Hunit : WorkflowEnginePy._running_workflows (WorkflowEnginePy.engine w)
               !! id = None) :
  TaskManagerPy.update_task_status now id status progress result error st
    = (None, st) /\
  TaskManagerPy.delete_task id st = (false, st) /\
  TaskManagerPy.execute_task now id func st = (None, st) /\
  ProgressTrackerPy.update_progress py now id current_step progress state
    message data tr = (Ok None, tr) /\
  ProgressTrackerPy.delete_meter id tr = (false, tr) /\
  ProgressTrackerPy.get_meter_summary py now id tr = None /\
  WorkflowEnginePy.delete_workflow id w = (false, w) /\
  WorkflowEnginePy.pause_workflow id w = (false, w) /\
  WorkflowEnginePy.cancel_workflow id w = (false, w) /\
  (forall workflow,
     (forall step, In step (WorkflowEnginePy.wf_steps workflow) ->
                   WorkflowEnginePy.step_id step <> id) ->
     WorkflowEnginePy._get_step_by_id workflow id = None) /\
  WorkflowEnginePy.execute_workflow py now registry id w
    = (Raise (ValueError ("Workflow not found: " +:+ id)), w).
Proof.
  unfold TaskManagerPy.get_task in Htask.
  unfold ProgressTrackerPy.get_meter in Hmeter.
  unfold WorkflowEnginePy.get_workflow in Hworkflow.
  repeat split.
  - unfold TaskManagerPy.update_task_status. by rewrite Htask.
  - unfold TaskManagerPy.delete_task. by rewrite (mem_false _ _ Htask).
  - unfold TaskManagerPy.execute_task. by rewrite Htask.
  - unfold ProgressTrackerPy.update_progress. by rewrite Hmeter.
  - unfold ProgressTrackerPy.delete_meter. by rewrite (mem_false _ _ Hmeter).
  - unfold ProgressTrackerPy.get_meter_summary. by rewrite Hmeter.
  - unfold WorkflowEnginePy.delete_workflow.
    by rewrite (mem_false _ _ Hworkflow).
  - unfold WorkflowEnginePy.pause_workflow, WorkflowEnginePy.stop_workflow.
    by rewrite Hunit.
  - unfold WorkflowEnginePy.cancel_workflow, WorkflowEnginePy.stop_workflow.
    by rewrite Hunit.
  - intros workflow Hsteps. unfold WorkflowEnginePy._get_step_by_id.
    induction (WorkflowEnginePy.wf_steps workflow) as [|step steps IH];
      [done|].
    simpl. destruct (String.eqb_spec (WorkflowEnginePy.step_id step) id) as [E|E].
    + exfalso. apply (Hsteps step); [by left|done].
    + apply IH. intros step' Hin. apply Hsteps. by right.
  - unfold WorkflowEnginePy.execute_workflow. by rewrite Hworkflow.
Qed.

Lemma unknown_id_is_signalled_witness :
  TaskManagerPy.get_task "x" TaskManagerPy.init_manager = None /\
  TaskManagerPy.update_task_status 0 "x" TaskManagerPy.COMPLETED None None None
    TaskManagerPy.init_manager = (None, TaskManagerPy.init_manager) /\
  WorkflowEnginePy.pause_workflow "x" WorkflowEnginePy.init_engine
    = (false, WorkflowEnginePy.init_engine).
Proof.
  pose proof (unknown_id_is_signalled demo_py 0 "x" TaskManagerPy.init_manager
                ProgressTrackerPy.init_tracker WorkflowEnginePy.init_engine
                TaskManagerPy.COMPLETED None None None (Callable "f") None
                None None None [] eq_refl eq_refl eq_refl eq_refl) as H.
  split; [reflexivity|]. split; [apply H|apply H].
Defined.

End UnknownIdProps.

(* ===================================================================== *)
(** * Further properties of the code                                       *)
(* ===================================================================== *)

(** ** Dictionaries with unique keys *)

Module OrderedDictUnique.
Import OrderedDict OrderedDictFacts.
Section Facts.
Context {V : Type}.
Implicit Types (d : OrderedDict.t V) (k : string) (v : V).

Lemma get_None_keys d k : get k d = None <-> ~ In k (keys d).
Proof.
  induction d as [|[k0 v0] d IH]; simpl; [tauto|].
  destruct (String.eqb_spec k k0) as [->|Hne].
  - split; [done|]. intros H. exfalso. apply H. by left.
  - rewrite IH. split.
    + intros H [E|E]; [congruence|done].
    + intros H E. apply H. by right.
Qed.

Lemma get_In_pair d k v : get k d = Some v -> In (k, v) d.
Proof.
  induction d as [|[k0 v0] d IH]; simpl; [done|].
  destruct (String.eqb_spec k k0) as [->|Hne].
  - intros [= ->]. by left.
  - intros H. right. by apply IH.
Qed.

Lemma In_pair_get d k v : NoDup (keys d) -> In (k, v) d -> get k d = Some v.
Proof.
  induction d as [|[k0 v0] d IH]; simpl; [done|].
  intros Hnd [[= -> ->]|Hin].
  - by rewrite String.eqb_refl.
  - apply NoDup_cons in Hnd as [Hk0 Hnd].
    destruct (String.eqb_spec k k0) as [->|Hne]; [|by apply IH].
    exfalso. apply Hk0. apply list_elem_of_In.
    change k0 with (fst (k0, v)). by apply in_map.
Qed.

Lemma keys_set d k v :
  keys (set k v d) = if mem k d then keys d else keys d ++ [k].
Proof.
  unfold mem. induction d as [|[k0 v0] d IH]; simpl; [done|].
  destruct (String.eqb_spec k k0) as [->|Hne]; simpl; [done|].
  rewrite IH. by destruct (get k d).
Qed.

Lemma NoDup_set d k v : NoDup (keys d) -> NoDup (keys (set k v d)).
Proof.
  intros Hnd. rewrite keys_set. unfold mem.
  destruct (get k d) eqn:E; [done|].
  apply NoDup_app. split; [done|]. split; [|apply NoDup_singleton].
  intros x Hx Hk. apply list_elem_of_In in Hx.
  apply list_elem_of_singleton in Hk. subst x.
  by apply get_None_keys in E.
Qed.

Lemma In_del d k x : In x (del k d) -> In x d.
Proof.
  induction d as [|[k0 v0] d IH]; simpl; [done|].
  destruct (String.eqb k k0); simpl; [by right|].
  intros [<-|H]; [by left|right; by apply IH].
Qed.

Lemma NoDup_del d k : NoDup (keys d) -> NoDup (keys (del k d)).
Proof.
  induction d as [|[k0 v0] d IH]; simpl; [done|].
  intros Hnd. apply NoDup_cons in Hnd as [Hk0 Hnd].
  destruct (String.eqb k k0); simpl; [done|].
  apply NoDup_cons. split; [|by apply IH].
  intros Hin. apply Hk0. apply list_elem_of_In.
  apply list_elem_of_In in Hin. apply in_map_iff in Hin as ([k1 v1] & E & Hin).
  simpl in E. subst k1. apply In_del in Hin.
  change k0 with (fst (k0, v1)). by apply in_map.
Qed.

Lemma get_del_ne d k k' : k <> k' -> get k' (del k d) = get k' d.
Proof.
  intros Hne. induction d as [|[k0 v0] d IH]; simpl; [done|].
  destruct (String.eqb_spec k k0) as [->|Hk]; simpl.
  - destruct (String.eqb_spec k' k0); [congruence|done].
  - destruct (String.eqb k' k0); [done|apply IH].
Qed.

(** With unique keys, a deleted key is gone. *)
Lemma get_del_eq d k : NoDup (keys d) -> get k (del k d) = None.
Proof.
  induction d as [|[k0 v0] d IH]; simpl; [done|].
  intros Hnd. apply NoDup_cons in Hnd as [Hk0 Hnd].
  destruct (String.eqb_spec k k0) as [->|Hk]; simpl.
  - apply get_None_keys. intros H. apply Hk0. by apply list_elem_of_In.
  - destruct (String.eqb_spec k k0); [done|by apply IH].
Qed.

Lemma In_set d k v x : In x (set k v d) -> x = (k, v) \/ In x d.
Proof.
  induction d as [|[k0 v0] d IH]; simpl.
  - intros [<-|[]]. by left.
  - destruct (String.eqb k k0); simpl.
    + intros [<-|H]; [by left|by right; right].
    + intros [<-|H]; [by right; left|].
      destruct (IH H) as [->|H']; [by left|by right; right].
Qed.

Lemma length_set_known d k v :
  is_Some (get k d) -> length (set k v d) = length d.
Proof.
  induction d as [|[k0 v0] d IH]; simpl; [by intros [? ?]|].
  destruct (String.eqb k k0); simpl; [done|]. intros H. by rewrite IH.
Qed.

End Facts.
End OrderedDictUnique.

(** ** Task manager: what runs preserve *)

Module TaskManagerExtras.
Import TaskManagerPy TaskManagerRuns TaskManagerSpec TaskManagerExtraSpec.
Import OrderedDictFacts OrderedDictUnique.

(** *** A property of every task, kept by every operation *)

Section PerTask.
Variable P : Task -> Prop.
Hypothesis P_updated :
  forall now status progress result error task,
    P task -> P (updated_task now status progress result error task).
Hypothesis P_fresh :
  forall t, task_status t = PENDING -> task_progress t = 0%Q ->
            task_completed_at t = None -> task_error t = None ->
            task_result t = None -> P t.

Lemma every_task_update now task_id status progress result error st :
  every_task P st ->
  every_task P (update_task_status now task_id status progress result error st).2.
Proof.
  intros Hok. destruct (get_task task_id st) as [task|] eqn:Hget.
  - destruct (TaskManagerProps.update_task_status_known now task_id status
                progress result error st task Hget) as (_ & Htbl & _).
    intros t Hin. rewrite Htbl in Hin.
    apply In_values_set in Hin as [->|Hin]; [|by apply Hok].
    apply P_updated, Hok. by apply (get_In _ task_id).
  - unfold update_task_status. unfold get_task in Hget. by rewrite Hget.
Qed.

Lemma every_task_apply py now op st :
  every_task P st -> every_task P (apply py now op st).
Proof.
  intros Hok.
  destruct op as [name description priority assigned_to tags metadata
                  dependencies workflow_id
                 |id status progress result error|id|id f|h started awaited];
    simpl.
  - unfold create_task.
    destruct (_generate_task_id py now name) as [id|e]; [|done].
    intros x Hin. simpl in Hin.
    apply In_values_set in Hin as [->|Hin]; [by apply P_fresh|by apply Hok].
  - by apply every_task_update.
  - unfold delete_task.
    destruct (OrderedDict.mem id (tasks (manager st))); [|done].
    destruct (_running_tasks (manager st) !! id);
      intros x Hin; simpl in Hin; apply In_values_del in Hin; by apply Hok.
  - unfold execute_task.
    destruct (OrderedDict.get id (tasks (manager st))); [|done].
    destruct (pending_deps _ _); cbn [snd].
    + pose proof (every_task_update now id IN_PROGRESS (Some 0%Q) None
                    None st Hok) as H.
      intros x Hin. by apply H.
    + by apply every_task_update.
  - assert (Hw : forall id, every_task P (_execute_wrapper now id awaited st)).
    { intros id. unfold _execute_wrapper.
      destruct awaited as [v|e]; [by apply every_task_update|].
      destruct e; simpl; try done; by apply every_task_update. }
    unfold run_unit.
    destruct (loop st !! h) as [[[id f|wid] []]|]; try done.
    + intros x Hin. by apply (Hw id).
    + destruct started; [|done]. intros x Hin. by apply (Hw id).
Qed.

Lemma every_task_run py ops st : every_task P st -> every_task P (run py ops st).
Proof.
  revert st. induction ops as [|[now op] ops IH]; intros st Hok; [done|].
  simpl. by apply IH, every_task_apply.
Qed.

Lemma every_task_reachable py st task_id task :
  reachable py st -> get_task task_id st = Some task -> P task.
Proof.
  intros [ops ->] Hget.
  apply (every_task_run py ops init_manager); [by intros t []|].
  by apply (get_In _ task_id).
Qed.

End PerTask.

Lemma updated_task_progress_ok now status progress result error task :
  progress_ok task ->
  progress_ok (updated_task now status progress result error task).
Proof.
  intros Hok. unfold updated_task, progress_ok.
  destruct (status_eqb status COMPLETED);
    destruct progress as [p|], result, error; simpl; try done;
    apply ProgressTrackerProps.py_clamp_range.
Qed.

(** X1.  In every state reached from a fresh manager, the progress of
    every task lies between 0 and 100: a supplied progress is clamped and
    completion sets it to 100. *)
Theorem reachable_progress_in_range
    (py : PyLib) (st : State) (task_id : string) (task : Task)
    (Hreach : reachable py st)
    (Hknown : get_task task_id st = Some task) :
  (0 <= task_progress task)%Q /\ (task_progress task <= 100)%Q.
Proof.
  apply (every_task_reachable progress_ok) with py st task_id; try done.
  - intros. by apply updated_task_progress_ok.
  - intros t _ Hp _ _ _. unfold progress_ok. by rewrite Hp.
Qed.

Lemma reachable_progress_in_range_witness :
  let ops :=
    [ (0, CreateTask "a" "" HIGH None None None None None);
      (1, UpdateTaskStatus "a_0" IN_PROGRESS (Some (250 # 1)) None None) ]%Z in
  let st := run demo_py ops init_manager in
  exists task,
    get_task "a_0" st = Some task /\
    (0 <= task_progress task)%Q /\ (task_progress task <= 100)%Q.
Proof.
  intros ops st. eexists. split; [reflexivity|].
  apply (reachable_progress_in_range demo_py st "a_0").
  - exists ops. reflexivity.
  - reflexivity.
Defined.

(** *** The shape of the tables *)

Lemma loop_keeps_refl (l : EventLoop) : loop_keeps l l.
Proof. intros h c s H. eauto. Qed.

Lemma loop_keeps_trans (l1 l2 l3 : EventLoop) :
  loop_keeps l1 l2 -> loop_keeps l2 l3 -> loop_keeps l1 l3.
Proof.
  intros H12 H23 h c s H. destruct (H12 h c s H) as [s' H']. eauto.
Qed.

Lemma loop_keeps_alter (f : AsyncUnit -> AsyncUnit) (k : nat) (l : EventLoop) :
  (forall u, unit_coro (f u) = unit_coro u) -> loop_keeps l (alter f k l).
Proof.
  intros Hf h c s H. destruct (decide (k = h)) as [->|Hne].
  - rewrite list_lookup_alter_eq, H. simpl.
    specialize (Hf (mkAsyncUnit c s)). destruct (f _) as [c' s'].
    simpl in Hf. subst c'. eauto.
  - rewrite list_lookup_alter_ne by done. eauto.
Qed.

Lemma loop_keeps_cancel (h : nat) (l : EventLoop) : loop_keeps l (cancel_unit h l).
Proof.
  apply loop_keeps_alter. intros [c []]; reflexivity.
Qed.

Lemma loop_keeps_finish (h : nat) (l : EventLoop) : loop_keeps l (finish_unit h l).
Proof. by apply loop_keeps_alter. Qed.

Lemma loop_keeps_app (l : EventLoop) (u : AsyncUnit) : loop_keeps l (l ++ [u]).
Proof.
  intros h c s H. exists s. rewrite lookup_app_l; [done|].
  by apply lookup_lt_Some in H.
Qed.

(** What [update_task_status] does to the table of handles and the loop:
    nothing, or the removal of the task's handle with a [cancel()]. *)
Lemma update_task_status_units now task_id status progress result error st :
  let r := update_task_status now task_id status progress result error st in
  (_running_tasks (manager r.2) = _running_tasks (manager st) /\
   loop r.2 = loop st) \/
  (exists h, _running_tasks (manager st) !! task_id = Some h /\
             _running_tasks (manager r.2)
               = delete task_id (_running_tasks (manager st)) /\
             loop r.2 = cancel_unit h (loop st)).
Proof.
  unfold update_task_status.
  destruct (OrderedDict.get task_id (tasks (manager st))); [|by left].
  destruct (status_eqb status COMPLETED); [|by left].
  destruct (_running_tasks (manager st) !! task_id) as [h|] eqn:E;
    [right; by exists h|by left].
Qed.

Lemma update_task_status_get now task_id status progress result error st id :
  is_Some (get_task id st) ->
  is_Some (get_task id
             (update_task_status now task_id status progress result error st).2).
Proof.
  intros Hsome. destruct (get_task task_id st) as [task|] eqn:Hget.
  - destruct (TaskManagerProps.update_task_status_known now task_id status
                progress result error st task Hget) as (_ & Htbl & Hnew).
    destruct (decide (task_id = id)) as [<-|Hne]; [by rewrite Hnew|].
    unfold get_task. rewrite Htbl, get_set_ne by done. exact Hsome.
  - unfold update_task_status. unfold get_task in Hget. by rewrite Hget.
Qed.

Lemma handles_ok_step (st st' : State) :
  handles_ok st ->
  loop_keeps (loop st) (loop st') ->
  (forall id h, _running_tasks (manager st') !! id = Some h ->
     _running_tasks (manager st) !! id = Some h /\
     is_Some (get_task id st')) ->
  handles_ok st'.
Proof.
  intros Hok Hloop Hrun id h Hh. destruct (Hrun id h Hh) as [Hold Htask].
  split; [done|]. destruct (Hok id h Hold) as (_ & f & s & Hu).
  destruct (Hloop h _ _ Hu) as [s' Hu']. eauto.
Qed.

Lemma handles_ok_update now task_id status progress result error st :
  handles_ok st ->
  handles_ok (update_task_status now task_id status progress result error st).2.
Proof.
  intros Hok. apply (handles_ok_step st); [done| |].
  - destruct (update_task_status_units now task_id status progress result
                error st) as [[_ ->]|(h & _ & _ & ->)];
      [apply loop_keeps_refl|apply loop_keeps_cancel].
  - intros id h Hh.
    assert (Hold : _running_tasks (manager st) !! id = Some h).
    { destruct (update_task_status_units now task_id status progress result
                  error st) as [[E _]|(h' & _ & E & _)]; rewrite E in Hh;
        [done|].
      apply lookup_delete_Some in Hh. tauto. }
    split; [done|]. apply update_task_status_get. by apply (Hok id h).
Qed.

Lemma keys_ok_update now task_id status progress result error st :
  keys_ok st ->
  keys_ok (update_task_status now task_id status progress result error st).2.
Proof.
  intros [Hnd Hid]. destruct (get_task task_id st) as [task|] eqn:Hget.
  - destruct (TaskManagerProps.update_task_status_known now task_id status
                progress result error st task Hget) as (_ & Htbl & _).
    unfold keys_ok. rewrite Htbl. split; [by apply NoDup_set|].
    intros k t Hin. apply In_set in Hin as [[= -> ->]|Hin]; [|by apply Hid].
    transitivity (TaskManagerPy.task_id task).
    + unfold updated_task.
      by destruct (status_eqb _ _), progress, result, error.
    + apply Hid. by apply get_In_pair.
  - unfold update_task_status. unfold get_task in Hget. by rewrite Hget.
Qed.

Lemma shape_apply py now op st :
  keys_ok st /\ handles_ok st ->
  keys_ok (apply py now op st) /\ handles_ok (apply py now op st).
Proof.
  intros [Hk Hh].
  destruct op as [name description priority assigned_to tags metadata
                  dependencies workflow_id
                 |id status progress result error|id|id f|h started awaited];
    simpl.
  - (* create_task *)
    unfold create_task.
    destruct (_generate_task_id py now name) as [new_id|e]; [|done].
    destruct Hk as [Hnd Hid]. split.
    + split; simpl; [by apply NoDup_set|].
      intros k t Hin. apply In_set in Hin as [[= -> ->]|Hin];
        [done|by apply Hid].
    + apply (handles_ok_step st); [done|apply loop_keeps_refl|].
      intros id h Hrun. simpl in Hrun. split; [done|].
      unfold get_task. simpl.
      destruct (decide (new_id = id)) as [<-|Hne].
      * by rewrite get_set_eq.
      * rewrite get_set_ne by done. by apply (Hh id h).
  - (* update_task_status *)
    split; [by apply keys_ok_update|by apply handles_ok_update].
  - (* delete_task *)
    unfold delete_task.
    destruct (OrderedDict.mem id (tasks (manager st))) eqn:Hmem; [|done].
    destruct Hk as [Hnd Hid].
    destruct (_running_tasks (manager st) !! id) as [h|] eqn:Hrun; simpl.
    + split.
      * split; simpl; [by apply NoDup_del|].
        intros k t Hin. apply In_del in Hin. by apply Hid.
      * apply (handles_ok_step st); [done|apply loop_keeps_cancel|].
        intros id' h' Hh'. simpl in Hh'.
        apply lookup_delete_Some in Hh' as [Hne Hh']. split; [done|].
        unfold get_task. simpl. rewrite get_del_ne by done.
        by apply (Hh id' h').
    + split.
      * split; simpl; [by apply NoDup_del|].
        intros k t Hin. apply In_del in Hin. by apply Hid.
      * apply (handles_ok_step st); [done|apply loop_keeps_refl|].
        intros id' h' Hh'. simpl in Hh'. split; [done|].
        assert (id <> id') by congruence.
        unfold get_task. simpl. rewrite get_del_ne by done.
        by apply (Hh id' h').
  - (* execute_task *)
    unfold execute_task.
    destruct (OrderedDict.get id (tasks (manager st))) as [task|] eqn:Hget;
      [|done].
    destruct (pending_deps _ _); cbn [snd].
    + pose proof (keys_ok_update now id IN_PROGRESS (Some 0%Q) None None st Hk)
        as Hk1.
      pose proof (handles_ok_update now id IN_PROGRESS (Some 0%Q) None None st
                    Hh) as Hh1.
      set (st1 := (update_task_status now id IN_PROGRESS (Some 0%Q) None None
                                      st).2) in *.
      split; [exact Hk1|].
      intros id' h' Hh'. simpl in Hh'.
      assert (Hknown : is_Some (get_task id st1)).
      { apply update_task_status_get. unfold get_task. by rewrite Hget. }
      apply lookup_insert_Some in Hh' as [[<- <-]|[Hne Hh']].
      * split; [exact Hknown|]. exists f, Scheduled. simpl.
        by rewrite lookup_app_r, Nat.sub_diag.
      * destruct (Hh1 id' h' Hh') as (Ht & f' & s' & Hu).
        split; [exact Ht|]. exists f', s'. simpl.
        rewrite lookup_app_l; [done|]. by apply lookup_lt_Some in Hu.
    + split; [by apply keys_ok_update|by apply handles_ok_update].
  - (* run_unit *)
    assert (Hw : forall id, keys_ok (_execute_wrapper now id awaited st) /\
                            handles_ok (_execute_wrapper now id awaited st)).
    { intros id. unfold _execute_wrapper.
      destruct awaited as [v|e];
        [split; [by apply keys_ok_update|by apply handles_ok_update]|].
      destruct e; simpl; try done;
        split; by (apply keys_ok_update || apply handles_ok_update). }
    assert (Hfin : forall st1, keys_ok st1 /\ handles_ok st1 ->
              keys_ok (mkState (manager st1) (finish_unit h (loop st1))) /\
              handles_ok (mkState (manager st1) (finish_unit h (loop st1)))).
    { intros st1 [Hk1 Hh1]. split; [exact Hk1|].
      apply (handles_ok_step st1); [done|apply loop_keeps_finish|].
      intros id' h' Hh'. split; [done|]. by apply (Hh1 id' h'). }
    unfold run_unit.
    destruct (loop st !! h) as [[[id f|wid] []]|]; try done.
    + by apply Hfin.
    + destruct started; by apply Hfin.
Qed.

Lemma shape_run py ops st :
  keys_ok st /\ handles_ok st ->
  keys_ok (run py ops st) /\ handles_ok (run py ops st).
Proof.
  revert st. induction ops as [|[now op] ops IH]; intros st Hok; [done|].
  simpl. by apply IH, shape_apply.
Qed.

Lemma shape_reachable py st : reachable py st -> keys_ok st /\ handles_ok st.
Proof.
  intros [ops ->]. apply shape_run. split.
  - split; [constructor|by intros k t []].
  - intros id h Hh. simpl in Hh. by rewrite lookup_empty in Hh.
Qed.

(** X2.  In every state reached from a fresh manager the tables are
    well formed: a task is filed under its own id, and every registered
    handle belongs to a task that is still in the table and designates a
    unit of the event loop that wraps an execution of that very task. *)
Theorem reachable_tables_well_formed
    (py : PyLib) (st : State) (Hreach : reachable py st) :
  (forall id task, get_task id st = Some task -> task_id task = id) /\
  (forall id h, _running_tasks (manager st) !! id = Some h ->
     is_Some (get_task id st) /\
     exists f s, loop st !! h = Some (mkAsyncUnit (ExecuteWrapper id f) s)).
Proof.
  destruct (shape_reachable py st Hreach) as [[Hnd Hid] Hh]. split.
  - intros id task Hget. apply Hid. by apply get_In_pair.
  - exact Hh.
Qed.

Lemma reachable_tables_well_formed_witness :
  let ops :=
    [ (0, CreateTask "a" "" HIGH None None None None None);
      (1, ExecuteTask "a_0" (Callable "f")) ]%Z in
  let st := run demo_py ops init_manager in
  _running_tasks (manager st) !! "a_0" = Some 0 /\
  is_Some (get_task "a_0" st) /\
  exists f s, loop st !! 0 = Some (mkAsyncUnit (ExecuteWrapper "a_0" f) s).
Proof.
  intros ops st. split; [reflexivity|].
  apply (reachable_tables_well_formed demo_py st); [|reflexivity].
  exists ops. reflexivity.
Defined.

(** *** Single operations *)

(** X3.  Deleting a task of a reachable state returns [True], removes the
    task and its handle, sends [cancel()] to the unit the handle
    designated, and leaves every other task as it was. *)
Theorem delete_task_removes
    (py : PyLib) (st : State) (id : string) (task : Task)
    (Hreach : reachable py st)
    (Hknown : get_task id st = Some task) :
  let r := delete_task id st in
  r.1 = true /\
  get_task id r.2 = None /\
  _running_tasks (manager r.2) !! id = None /\
  (forall id', id' <> id -> get_task id' r.2 = get_task id' st) /\
  (forall id', id' <> id ->
     _running_tasks (manager r.2) !! id' = _running_tasks (manager st) !! id') /\
  (forall h u, _running_tasks (manager st) !! id = Some h ->
               loop st !! h = Some u ->
               loop r.2 !! h = Some (request_cancel u)).
Proof.
  destruct (shape_reachable py st Hreach) as [[Hnd _] _].
  unfold get_task in Hknown. unfold delete_task, OrderedDict.mem.
  rewrite Hknown.
  destruct (_running_tasks (manager st) !! id) as [h|] eqn:Hrun; simpl;
    unfold get_task; simpl.
  - split; [done|]. split; [by apply get_del_eq|].
    split; [apply lookup_delete_eq|].
    split; [intros id' Hne; by apply get_del_ne|].
    split; [intros id' Hne; by apply lookup_delete_ne|].
    intros h' u [= <-] Hu. unfold cancel_unit.
    by rewrite list_lookup_alter_eq, Hu.
  - split; [done|]. split; [by apply get_del_eq|]. split; [done|].
    split; [intros id' Hne; by apply get_del_ne|]. split; [done|].
    by intros h u [=].
Qed.

Lemma delete_task_removes_witness :
  let ops :=
    [ (0, CreateTask "a" "" HIGH None None None None None);
      (1, ExecuteTask "a_0" (Callable "f")) ]%Z in
  let st := run demo_py ops init_manager in
  let r := delete_task "a_0" st in
  r.1 = true /\ get_task "a_0" r.2 = None /\
  loop r.2 !! 0 = Some (mkAsyncUnit (ExecuteWrapper "a_0" (Callable "f"))
                                    CancelRequested).
Proof.
  intros ops st r.
  destruct (delete_task_removes demo_py st "a_0" _
              (ex_intro _ ops eq_refl) eq_refl)
    as (Hr & Hgone & _ & _ & _ & Hcancel).
  split; [exact Hr|]. split; [exact Hgone|].
  exact (Hcancel 0 _ eq_refl eq_refl).
Defined.

Lemma pending_deps_nil (st : State) (task : Task) :
  deps_met st task ->
  pending_deps (tasks (manager st)) (task_dependencies task) = [].
Proof.
  intros Hmet.
  destruct (pending_deps _ _) as [|d l] eqn:E; [done|].
  assert (Hin : In d (pending_deps (tasks (manager st))
                                   (task_dependencies task)))
    by (rewrite E; by left).
  apply TaskManagerProps.pending_deps_In in Hin as [Hd Hu].
  rewrite (Hmet d Hd) in Hu. discriminate.
Qed.

(** X4.  When every dependency of a known task is a completed task (in
    particular when it has none), [execute_task] returns the task in
    status [IN_PROGRESS] with progress 0, appends one scheduled unit for
    it to the event loop and registers that unit's handle under the task
    id.  The units already in the loop are left alone: a handle registered
    before is overwritten, its unit neither cancelled nor awaited. *)
Theorem execute_task_launches
    (now : Z) (id : string) (f : callable) (st : State) (task : Task)
    (Hknown : get_task id st = Some task)
    (Hmet : deps_met st task) :
  let r := execute_task now id f st in
  exists task',
    r.1 = Some task' /\
    get_task id r.2 = Some task' /\
    task_status task' = IN_PROGRESS /\
    task_progress task' = 0%Q /\
    _running_tasks (manager r.2)
      = <[id := length (loop st)]> (_running_tasks (manager st)) /\
    loop r.2 = loop st ++ [mkAsyncUnit (ExecuteWrapper id f) Scheduled].
Proof.
  intros r. subst r. unfold execute_task.
  pose proof Hknown as Hk. unfold get_task in Hk. rewrite Hk.
  rewrite (pending_deps_nil st task Hmet).
  destruct (TaskManagerProps.update_task_status_known now id IN_PROGRESS
              (Some 0%Q) None None st task Hknown) as (_ & _ & Hget).
  destruct (TaskManagerProps.update_task_status_keeps_units now id IN_PROGRESS
              (Some 0%Q) None None st) as (Hloop & Hrun); [done|].
  simpl in Hget, Hloop, Hrun. cbn [create_unit fst snd].
  rewrite Hloop, Hrun. cbn [manager loop _running_tasks].
  eexists. split; [exact Hget|]. split; [exact Hget|]. done.
Qed.

Lemma execute_task_launches_witness :
  let st0 := (create_task demo_py 0 "a" "" HIGH None None None None None
                          init_manager).2 in
  let st1 := (execute_task 1 "a_0" (Callable "f") st0).2 in
  let r := execute_task 2 "a_0" (Callable "g") st1 in
  _running_tasks (manager st1) !! "a_0" = Some 0 /\
  _running_tasks (manager r.2) !! "a_0" = Some 1 /\
  loop r.2 = [ mkAsyncUnit (ExecuteWrapper "a_0" (Callable "f")) Scheduled;
               mkAsyncUnit (ExecuteWrapper "a_0" (Callable "g")) Scheduled ].
Proof.
  intros st0 st1 r. split; [reflexivity|].
  assert (Hmet : deps_met st1
            (mkTask "a_0" "a" "" IN_PROGRESS HIGH 0 1 None None [] 0 None None
                    [] [] None)) by (by intros d []).
  destruct (execute_task_launches 2 "a_0" (Callable "g") st1 _ eq_refl Hmet)
    as (task' & _ & _ & _ & _ & Hrun & Hloop).
  split; [|exact Hloop].
  unfold r. rewrite Hrun. apply lookup_insert_eq.
Defined.



(** X6.  When a scheduled unit of a known task runs and its execution
    function returns, the task is completed and whatever handle is then
    registered under the task id is removed and cancelled.  So of two
    units launched for one task, the first to return deregisters and
    cancels the other; the finished unit itself ends [Finished]. *)
Theorem returning_unit_deregisters
    (now : Z) (h h' : nat) (started : bool) (v : pyval) (id : string)
    (f : callable) (st : State) (task : Task)
    (Hunit : loop st !! h = Some (mkAsyncUnit (ExecuteWrapper id f) Scheduled))
    (Hknown : get_task id st = Some task)
    (Hreg : _running_tasks (manager st) !! id = Some h') :
  let st' := run_unit now h started (Ok v) st in
  (exists task', get_task id st' = Some task' /\
                 task_status task' = COMPLETED) /\
  _running_tasks (manager st') !! id = None /\
  loop st' !! h = Some (mkAsyncUnit (ExecuteWrapper id f) Finished) /\
  (h' <> h -> forall u, loop st !! h' = Some u ->
                        loop st' !! h' = Some (request_cancel u)).
Proof.
  intros st'. subst st'. unfold run_unit. rewrite Hunit.
  unfold _execute_wrapper.
  set (res := Some (if truthy v then [("data", v)] else [])).
  destruct (TaskManagerProps.update_task_status_known now id COMPLETED
              (Some 100%Q) res None st task Hknown) as (_ & _ & Hget).
  assert (Hunits :
    _running_tasks (manager (update_task_status now id COMPLETED (Some 100%Q)
                               res None st).2)
      = delete id (_running_tasks (manager st)) /\
    loop (update_task_status now id COMPLETED (Some 100%Q) res None st).2
      = cancel_unit h' (loop st)).
  { unfold update_task_status. unfold get_task in Hknown.
    rewrite Hknown. simpl. by rewrite Hreg. }
  destruct Hunits as [Hrun Hloop].
  set (st1 := (update_task_status now id COMPLETED (Some 100%Q) res None st).2)
    in *.
  simpl. split; [|split; [|split]].
  - eexists. split; [exact Hget|].
    unfold updated_task. by destruct (truthy v).
  - rewrite Hrun. apply lookup_delete_eq.
  - rewrite Hloop. unfold finish_unit, cancel_unit.
    rewrite list_lookup_alter_eq.
    destruct (decide (h' = h)) as [->|Hne].
    + by rewrite list_lookup_alter_eq, Hunit.
    + by rewrite list_lookup_alter_ne, Hunit.
  - intros Hne u Hu. rewrite Hloop. unfold finish_unit, cancel_unit.
    rewrite list_lookup_alter_ne by done.
    by rewrite list_lookup_alter_eq, Hu.
Qed.

Lemma returning_unit_deregisters_witness :
  let st0 := (create_task demo_py 0 "a" "" HIGH None None None None None
                          init_manager).2 in
  let st1 := (execute_task 1 "a_0" (Callable "f") st0).2 in
  let st2 := (execute_task 2 "a_0" (Callable "g") st1).2 in
  let st3 := run_unit 3 0 true (Ok (VInt 7)) st2 in
  _running_tasks (manager st2) !! "a_0" = Some 1 /\
  _running_tasks (manager st3) !! "a_0" = None /\
  loop st3 !! 0 = Some (mkAsyncUnit (ExecuteWrapper "a_0" (Callable "f"))
                                    Finished) /\
  loop st3 !! 1 = Some (mkAsyncUnit (ExecuteWrapper "a_0" (Callable "g"))
                                    CancelRequested).
Proof.
  intros st0 st1 st2 st3. split; [reflexivity|].
  destruct (returning_unit_deregisters 3 0 1 true (VInt 7) "a_0" (Callable "f")
              st2 _ eq_refl eq_refl eq_refl)
    as (_ & Hgone & Hfin & Hrival).
  split; [exact Hgone|]. split; [exact Hfin|].
  apply (Hrival (fun E => O_S 0 (eq_sym E)) _ eq_refl).
Defined.

(** X7.  [update_task_status] on a known task touches that task only,
    and of that task only what it is told to: the other tasks and the
    order of the table are as before; the identity of the task (id, name,
    priority, creation time, dependencies) is kept; an omitted result or
    error leaves the stored one in place; and unless the new status is
    [COMPLETED], an omitted progress and [completed_at] stay as they
    were. *)
Theorem update_task_status_frame
    (now : Z) (id : string) (status : TaskStatus) (progress : option Q)
    (result : option pydict) (error : option string) (st : State)
    (task : Task)
    (Hknown : get_task id st = Some task) :
  let r := update_task_status now id status progress result error st in
  (forall id', id' <> id -> get_task id' r.2 = get_task id' st) /\
  OrderedDict.keys (tasks (manager r.2)) = OrderedDict.keys (tasks (manager st)) /\
  exists task',
    get_task id r.2 = Some task' /\
    task_id task' = task_id task /\
    task_name task' = task_name task /\
    task_priority task' = task_priority task /\
    task_created_at task' = task_created_at task /\
    task_dependencies task' = task_dependencies task /\
    (result = None -> task_result task' = task_result task) /\
    (error = None -> task_error task' = task_error task) /\
    (status <> COMPLETED ->
       task_completed_at task' = task_completed_at task /\
       (progress = None -> task_progress task' = task_progress task)).
Proof.
  intros r. subst r.
  destruct (TaskManagerProps.update_task_status_known now id status progress
              result error st task Hknown) as (_ & Htbl & Hget).
  split; [|split].
  - intros id' Hne. unfold get_task. rewrite Htbl. by apply get_set_ne.
  - rewrite Htbl, keys_set. unfold OrderedDict.mem.
    unfold get_task in Hknown. by rewrite Hknown.
  - eexists. split; [exact Hget|]. unfold updated_task, status_eqb.
    destruct (decide (status = COMPLETED)) as [->|Hne].
    + rewrite bool_decide_eq_true_2 by done.
      destruct progress, result, error; simpl; repeat split; done.
    + rewrite bool_decide_eq_false_2 by done.
      destruct progress, result, error; simpl; repeat split; done.
Qed.

Lemma update_task_status_frame_witness :
  let st0 := (create_task demo_py 0 "a" "" HIGH None None None None None
                          init_manager).2 in
  let st1 := (update_task_status 1 "a_0" FAILED None None (Some "boom") st0).2 in
  let r := update_task_status 2 "a_0" IN_PROGRESS None None None st1 in
  exists task',
    get_task "a_0" r.2 = Some task' /\
    task_error task' = Some "boom".
Proof.
  intros st0 st1 r.
  destruct (update_task_status_frame 2 "a_0" IN_PROGRESS None None None st1 _
              eq_refl)
    as (_ & _ & task' & Hget & _ & _ & _ & _ & _ & _ & Herr & _).
  exists task'. split; [exact Hget|]. exact (Herr eq_refl).
Defined.

End TaskManagerExtras.

(** ** Task statistics *)

Module TaskStatisticsProps.
Import TaskManagerPy TaskManagerRuns TaskStatisticsPy TaskManagerExtraSpec.

Lemma count_status_total (ts : list Task) :
  (count_status PENDING ts + count_status IN_PROGRESS ts
   + count_status COMPLETED ts + count_status FAILED ts
   + count_status CANCELLED ts = Z.of_nat (length ts))%Z.
Proof.
  unfold count_status, status_eqb. induction ts as [|t ts IH]; [done|].
  cbn [List.filter]. destruct (task_status t);
    repeat case_bool_decide; try done; cbn [length]; lia.
Qed.

Lemma count_priority_total (ts : list Task) :
  (count_priority LOW ts + count_priority MEDIUM ts
   + count_priority HIGH ts + count_priority URGENT ts
   = Z.of_nat (length ts))%Z.
Proof.
  unfold count_priority, priority_eqb. induction ts as [|t ts IH]; [done|].
  cbn [List.filter]. destruct (task_priority t);
    repeat case_bool_decide; try done; cbn [length]; lia.
Qed.

(** X8.  The statistics are consistent: [total_tasks] is the number of
    tasks in the table, the five status counts add up to it and so do the
    four priority counts (every task is counted once in each breakdown),
    and [running_tasks] is the number of registered handles. *)
Theorem statistics_counts_add_up (st : State) :
  exists status_counts priority_counts average,
    get_task_statistics st
      = [ ("total_tasks",
           VInt (Z.of_nat (length (OrderedDict.values (tasks (manager st))))));
          ("status_counts", VDict status_counts);
          ("priority_counts", VDict priority_counts);
          ("average_progress", VFloat average);
          ("running_tasks",
           VInt (Z.of_nat (size (_running_tasks (manager st))))) ] /\
    map fst status_counts
      = ["pending"; "in_progress"; "completed"; "failed"; "cancelled"] /\
    map fst priority_counts = ["low"; "medium"; "high"; "urgent"] /\
    sum_counts status_counts
      = Z.of_nat (length (OrderedDict.values (tasks (manager st)))) /\
    sum_counts priority_counts
      = Z.of_nat (length (OrderedDict.values (tasks (manager st)))).
Proof.
  eexists _, _, _. split; [reflexivity|].
  split; [reflexivity|]. split; [reflexivity|].
  set (ts := OrderedDict.values (tasks (manager st))).
  split; cbn [map all_statuses all_priorities sum_counts].
  - pose proof (count_status_total ts). lia.
  - pose proof (count_priority_total ts). lia.
Qed.

(** *** The average *)

Lemma py_round_bounds (x : Q) (n : Z) :
  (0 <= x)%Q -> (x <= inject_Z n)%Q -> (0 <= py_round x <= n)%Z.
Proof.
  unfold Qle, py_round. destruct x as [a d]. simpl.
  assert (HD : (0 < Z.pos d)%Z) by lia.
  set (D := Z.pos d) in *. clearbody D. intros H0 Hn.
  pose proof (Z.div_mod a D ltac:(lia)) as Hdm.
  pose proof (Z.mod_pos_bound a D HD) as Hm.
  assert (Hfl : (0 <= a / D)%Z) by (apply Z.div_pos; lia).
  set (fl := (a / D)%Z) in *. set (r := (a mod D)%Z) in *.
  clearbody fl r.
  assert (Hr : (a - fl * D = r)%Z) by lia. rewrite Hr.
  assert (Hup : (fl <= n)%Z) by nia.
  assert (Hstrict : (0 < r -> fl + 1 <= n)%Z) by nia.
  destruct (Z.ltb_spec (2 * r) D); [lia|].
  destruct (Z.ltb_spec D (2 * r)); [lia|].
  destruct (Z.even fl); lia.
Qed.

Lemma py_round2_range (x : Q) :
  (0 <= x)%Q -> (x <= 100)%Q ->
  (0 <= py_round2 x)%Q /\ (py_round2 x <= 100)%Q.
Proof.
  intros H0 H100. unfold py_round2.
  assert (Ha : (0 <= x * 100)%Q) by (by apply Qmult_le_0_compat).
  assert (Hb : (x * 100 <= inject_Z 10000)%Q).
  { change (inject_Z 10000) with (100 * 100)%Q. by apply Qmult_le_compat_r. }
  pose proof (py_round_bounds _ _ Ha Hb). unfold Qle. simpl. lia.
Qed.

Lemma sum_progress_bounds (ts : list Task) (acc : Q) (k : nat) :
  Forall progress_ok ts ->
  (0 <= acc)%Q -> (acc <= 100 * inject_Z (Z.of_nat k))%Q ->
  (0 <= fold_left (fun a t => a + task_progress t) ts acc)%Q /\
  (fold_left (fun a t => a + task_progress t) ts acc
   <= 100 * inject_Z (Z.of_nat (k + length ts)))%Q.
Proof.
  revert acc k. induction ts as [|t ts IH]; intros acc k Hall H0 Hk.
  - simpl. by rewrite Nat.add_0_r.
  - apply Forall_cons in Hall as [[Ht0 Ht100] Hall]. simpl.
    replace (k + S (length ts))%nat with (S k + length ts)%nat by lia.
    apply IH; [done| |].
    + rewrite <- (Qplus_0_r 0). by apply Qplus_le_compat.
    + rewrite Nat2Z.inj_succ, <- Z.add_1_r, inject_Z_plus.
      rewrite Qmult_plus_distr_r. apply Qplus_le_compat; [done|].
      by rewrite Qmult_1_r.
Qed.

(** X9.  In every state reached from a fresh manager, the
    [average_progress] of the statistics lies between 0 and 100; with no
    task at all it is 0, the division by the number of tasks being
    skipped. *)
Theorem statistics_average_in_range
    (py : PyLib) (st : State) (Hreach : reachable py st) :
  exists average,
    OrderedDict.get "average_progress" (get_task_statistics st)
      = Some (VFloat average) /\
    (0 <= average)%Q /\ (average <= 100)%Q /\
    (tasks (manager st) = [] -> (average == 0)%Q).
Proof.
  eexists. split; [reflexivity|].
  set (ts := OrderedDict.values (tasks (manager st))).
  assert (Hall : Forall progress_ok ts).
  { apply Forall_forall. intros t Hin. apply list_elem_of_In in Hin.
    destruct Hreach as [ops ->].
    apply (TaskManagerExtras.every_task_run progress_ok) with py ops
      init_manager; try done.
    - intros. by apply TaskManagerExtras.updated_task_progress_ok.
    - intros t' _ Hp _ _ _. unfold progress_ok. by rewrite Hp. }
  assert (Hrange :
    (0 <= (if Z.ltb 0 (Z.of_nat (length ts))
           then sum_progress ts / inject_Z (Z.of_nat (length ts))
           else 0))%Q /\
    ((if Z.ltb 0 (Z.of_nat (length ts))
      then sum_progress ts / inject_Z (Z.of_nat (length ts))
      else 0) <= 100)%Q).
  { destruct (Z.ltb_spec 0 (Z.of_nat (length ts))) as [Hpos|_]; [|done].
    destruct (sum_progress_bounds ts 0 0 Hall) as [Hs0 Hs100]; [done|done|].
    assert (Hn : (0 < inject_Z (Z.of_nat (length ts)))%Q)
      by (unfold Qlt; simpl; lia).
    split.
    - apply Qle_shift_div_l; [done|]. by rewrite Qmult_0_l.
    - apply Qle_shift_div_r; [done|]. exact Hs100. }
  destruct Hrange as [H0 H100].
  destruct (py_round2_range _ H0 H100) as [Ha Hb].
  split; [exact Ha|]. split; [exact Hb|].
  intros Hempty. subst ts. rewrite Hempty. reflexivity.
Qed.

Lemma statistics_average_in_range_witness :
  let ops :=
    [ (0, CreateTask "a" "" HIGH None None None None None);
      (1, CreateTask "b" "" LOW None None None None None);
      (2, UpdateTaskStatus "a_0" COMPLETED None None None) ]%Z in
  let st := run demo_py ops init_manager in
  exists average,
    OrderedDict.get "average_progress" (get_task_statistics st)
      = Some (VFloat average) /\
    (0 <= average)%Q /\ (average <= 100)%Q.
Proof.
  intros ops st.
  destruct (statistics_average_in_range demo_py st (ex_intro _ ops eq_refl))
    as (average & Hget & H0 & H100 & _).
  exists average. split; [exact Hget|]. split; [exact H0|exact H100].
Defined.

End TaskStatisticsProps.

(** ** Progress tracker: the update channels *)

Module ProgressTrackerExtras.
Import ProgressTrackerPy ProgressTrackerSpec ProgressTrackerExtraSpec.
Import OrderedDictFacts OrderedDictUnique.

Lemma notify_contained (callbacks : list (ProgressUpdate -> outcome unit))
    (update : ProgressUpdate) :
  (forall callback e, In callback callbacks -> callback update = Raise e ->
                      is_Exception e = true) ->
  notify callbacks update = Ok tt.
Proof.
  induction callbacks as [|cb cbs IH]; intros H; [done|]. simpl.
  destruct (cb update) as [?|e] eqn:E.
  - apply IH. intros c e Hin. apply H. by right.
  - rewrite (H cb e (or_introl eq_refl) E).
    apply IH. intros c e' Hin. apply H. by right.
Qed.


(** The stages of a call, and what it returns and stores at each way
    out. *)
Lemma update_progress_cases py now id cs p st msg data tr m :
  get_meter id tr = Some m ->
  let r := update_progress py now id cs p st msg data tr in
  let m1 := apply_state now st m in
  match apply_step cs m1 with
  | (Raise e, m2) => r = (Raise e, store m2 id tr)
  | (Ok _, m2) =>
      match apply_progress p m2 with
      | (Raise e, m3) => r = (Raise e, store m3 id tr)
      | (Ok _, m3) =>
          let u text :=
            mkProgressUpdate (_generate_update_id py now id) "meter" id
              (progress m3) (state m3) (Some text) (or_default data []) now in
          let m4 :=
            match msg with
            | Some text => append_update (u text) m3
            | None => m3
            end in
          match match msg with
                | Some text => notify (_callbacks tr) (u text)
                | None => Ok tt
                end with
          | Raise e => r = (Raise e, store m4 id tr)
          | Ok _ =>
              match estimate now m4 with
              | (Raise e, m5) => r = (Raise e, store m5 id tr)
              | (Ok _, m5) => r = (Ok (Some m5), store m5 id tr)
              end
          end
      end
  end.
Proof.
  intros Hget. unfold update_progress, get_meter in *. rewrite Hget. simpl.
  destruct (apply_step cs (apply_state now st m)) as [[?|e] m2]; [|done].
  destruct (apply_progress p m2) as [[?|e] m3]; [|done].
  destruct msg as [text|]; simpl.
  - destruct (notify _ _); [|done]. by destruct (estimate _ _) as [[?|?] ?].
  - by destruct (estimate _ _) as [[?|?] ?].
Qed.

Lemma get_meter_store (m : ProgressMeter) (id : string) (tr : ProgressTracker) :
  get_meter id (store m id tr) = Some m.
Proof. unfold get_meter, store. simpl. apply get_set_eq. Qed.

Lemma apply_state_started (now : Z) (st : option ProgressState)
    (m : ProgressMeter) :
  started_at (apply_state now st m)
  = match started_at m with
    | Some t => Some t
    | None => if bool_decide (st = Some IN_PROGRESS) then Some now else None
    end.
Proof.
  unfold apply_state. destruct st as [s|]; [|by destruct (started_at m)].
  destruct (started_at m) as [t|] eqn:E; simpl; rewrite E; simpl.
  - rewrite andb_false_r. by destruct (state_eqb s COMPLETED); simpl.
  - rewrite andb_true_r. destruct s; simpl; by rewrite ?E.
Qed.

Lemma apply_state_updates (now : Z) (st : option ProgressState)
    (m : ProgressMeter) :
  updates (apply_state now st m) = updates m /\
  total_steps (apply_state now st m) = total_steps m.
Proof.
  unfold apply_state. destruct st as [s|]; [|done].
  destruct (_ && _); [done|]. by destruct (state_eqb _ _).
Qed.

Lemma apply_step_fields (cs : option Z) (m : ProgressMeter) :
  started_at (apply_step cs m).2 = started_at m /\
  updates (apply_step cs m).2 = updates m /\
  state (apply_step cs m).2 = state m /\
  total_steps (apply_step cs m).2 = total_steps m /\
  estimated_completion (apply_step cs m).2 = estimated_completion m.
Proof.
  unfold apply_step. destruct cs as [c|]; [|done]. simpl.
  destruct (Z.eqb _ _); [done|]. by destruct (float_overflows _).
Qed.

Lemma apply_progress_fields (p : option Q) (m : ProgressMeter) :
  started_at (apply_progress p m).2 = started_at m /\
  updates (apply_progress p m).2 = updates m /\
  state (apply_progress p m).2 = state m /\
  total_steps (apply_progress p m).2 = total_steps m /\
  estimated_completion (apply_progress p m).2 = estimated_completion m.
Proof.
  unfold apply_progress. destruct p as [q|]; [|done]. simpl.
  by destruct (float_overflows _).
Qed.

Lemma apply_progress_clamps (q : Q) (m : ProgressMeter) :
  progress (apply_progress (Some q) m).2 = clamp q.
Proof.
  unfold apply_progress. simpl. by destruct (float_overflows _).
Qed.

Lemma estimate_fields (now : Z) (m : ProgressMeter) :
  started_at (estimate now m).2 = started_at m /\
  updates (estimate now m).2 = updates m /\
  state (estimate now m).2 = state m /\
  progress (estimate now m).2 = progress m /\
  current_step (estimate now m).2 = current_step m /\
  total_steps (estimate now m).2 = total_steps m.
Proof.
  unfold estimate. destruct (started_at m) eqn:E; [|done].
  destruct (state_eqb _ _); [|done]. destruct (Qltb _ _); [|done].
  by destruct (_ || _).
Qed.

(** Read the stored meter off the case analysis of the call. *)
Ltac stored_meter H := rewrite H; cbn [fst snd]; rewrite get_meter_store.

(** Whatever way out a call takes, it stores a meter, which has the start
    instant, the state and the total that the state channel left. *)
Lemma update_progress_stored py now id cs p st msg data tr m :
  get_meter id tr = Some m ->
  let r := update_progress py now id cs p st msg data tr in
  exists m',
    get_meter id r.2 = Some m' /\
    started_at m' = started_at (apply_state now st m) /\
    state m' = state (apply_state now st m) /\
    total_steps m' = total_steps m.
Proof.
  intros Hget r. subst r.
  pose proof (update_progress_cases py now id cs p st msg data tr m Hget)
    as H. cbv zeta in H.
  destruct (apply_state_updates now st m) as [_ Ht1].
  destruct (apply_step_fields cs (apply_state now st m))
    as (Ha2 & _ & Hb2 & Hc2 & _).
  destruct (apply_step cs (apply_state now st m)) as [[?|e] m2];
    simpl in Ha2, Hb2, Hc2.
  2:{ stored_meter H. eexists. split; [done|].
      by rewrite Ha2, Hb2, Hc2. }
  destruct (apply_progress_fields p m2) as (Ha3 & _ & Hb3 & Hc3 & _).
  destruct (apply_progress p m2) as [[?|e] m3]; simpl in Ha3, Hb3, Hc3.
  2:{ stored_meter H. eexists. split; [done|].
      by rewrite Ha3, Hb3, Hc3, Ha2, Hb2, Hc2. }
  set (m4 := match msg with Some _ => _ | None => m3 end) in *.
  assert (H4 : started_at m4 = started_at m3 /\ state m4 = state m3 /\
               total_steps m4 = total_steps m3)
    by (subst m4; by destruct msg).
  destruct H4 as (Ha4 & Hb4 & Hc4).
  destruct (match msg with Some _ => _ | None => Ok tt end) as [?|e].
  2:{ stored_meter H. eexists. split; [done|].
      by rewrite Ha4, Hb4, Hc4, Ha3, Hb3, Hc3, Ha2, Hb2, Hc2. }
  destruct (estimate_fields now m4) as (Ha5 & _ & Hb5 & _ & _ & Hc5).
  destruct (estimate now m4) as [[?|e] m5]; simpl in Ha5, Hb5, Hc5;
    stored_meter H; eexists; (split; [done|]);
    by rewrite Ha5, Hb5, Hc5, Ha4, Hb4, Hc4, Ha3, Hb3, Hc3, Ha2, Hb2, Hc2.
Qed.




(** X11.  [started_at] is stamped once: an update that sets the state to
    [IN_PROGRESS] on a meter never started stores the instant of the
    call; in every other case the stored value is the one from before,
    so no later update, of any kind, moves or clears the stamp. *)
Theorem started_at_stamped_once
    (py : PyLib) (now : Z) (id : string) (cs : option Z) (p : option Q)
    (st : option ProgressState) (message : option string)
    (data : option pydict) (tr : ProgressTracker) (m : ProgressMeter)
    (Hknown : get_meter id tr = Some m) :
  let r := update_progress py now id cs p st message data tr in
  exists m',
    get_meter id r.2 = Some m' /\
    started_at m'
    = match started_at m with
      | Some t => Some t
      | None => if bool_decide (st = Some IN_PROGRESS) then Some now else None
      end.
Proof.
  intros r. subst r.
  destruct (update_progress_stored py now id cs p st message data tr m Hknown)
    as (m' & Hget & Hs & _).
  exists m'. split; [done|]. by rewrite Hs, apply_state_started.
Qed.

Lemma started_at_stamped_once_witness :
  let created := create_meter demo_py 0 "job" 7 None init_tracker in
  let tr1 := (update_progress demo_py 5 "meter:job:0" None None
                (Some IN_PROGRESS) None None created.2).2 in
  let r := update_progress demo_py 9 "meter:job:0" (Some 3%Z) None
             (Some IN_PROGRESS) None None tr1 in
  exists m', get_meter "meter:job:0" r.2 = Some m' /\ started_at m' = Some 5%Z.
Proof.
  intros created tr1 r.
  destruct (started_at_stamped_once demo_py 9 "meter:job:0" (Some 3%Z) None
              (Some IN_PROGRESS) None None tr1 _ eq_refl) as (m' & Hget & Hs).
  exists m'. split; [exact Hget|exact Hs].
Defined.








(** X14.  When a progress value is supplied, a step supplied in the same
    call is of no consequence: when neither the step division nor the
    conversion of the total fails, the call returns and stores exactly
    what it would without the step. *)
Theorem progress_overrides_step
    (py : PyLib) (now : Z) (id : string) (c : Z) (p : Q)
    (st : option ProgressState) (message : option string)
    (data : option pydict) (tr : ProgressTracker) (m : ProgressMeter)
    (Hknown : get_meter id tr = Some m)
    (Hdiv : step_divides (Some c) m)
    (Hconv : total_converts (Some p) m) :
  update_progress py now id (Some c) (Some p) st message data tr
  = update_progress py now id None (Some p) st message data tr.
Proof.
  unfold update_progress, get_meter in *. rewrite Hknown.
  destruct (apply_state_updates now st m) as [_ Ht1].
  destruct Hdiv as [Hne Hfit]. unfold total_converts in Hconv.
  rewrite <- Ht1 in Hne, Hfit, Hconv. clear Ht1 Hknown.
  set (m1 := apply_state now st m) in *. clearbody m1.
  destruct m1 as [mid name total step prog sta started est log meta].
  unfold apply_step, apply_progress.
  cbn [set_current_step set_meter_progress total_steps meter_id meter_name
       current_step progress state started_at estimated_completion updates
       metadata] in *.
  destruct (Z.eqb_spec total 0) as [E|_]; [done|].
  rewrite Hfit. cbv iota.
  cbn [set_current_step set_meter_progress total_steps meter_id meter_name
       current_step progress state started_at estimated_completion updates
       metadata].
  rewrite Hconv. reflexivity.
Qed.

Lemma progress_overrides_step_witness :
  let tr0 := (create_meter demo_py 0 "job" 4 None init_tracker).2 in
  update_progress demo_py 3 "meter:job:0" (Some 3%Z) (Some (50 # 1)) None None
                  None tr0
  = update_progress demo_py 3 "meter:job:0" None (Some (50 # 1)) None None
                    None tr0.
Proof.
  intros tr0.
  apply (progress_overrides_step demo_py 3 "meter:job:0" 3 (50 # 1) None None
           None tr0 _ eq_refl).
  - split; [discriminate|reflexivity].
  - reflexivity.
Defined.

(** X15.  [create_meter] accepts a total of 0, and on such a meter every
    update that supplies a step raises [ZeroDivisionError] half way: the
    state change and the step are already stored, while the progress
    argument, the message and the estimate are not applied. *)
Theorem zero_total_step_raises
    (py : PyLib) (now : Z) (id : string) (c : Z) (p : option Q)
    (st : option ProgressState) (message : option string)
    (data : option pydict) (tr : ProgressTracker) (m : ProgressMeter)
    (Hknown : get_meter id tr = Some m)
    (Hzero : total_steps m = 0%Z) :
  let r := update_progress py now id (Some c) p st message data tr in
  r.1 = Raise (ZeroDivisionError "division by zero") /\
  exists m',
    get_meter id r.2 = Some m' /\
    current_step m' = c /\
    state m' = default (state m) st /\
    updates m' = updates m /\
    estimated_completion m' = estimated_completion m /\
    (st <> Some COMPLETED -> progress m' = progress m).
Proof.
  intros r. subst r.
  pose proof (update_progress_cases py now id (Some c) p st message data tr m
                Hknown) as H. cbv zeta in H.
  destruct (apply_state_updates now st m) as [Hu1 Ht1].
  unfold apply_step in H. cbn [set_current_step total_steps] in H.
  rewrite Ht1, Hzero in H. cbn [Z.eqb] in H. rewrite H. cbn [fst snd].
  split; [done|]. rewrite get_meter_store. eexists. split; [reflexivity|].
  cbn [current_step state updates estimated_completion progress].
  split; [done|]. unfold apply_state.
  destruct st as [s|]; [|done].
  destruct (started_at m) eqn:E; destruct s; simpl; rewrite ?E; simpl;
    repeat split; done.
Qed.

Lemma zero_total_step_raises_witness :
  let created := create_meter demo_py 0 "job" 0 None init_tracker in
  let r := update_progress demo_py 3 "meter:job:0" (Some 2%Z) (Some (50 # 1))
             (Some IN_PROGRESS) (Some "go") None created.2 in
  total_steps created.1 = 0%Z /\
  r.1 = Raise (ZeroDivisionError "division by zero") /\
  exists m',
    get_meter "meter:job:0" r.2 = Some m' /\
    current_step m' = 2%Z /\ state m' = IN_PROGRESS /\ updates m' = [].
Proof.
  intros created r. split; [reflexivity|].
  destruct (zero_total_step_raises demo_py 3 "meter:job:0" 2 (Some (50 # 1))
              (Some IN_PROGRESS) (Some "go") None created.2 _ eq_refl eq_refl)
    as (Hr & m' & Hget & Hc & Hs & Hu & _).
  split; [exact Hr|]. exists m'.
  split; [exact Hget|]. split; [exact Hc|]. split; [exact Hs|exact Hu].
Defined.


(** A call that supplies a progress and no step stores the clamped
    progress, whatever way out it takes. *)
Lemma update_progress_stored_progress py now id q st msg data tr m :
  get_meter id tr = Some m ->
  let r := update_progress py now id None (Some q) st msg data tr in
  exists m',
    get_meter id r.2 = Some m' /\
    progress m' = clamp q /\
    started_at m' = started_at (apply_state now st m) /\
    state m' = state (apply_state now st m).
Proof.
  intros Hget r.
  destruct (update_progress_stored py now id None (Some q) st msg data tr m
              Hget) as (m' & Hm' & Hs & Hst & _).
  fold r in Hm'. exists m'. split; [done|]. split; [|done].
  subst r.
  pose proof (update_progress_cases py now id None (Some q) st msg data tr m
                Hget) as H. cbv zeta in H. cbn [apply_step] in H.
  pose proof (apply_progress_clamps q (apply_state now st m)) as Hp3.
  destruct (apply_progress (Some q) (apply_state now st m)) as [[?|e] m3];
    cbn [snd] in Hp3.
  2:{ rewrite H in Hm'. cbn [snd] in Hm'. rewrite get_meter_store in Hm'.
      by injection Hm' as <-. }
  set (m4 := match msg with Some _ => _ | None => m3 end) in *.
  assert (Hp4 : progress m4 = clamp q) by (subst m4; by destruct msg).
  destruct (match msg with Some _ => _ | None => Ok tt end) as [?|e].
  2:{ rewrite H in Hm'. cbn [snd] in Hm'. rewrite get_meter_store in Hm'.
      by injection Hm' as <-. }
  destruct (estimate_fields now m4) as (_ & _ & _ & Hp5 & _).
  destruct (estimate now m4) as [[?|e] m5]; cbn [snd] in Hp5;
    rewrite H in Hm'; cbn [snd] in Hm'; rewrite get_meter_store in Hm';
    injection Hm' as <-; congruence.
Qed.

(** *** The estimate *)

Lemma py_round_nonneg (x : Q) : (0 <= x)%Q -> (0 <= py_round x)%Z.
Proof.
  unfold Qle, py_round. destruct x as [a d]. simpl. intros H0.
  assert (Hfl : (0 <= a / Z.pos d)%Z) by (apply Z.div_pos; lia).
  destruct (Z.ltb _ _); [done|]. destruct (Z.ltb _ _); [lia|].
  destruct (Z.even _); lia.
Qed.

Lemma py_round_zero (x : Q) : Qnum x = 0%Z -> py_round x = 0%Z.
Proof.
  unfold py_round. intros ->. by rewrite Z.div_0_l.
Qed.

Lemma clamp_positive (p : Q) : (0 < p)%Q -> Qltb 0 (clamp p) = true.
Proof.
  intros Hp. unfold clamp, py_max, py_min, Qltb.
  destruct (Qle_bool 100 p) eqn:E1; simpl; [done|].
  destruct (Qle_bool p 0) eqn:E2; simpl.
  - apply Qle_bool_iff in E2. exfalso. by apply (Qlt_not_le 0 p).
  - by rewrite E2.
Qed.

Lemma clamp_full (p : Q) : (100 <= p)%Q -> clamp p = 100%Q.
Proof.
  intros Hp. unfold clamp, py_max, py_min, Qltb.
  apply Qle_bool_iff in Hp. by rewrite Hp.
Qed.

(** The estimate of a running meter with a positive progress: an instant
    from [now] on that a [datetime] can hold, or [OverflowError] and no
    assignment. *)
Lemma estimate_running (now s : Z) (p : Q) (m : ProgressMeter) :
  started_at m = Some s -> (s <= now)%Z -> state m = IN_PROGRESS ->
  progress m = clamp p -> (0 < p)%Q ->
  (exists e,
     estimate now m = (Ok tt, set_estimated_completion (Some e) m) /\
     (now <= e <= datetime_max)%Z /\ ((100 <= p)%Q -> e = now))
  \/ (exists msg, estimate now m = (Raise (OverflowError msg), m)).
Proof.
  intros Hs Hle Hst Hp Hpos. unfold estimate. rewrite Hs, Hst, Hp.
  change (state_eqb IN_PROGRESS IN_PROGRESS) with true. cbv iota.
  rewrite (clamp_positive p Hpos). cbv zeta.
  set (span := py_round _).
  assert (Hspan : (0 <= span)%Z).
  { subst span. apply py_round_nonneg.
    assert (Hc : (0 < clamp p)%Q).
    { pose proof (clamp_positive p Hpos) as Hc. unfold Qltb in Hc.
      apply negb_true_iff in Hc. apply Qnot_le_lt. intros Hle'.
      apply Qle_bool_iff in Hle'. congruence. }
    assert (Hc100 : (clamp p <= 100)%Q)
      by apply ProgressTrackerProps.py_clamp_range.
    assert (Hel : (0 <= inject_Z (now - s) / 1000000)%Q).
    { apply Qle_shift_div_l; [done|]. rewrite Qmult_0_l.
      unfold Qle. simpl. lia. }
    apply Qmult_le_0_compat; [|done].
    apply Qmult_le_0_compat.
    - apply Qle_shift_div_l; [done|]. by rewrite Qmult_0_l.
    - unfold Qminus. rewrite <- (Qplus_opp_r (clamp p)).
      by apply Qplus_le_compat; [|apply Qle_refl]. }
  destruct (_ || _) eqn:E; [right; by eexists|left].
  apply orb_false_iff in E as [E E3]. apply orb_false_iff in E as [E1 E2].
  apply Z.ltb_ge in E2, E3.
  eexists. split; [reflexivity|]. split; [lia|].
  intros Hfull. subst span. rewrite (clamp_full p Hfull).
  rewrite py_round_zero; [lia|]. simpl. lia.
Qed.

Lemma apply_state_estimate (now : Z) (st : option ProgressState)
    (m : ProgressMeter) :
  estimated_completion (apply_state now st m) = estimated_completion m.
Proof.
  unfold apply_state. destruct st as [s|]; [|done].
  destruct (_ && _); [done|]. by destruct (state_eqb _ _).
Qed.

(** X16.  Reporting a positive progress on a running meter, as the
    [progress_update] tool does, never yields an estimate in the past.
    When the meter was not started after the instant of the call and the
    callbacks are contained, the call either returns the meter with
    [estimated_completion] set to an instant not before the call, and to
    the instant of the call itself once the progress reaches 100; or it
    raises [OverflowError], the total or the estimate being out of range,
    and the stored meter keeps the estimate it had. *)
Theorem estimate_never_in_the_past
    (py : PyLib) (now : Z) (id : string) (p : Q) (message : option string)
    (data : option pydict) (tr : ProgressTracker) (m : ProgressMeter)
    (Hknown : get_meter id tr = Some m)
    (Hstart : forall s, started_at m = Some s -> (s <= now)%Z)
    (Hpos : (0 < p)%Q)
    (Hcb : callbacks_contained tr) :
  let r := update_progress py now id None (Some p) (Some IN_PROGRESS) message
                           data tr in
  (exists m' e,
     r.1 = Ok (Some m') /\
     state m' = IN_PROGRESS /\
     estimated_completion m' = Some e /\
     (now <= e <= datetime_max)%Z /\
     ((100 <= p)%Q -> e = now))
  \/
  (exists msg m',
     r.1 = Raise (OverflowError msg) /\
     get_meter id r.2 = Some m' /\
     state m' = IN_PROGRESS /\
     progress m' = clamp p /\
     estimated_completion m' = estimated_completion m).
Proof.
  intros r. subst r.
  pose proof (update_progress_cases py now id None (Some p) (Some IN_PROGRESS)
                message data tr m Hknown) as H. cbv zeta in H.
  cbn [apply_step] in H.
  set (m1 := apply_state now (Some IN_PROGRESS) m) in *.
  assert (Hs1 : exists s, started_at m1 = Some s /\ (s <= now)%Z).
  { subst m1. rewrite apply_state_started.
    destruct (started_at m) as [s|] eqn:E;
      [exists s; split; [done|by apply Hstart]|].
    exists now. split; [done|lia]. }
  destruct Hs1 as (s & Hs1 & Hle).
  assert (Hst1 : state m1 = IN_PROGRESS).
  { subst m1. unfold apply_state. cbn.
    by destruct (bool_decide (started_at m = None)). }
  assert (He1 : estimated_completion m1 = estimated_completion m)
    by apply apply_state_estimate.
  destruct (apply_progress_fields (Some p) m1) as (Ha3 & _ & Hb3 & _ & Hc3).
  pose proof (apply_progress_clamps p m1) as Hp3.
  destruct (apply_progress (Some p) m1) as [[?|e] m3] eqn:E3;
    cbn [snd] in Ha3, Hb3, Hc3, Hp3.
  2:{ right.
      assert (He : exists msg, e = OverflowError msg).
      { unfold apply_progress in E3.
        destruct (float_overflows _); [|done]. injection E3 as <- _.
        by eexists. }
      destruct He as [msg ->]. stored_meter H. eexists _, _.
      split; [done|]. split; [done|]. by rewrite Hb3, Hp3, Hc3, Hst1, He1. }
  set (m4 := match message with Some _ => _ | None => m3 end) in *.
  assert (H4 : started_at m4 = Some s /\ state m4 = IN_PROGRESS /\
               progress m4 = clamp p /\
               estimated_completion m4 = estimated_completion m).
  { subst m4. destruct message; simpl; by rewrite Ha3, Hb3, Hp3, Hc3. }
  destruct H4 as (Ha4 & Hb4 & Hp4 & Hc4).
  match type of H with
  | match ?notified with Ok _ => _ | Raise _ => _ end =>
      assert (Hn : notified = Ok tt)
  end.
  { destruct message; [|done].
    apply notify_contained. intros c e Hin. by apply (Hcb c _ e). }
  rewrite Hn in H.
  destruct (estimate_running now s p m4 Ha4 Hle Hb4 Hp4 Hpos)
    as [(e & He & Hrange & Hfull)|(msg & He)]; rewrite He in H.
  - left. rewrite H. by eexists _, e.
  - right. stored_meter H. by eexists _, _.
Qed.

Lemma estimate_never_in_the_past_witness :
  let tr0 := (create_meter demo_py 0 "job" 4 None init_tracker).2 in
  let tr1 := (update_progress demo_py 1000000 "meter:job:0" None None
                (Some IN_PROGRESS) None None tr0).2 in
  let r := update_progress demo_py 3000000 "meter:job:0" None (Some (50 # 1))
             (Some IN_PROGRESS) None None tr1 in
  exists m' e,
    r.1 = Ok (Some m') /\
    estimated_completion m' = Some e /\ (3000000 <= e)%Z.
Proof.
  intros tr0 tr1 r.
  destruct (estimate_never_in_the_past demo_py 3000000 "meter:job:0" (50 # 1)
              None None tr1 _ eq_refl)
    as [(m' & e & Hr & _ & He & Hge & _)|(msg & m' & Hr & _)].
  - intros s [= <-]. lia.
  - reflexivity.
  - by intros c u e [].
  - exists m', e. split; [exact Hr|]. split; [exact He|lia].
  - discriminate Hr.
Defined.

End ProgressTrackerExtras.

(** ** The task and progress tools *)

Module ServerToolsProps.
Import TaskManagerPy TaskStatisticsPy ServerToolsPy.
Import TaskManagerExtraSpec ProgressTrackerExtraSpec OrderedDictFacts.

(** Case analysis on the first string comparison of the goal. *)
Ltac case_eqb :=
  match goal with
  | |- context [String.eqb ?a ?b] =>
      destruct (String.eqb_spec a b) as [->|?]
  end.

Lemma TaskPriority_of_value (value : string) (p : TaskPriority) :
  TaskPriority_of value = Ok p -> priority_value p = value.
Proof.
  unfold TaskPriority_of.
  repeat (case_eqb; [by intros [= <-]|]). by intros.
Qed.

Lemma TaskStatus_of_value (value : string) (s : TaskStatus) :
  TaskStatus_of value = Ok s -> status_value s = value.
Proof.
  unfold TaskStatus_of.
  repeat (case_eqb; [by intros [= <-]|]). by intros.
Qed.

Lemma TaskStatus_of_status_value (s : TaskStatus) :
  TaskStatus_of (status_value s) = Ok s.
Proof. by destruct s. Qed.

(** X17.  A task created through the [task_create] tool with one of the
    four priority names, and a name that can be encoded, is found by
    [task_get] under the id the tool returned, with the name, description
    and priority it was given, status ["pending"] and progress 0. *)
Theorem task_create_then_get
    (py : PyLib) (now : Z) (name description priority : string)
    (assigned_to : option string) (tags dependencies : option (list string))
    (st : State) (p : TaskPriority)
    (Hpriority : TaskPriority_of priority = Ok p)
    (Hname : name_encodes py now name = true) :
  let r := task_create py now name description priority assigned_to tags
                       dependencies st in
  exists id,
    r.1 = Ok [ ("success", VBool true); ("task_id", VStr id);
               ("name", VStr name); ("priority", VStr priority) ] /\
    task_get id r.2
    = [ ("success", VBool true);
        ("task",
         VDict [ ("id", VStr id); ("name", VStr name);
                 ("description", VStr description);
                 ("status", VStr "pending");
                 ("priority", VStr priority);
                 ("progress", VFloat 0) ]) ].
Proof.
  intros r. subst r. unfold task_create. rewrite Hpriority.
  unfold create_task, _generate_task_id. unfold name_encodes in Hname.
  destruct (utf8_error py (name +:+ "_" +:+ isoformat py now)); [done|].
  cbn [fst snd]. eexists. split; [reflexivity|].
  unfold task_get, get_task. cbn [manager tasks]. rewrite get_set_eq.
  cbn. by rewrite (TaskPriority_of_value priority p Hpriority).
Qed.

Lemma task_create_then_get_witness :
  let r := task_create demo_py 0 "a" "first" "urgent" None None None
                       init_manager in
  exists id,
    r.1 = Ok [ ("success", VBool true); ("task_id", VStr id);
               ("name", VStr "a"); ("priority", VStr "urgent") ] /\
    OrderedDict.get "success" (task_get id r.2) = Some (VBool true).
Proof.
  intros r.
  destruct (task_create_then_get demo_py 0 "a" "first" "urgent" None None None
              init_manager URGENT eq_refl eq_refl) as (id & Hr & Hget).
  exists id. split; [exact Hr|]. fold r in Hget. by rewrite Hget.
Defined.

(** X18.  The [task_update_status] tool raises exactly when its status
    argument is not the value of a member of [TaskStatus]; it then raises
    [ValueError] before touching the manager, so nothing changes. *)
Theorem task_update_status_rejects_unknown_status
    (now : Z) (id status : string) (progress : option Q) (st : State) :
  let r := task_update_status now id status progress st in
  ((exists e, r.1 = Raise e) <-> (forall s, status_value s <> status)) /\
  ((forall s, status_value s <> status) ->
   r = (Raise (ValueError ("'" +:+ status +:+ "' is not a valid TaskStatus")),
        st)).
Proof.
  intros r. subst r. unfold task_update_status.
  destruct (TaskStatus_of status) as [s|e] eqn:E.
  - pose proof (TaskStatus_of_value status s E) as Hv.
    assert (Hno : ~ (forall s', status_value s' <> status))
      by (intros H; by apply (H s)).
    split; [|by intros H].
    split; [|by intros H].
    intros [e He]. exfalso.
    by destruct (update_task_status now id s progress None None st)
      as [[t|] st'].
  - assert (Hall : forall s, status_value s <> status).
    { intros s <-. rewrite TaskStatus_of_status_value in E. discriminate. }
    split; [split; [done|by eexists]|]. intros _.
    unfold TaskStatus_of in E.
    repeat (destruct (String.eqb status _); [discriminate E|]).
    by injection E as <-.
Qed.

Lemma progress_update_tracker py now id p message tr :
  (progress_update py now id p message tr).2
  = (ProgressTrackerPy.update_progress py now id None (Some p)
       (Some ProgressTrackerPy.IN_PROGRESS) message None tr).2.
Proof.
  unfold progress_update.
  by destruct (ProgressTrackerPy.update_progress _ _ _ _ _ _ _ _ _)
    as [[[m|]|e] tr'].
Qed.

Lemma progress_apply_no_meter py now c tr :
  ProgressTrackerPy.meters tr = [] ->
  progress_apply py now c tr = (Ok (not_found "Progress meter"), tr).
Proof.
  intros Hempty. destruct c as [id|id p message]; simpl.
  - unfold progress_get, ProgressTrackerPy.get_meter_summary.
    by rewrite Hempty.
  - unfold progress_update, ProgressTrackerPy.update_progress.
    by rewrite Hempty.
Qed.

Lemma progress_run_no_meter py calls tr :
  ProgressTrackerPy.meters tr = [] ->
  ProgressTrackerPy.meters (progress_run py calls tr) = [].
Proof.
  revert tr. induction calls as [|[t call] calls IH]; intros tr H0; [done|].
  simpl. apply IH. by rewrite progress_apply_no_meter.
Qed.

(** X19.  No tool creates a progress meter.  Whatever sequence of
    [progress_get] and [progress_update] calls a client makes on the
    tracker the server starts with, the tracker never holds a meter, and
    every such call answers [success: False] with the error
    ["Progress meter not found"]. *)
Theorem progress_tools_never_find_a_meter
    (py : PyLib) (calls : list (Z * progress_call)) (now : Z)
    (c : progress_call) :
  let tr := progress_run py calls ProgressTrackerPy.init_tracker in
  ProgressTrackerPy.meters tr = [] /\
  progress_apply py now c tr
  = (Ok [("success", VBool false);
         ("error", VStr "Progress meter not found")], tr).
Proof.
  intros tr.
  assert (Hempty : ProgressTrackerPy.meters tr = [])
    by (by apply progress_run_no_meter).
  split; [done|]. by rewrite progress_apply_no_meter.
Qed.

(** X20.  The [progress_update] tool always passes the state
    [IN_PROGRESS], so it reopens a meter that was completed: on a known
    meter, whatever its state, it stores the state [IN_PROGRESS], the
    clamped progress and a start instant. *)
Theorem progress_update_reopens
    (py : PyLib) (now : Z) (id : string) (p : Q) (message : option string)
    (tr : ProgressTrackerPy.ProgressTracker)
    (m : ProgressTrackerPy.ProgressMeter)
    (Hknown : ProgressTrackerPy.get_meter id tr = Some m) :
  let r := progress_update py now id p message tr in
  exists m',
    ProgressTrackerPy.get_meter id r.2 = Some m' /\
    ProgressTrackerPy.state m' = ProgressTrackerPy.IN_PROGRESS /\
    ProgressTrackerPy.progress m' = clamp p /\
    is_Some (ProgressTrackerPy.started_at m').
Proof.
  intros r. subst r. rewrite progress_update_tracker.
  destruct (ProgressTrackerExtras.update_progress_stored_progress py now id p
              (Some ProgressTrackerPy.IN_PROGRESS) message None tr m Hknown)
    as (m' & Hget & Hp & Hs & Hst).
  exists m'. split; [done|]. split; [|split; [done|]].
  - rewrite Hst. unfold ProgressTrackerPy.apply_state. cbn.
    by destruct (bool_decide (ProgressTrackerPy.started_at m = None)).
  - rewrite Hs, ProgressTrackerExtras.apply_state_started.
    by destruct (ProgressTrackerPy.started_at m).
Qed.

Lemma progress_update_reopens_witness :
  let tr0 := (ProgressTrackerPy.create_meter demo_py 0 "job" 4 None
                ProgressTrackerPy.init_tracker).2 in
  let tr1 := (ProgressTrackerPy.update_progress demo_py 1 "meter:job:0" None
                None (Some ProgressTrackerPy.COMPLETED) None None tr0).2 in
  let r := progress_update demo_py 2 "meter:job:0" (10 # 1) None tr1 in
  (exists m1, ProgressTrackerPy.get_meter "meter:job:0" tr1 = Some m1 /\
              ProgressTrackerPy.state m1 = ProgressTrackerPy.COMPLETED) /\
  exists m',
    ProgressTrackerPy.get_meter "meter:job:0" r.2 = Some m' /\
    ProgressTrackerPy.state m' = ProgressTrackerPy.IN_PROGRESS.
Proof.
  intros tr0 tr1 r. split; [by eexists|].
  destruct (progress_update_reopens demo_py 2 "meter:job:0" (10 # 1) None tr1
              _ eq_refl) as (m' & Hget & Hs & _).
  exists m'. split; [exact Hget|exact Hs].
Defined.

End ServerToolsProps.

(** ** Workflow engine: the steps and their run *)

Module WorkflowEngineExtras.
Import TaskManagerPy WorkflowEnginePy TaskManagerExtraSpec.
Import WorkflowEngineExtraSpec OrderedDictFacts OrderedDictUnique.

Lemma same_tables_refl w : same_tables w w.
Proof. done. Qed.

Lemma same_tables_trans w1 w2 w3 :
  same_tables w1 w2 -> same_tables w2 w3 -> same_tables w1 w3.
Proof. intros [H1 H2] [H3 H4]. split; congruence. Qed.

Lemma sleep_frame w : same_tables w (sleep w).2.
Proof. unfold sleep. by destruct (script w) as [|[] ?]. Qed.


(** The parallel branch of [step_body] is [run_parallel] followed by the
    gathering of the outcomes. *)
Lemma step_body_parallel py now reg d f tn ta s c ctx steps id name w :
  step_body py now reg (mkStepConfig d f tn ta s c ctx steps) id name PARALLEL w
  = let (rs, w1) := run_parallel py now reg id (default [] steps) w in
    match gathered rs with
    | Ok results =>
        (Ok (ResVal (VDict [("parallel_results", VList results)])), w1)
    | Raise e => (Raise e, w1)
    end.
Proof.
  cbn [step_body]. destruct steps as [l|]; [|done]. cbn [default from_option].
  match goal with |- context [?f l w] => set (F := f) end.
  assert (H : forall l w, F l w = run_parallel py now reg id l w).
  { clear. induction l as [|[[sid|] sname stype sconfig] l IHl]; intros w; [done| |].
    - simpl. destruct (step_body _ _ _ _ _ _ _ _) as [[?|e] w1];
        by rewrite IHl.
    - simpl. by rewrite IHl. }
  by rewrite H.
Qed.


(** [create_task] on a name that can be encoded. *)
Lemma create_task_encodes py now name description priority assigned_to tags
    metadata dependencies workflow_id st :
  name_encodes py now name = true ->
  exists id,
    _generate_task_id py now name = Ok id /\
    create_task py now name description priority assigned_to tags metadata
                dependencies workflow_id st
    = (Ok {| task_id := id;
             task_name := name;
             task_description := description;
             task_status := PENDING;
             task_priority := priority;
             task_created_at := now;
             task_updated_at := now;
             task_completed_at := None;
             task_assigned_to := assigned_to;
             task_tags := or_default tags [];
             task_progress := 0;
             task_result := None;
             task_error := None;
             task_metadata := or_default metadata [];
             task_dependencies := or_default dependencies [];
             task_workflow_id := workflow_id |},
       mkState
         (mkTaskManager
            (OrderedDict.set id
               {| task_id := id;
                  task_name := name;
                  task_description := description;
                  task_status := PENDING;
                  task_priority := priority;
                  task_created_at := now;
                  task_updated_at := now;
                  task_completed_at := None;
                  task_assigned_to := assigned_to;
                  task_tags := or_default tags [];
                  task_progress := 0;
                  task_result := None;
                  task_error := None;
                  task_metadata := or_default metadata [];
                  task_dependencies := or_default dependencies [];
                  task_workflow_id := workflow_id |}
               (tasks (manager st)))
            (_running_tasks (manager st)))
         (loop st)).
Proof.
  unfold name_encodes, create_task, _generate_task_id.
  destruct (utf8_error py (name +:+ "_" +:+ isoformat py now)); [done|].
  intros _. by eexists.
Qed.


(** No step touches the engine's tables. *)
Lemma step_body_frame py now reg :
  forall cfg id name ty w,
    same_tables w (step_body py now reg cfg id name ty w).2.
Proof.
  fix IH 1.
  intros [desc func tname targs secs cond ctx steps] id name ty w.
  destruct ty.
  - cbn [step_body].
    destruct (create_task _ _ _ _ _ _ _ _ _ _ _) as [[task|e] s1]; [|done].
    destruct func as [f|]; [|done].
    by destruct (execute_task _ _ _ _) as [result s2].
  - cbn [step_body]. destruct cond as [f|]; [|done]. by destruct (f _).
  - rewrite step_body_parallel. destruct steps as [l|]; [|done].
    change (default [] (Some l)) with l.
    assert (H : forall w, same_tables w (run_parallel py now reg id l w).2).
    { clear -IH. induction l as [|[[sid|] sname stype sconfig] l IHl]; intros w;
        [done| |].
      - cbn [run_parallel sub_id sub_config sub_name sub_type].
        pose proof (IH sconfig (id +:+ "_" +:+ sid) sname stype w) as H1.
        destruct (step_body _ _ _ _ _ _ _ _) as [[?|e] w1]; simpl in H1;
          pose proof (IHl w1) as H2;
          destruct (run_parallel _ _ _ _ _ _) as [rs w2];
          by apply (same_tables_trans _ w1).
      - cbn [run_parallel sub_id]. pose proof (IHl w) as H2.
        by destruct (run_parallel _ _ _ _ _ _) as [rs w2]. }
    specialize (H w).
    destruct (run_parallel _ _ _ _ _ _) as [rs w1]. by destruct (gathered rs).
  - cbn [step_body]. pose proof (sleep_frame w).
    by destruct (sleep w) as [[?|e] w1].
  - cbn [step_body]. destruct tname as [n|]; [|done].
    destruct (OrderedDict.get n reg) as [f|]; [|done]. by destruct (f _).
Qed.

Lemma _execute_step_frame py now reg step w :
  same_tables w (_execute_step py now reg step w).2.
Proof.
  unfold _execute_step.
  pose proof (step_body_frame py now reg (step_config (set_step_status IN_PROGRESS step))
    (step_id (set_step_status IN_PROGRESS step))
    (step_name (set_step_status IN_PROGRESS step))
    (step_type (set_step_status IN_PROGRESS step)) w) as H.
  destruct (step_body _ _ _ _ _ _ _ _) as [[r|e] w1]; [done|].
  by destruct (is_Exception e).
Qed.

Lemma check_dependencies_frame workflow deps w :
  same_tables w (check_dependencies workflow deps w).2.
Proof.
  revert w. induction deps as [|d deps IH]; intros w; [done|].
  cbn [check_dependencies].
  destruct (match _get_step_by_id workflow d with
            | Some dep_step => negb (status_eqb (step_status dep_step) COMPLETED)
            | None => true end); [|apply IH].
  pose proof (sleep_frame w) as H.
  destruct (sleep w) as [[?|e] w1]; [|done].
  apply (same_tables_trans _ w1); [done|apply IH].
Qed.

Lemma only_steps_and_progress_refl wf : only_steps_and_progress wf wf.
Proof. by destruct wf. Qed.

Lemma only_steps_and_progress_trans wf1 wf2 wf3 :
  only_steps_and_progress wf1 wf2 -> only_steps_and_progress wf2 wf3 ->
  only_steps_and_progress wf1 wf3.
Proof.
  unfold only_steps_and_progress. intros H1 H2. rewrite H2 at 1.
  rewrite H1 at 1. by destruct wf1.
Qed.

(** The loop over the steps changes the steps and the progress of the
    workflow and nothing else, and leaves the engine's tables alone. *)
Lemma run_steps_frame py now reg todo n workflow w :
  let r := run_steps py now reg todo n workflow w in
  only_steps_and_progress workflow r.1.2 /\ same_tables w r.2 /\
  length (wf_steps r.1.2) = length (wf_steps workflow).
Proof.
  revert n workflow w. induction todo as [|step todo IH]; intros n wf w.
  { split; [apply only_steps_and_progress_refl|done]. }
  cbn [run_steps].
  pose proof (check_dependencies_frame wf (depends_on step) w) as H1.
  destruct (check_dependencies wf (depends_on step) w) as [[?|e] w1]; simpl in H1.
  2:{ split; [apply only_steps_and_progress_refl|done]. }
  pose proof (_execute_step_frame py now reg step w1) as H2.
  destruct (_execute_step py now reg step w1) as [[[?|e] step'] w2];
    simpl in H2.
  2:{ simpl. split; [by destruct wf|].
      split; [by apply (same_tables_trans _ w1)|]. by rewrite length_insert. }
  match goal with |- context [run_steps _ _ _ todo ?k ?f w2] =>
    destruct (IH k f w2) as (I1 & I2 & I3) end.
  split; [|split].
  - eapply only_steps_and_progress_trans; [|exact I1]. by destruct wf.
  - apply (same_tables_trans _ w1); [done|].
    by apply (same_tables_trans _ w2).
  - rewrite I3. simpl. by rewrite length_insert.
Qed.

Lemma count_waiting_cons workflow d deps :
  count_waiting workflow (d :: deps)
  = if waiting workflow d then S (count_waiting workflow deps)
    else count_waiting workflow deps.
Proof. unfold count_waiting. simpl. by destruct (waiting workflow d). Qed.




(** [execute_workflow] on a workflow stored under its own id, in terms of
    what the loop over the steps gives. *)
Lemma execute_workflow_known py now reg id w wf r wf1 w2 :
  get_workflow id w = Some wf -> wf_id wf = id ->
  run_steps py now reg (wf_steps wf) 0
            (set_wf_started_at (Some now) (set_wf_status W_RUNNING wf))
            (launched id w) = (r, wf1, w2) ->
  let res := execute_workflow py now reg id w in
  let wf' :=
    match r with
    | Ok _ => set_wf_completed_at (Some now) (set_wf_status W_COMPLETED wf1)
    | Raise CancelledError => set_wf_status W_CANCELLED wf1
    | Raise _ => wf1
    end in
  res.1 = match r with
          | Ok _ | Raise CancelledError => Ok wf'
          | Raise e => Raise (if is_Exception e then AttributeError "FALED"
                              else e)
          end /\
  workflows (engine res.2) = OrderedDict.set id wf' (workflows (engine w)) /\
  _running_workflows (engine res.2) = delete id (_running_workflows (engine w)) /\
  task_manager (engine res.2) = task_manager (engine w2) /\
  script res.2 = script w2 /\
  wloop res.2 = finish_unit (length (wloop w)) (wloop w2).
Proof.
  intros Hknown Hid Hrun.
  pose proof (run_steps_frame py now reg (wf_steps wf) 0
    (set_wf_started_at (Some now) (set_wf_status W_RUNNING wf))
    (launched id w)) as (Ho & [Hw Hr] & _).
  rewrite Hrun in Ho, Hw, Hr. cbn [fst snd] in Ho, Hw, Hr.
  assert (Hid1 : wf_id wf1 = id).
  { rewrite Ho. by destruct wf. }
  unfold execute_workflow. unfold get_workflow in Hknown. rewrite Hknown.
  cbn [create_unit]. unfold _execute_workflow_task.
  cbn [wf_steps set_wf_started_at set_wf_status].
  change (run_steps py now reg (wf_steps wf) 0 _ _)
    with (run_steps py now reg (wf_steps wf) 0
            (set_wf_started_at (Some now) (set_wf_status W_RUNNING wf))
            (launched id w)).
  rewrite Hrun.
  assert (Hlook : forall x, _running_workflows (engine w2) !! wf_id x = Some (length (wloop w))
                  \/ wf_id x <> id).
  { intros x. destruct (decide (wf_id x = id)) as [->|]; [left|by right].
    rewrite Hr. unfold launched. simpl. by rewrite lookup_insert_eq. }
  assert (Hdel : delete id (_running_workflows (engine w2))
                 = delete id (_running_workflows (engine w))).
  { rewrite Hr. unfold launched. simpl. by rewrite delete_insert_eq. }
  destruct r as [[]|e].
  - cbn [wf_id set_wf_completed_at set_wf_status]. rewrite Hid1.
    destruct (Hlook wf1) as [Hl|]; [|done]. rewrite Hid1 in Hl. rewrite Hl.
    simpl. by rewrite Hw, Hdel.
  - destruct e; cbn [is_Exception wf_id set_wf_status]; rewrite Hid1;
      (destruct (Hlook wf1) as [Hl|]; [|done]); rewrite Hid1 in Hl;
      rewrite Hl; simpl; by rewrite Hw, Hdel.
Qed.









(** X23.  When the unit is cancelled while the first step, a delay
    without dependencies, sleeps, [execute_workflow] returns the workflow
    normally, in status [W_CANCELLED]: [completed_at] and the progress are
    as before, the interrupted step stays [IN_PROGRESS] (the handler of
    [_execute_step] does not see a cancellation), no later step runs, and
    the handle is removed. *)
Theorem cancelled_delay_ends_the_run_quietly
    (py : PyLib) (now : Z) (reg : ToolRegistry) (id : string) (w : World)
    (wf : Workflow) (first : WorkflowStep) (post : list WorkflowStep)
    (rest : list bool)
    (Hknown : get_workflow id w = Some wf)
    (Hid : wf_id wf = id)
    (Hsteps : wf_steps wf = first :: post)
    (Hdelay : step_type first = DELAY)
    (Hdeps : depends_on first = [])
    (Hscript : script w = true :: rest) :
  let r := execute_workflow py now reg id w in
  exists wf',
    r.1 = Ok wf' /\
    get_workflow id r.2 = Some wf' /\
    wf_status wf' = W_CANCELLED /\
    wf_completed_at wf' = wf_completed_at wf /\
    wf_progress wf' = wf_progress wf /\
    wf_steps wf' = set_step_status IN_PROGRESS first :: post /\
    _running_workflows (engine r.2) !! id = None /\
    script r.2 = rest.
Proof.
  intros r.
  set (wf0 := set_wf_started_at (Some now) (set_wf_status W_RUNNING wf)).
  assert (Hrun : run_steps py now reg (wf_steps wf) 0 wf0 (launched id w)
                 = (Raise CancelledError,
                    set_wf_steps (set_step_status IN_PROGRESS first :: post) wf0,
                    mkWorld (engine (launched id w)) (wloop (launched id w))
                            rest)).
  { rewrite Hsteps. cbn [run_steps]. rewrite Hdeps. cbn [check_dependencies].
    unfold _execute_step.
    cbn [step_config step_id step_name step_type set_step_status].
    rewrite Hdelay. destruct (step_config first). cbn [step_body].
    unfold sleep. change (script (launched id w)) with (script w).
    rewrite Hscript. cbn [is_Exception].
    change (wf_steps wf0) with (wf_steps wf). by rewrite Hsteps. }
  destruct (execute_workflow_known py now reg id w wf _ _ _ Hknown Hid Hrun)
    as (H1 & H2 & H3 & _ & H5 & _).
  fold r in H1, H2, H3, H5. cbn zeta in H1, H2.
  eexists. split; [exact H1|].
  split; [unfold get_workflow; rewrite H2; apply get_set_eq|].
  do 4 (split; [done|]). split; [by rewrite H3, lookup_delete_eq|exact H5].
Qed.

Lemma cancelled_delay_ends_the_run_quietly_witness :
  let steps := [pending_step "a" DELAY empty_config [];
                pending_step "b" TOOL_CALL echo_config []] in
  let w0 := (create_workflow demo_py 0 "wf" "" steps None init_engine).2 in
  let w1 := mkWorld (engine w0) (wloop w0) [true] in
  let r := execute_workflow demo_py 1 echo_registry "wf_0" w1 in
  exists wf',
    r.1 = Ok wf' /\
    wf_status wf' = W_CANCELLED /\
    wf_completed_at wf' = None /\
    wf_steps wf' = [set_step_status IN_PROGRESS
                      (pending_step "a" DELAY empty_config []);
                    pending_step "b" TOOL_CALL echo_config []].
Proof.
  intros steps w0 w1 r.
  destruct (cancelled_delay_ends_the_run_quietly demo_py 1 echo_registry
              "wf_0" w1 _ _ _ [] eq_refl eq_refl eq_refl eq_refl eq_refl
              eq_refl)
    as (wf' & Hr & _ & Hs & Hc & _ & Hst & _).
  exists wf'. split; [exact Hr|]. split; [exact Hs|].
  split; [exact Hc|exact Hst].
Defined.

(** The calls that arrive before the unit's first step leave the two
    tables as they are, but for the status of the workflow. *)
Lemma foldl_early id h base calls :
  forall w status,
    _running_workflows (engine w) !! id = Some h ->
    get_workflow id w = Some (set_wf_status status base) ->
    let w' := foldl (early id h) w calls in
    _running_workflows (engine w') = _running_workflows (engine w) /\
    OrderedDict.keys (workflows (engine w'))
      = OrderedDict.keys (workflows (engine w)) /\
    get_workflow id w'
      = Some (set_wf_status (foldl after_call status calls) base).
Proof.
  induction calls as [|c calls IH]; intros w status Hrun Hget; [done|].
  cbn [foldl].
  assert (H : _running_workflows (engine (early id h w c))
              = _running_workflows (engine w) /\
              OrderedDict.keys (workflows (engine (early id h w c)))
              = OrderedDict.keys (workflows (engine w)) /\
              get_workflow id (early id h w c)
              = Some (set_wf_status (after_call status c) base)).
  { unfold get_workflow in *.
    destruct c; cbn [early after_call]; [| |done];
      unfold pause_workflow, cancel_workflow, stop_workflow;
      rewrite Hrun;
      cbn [with_workflows with_loop engine workflows _running_workflows];
      rewrite Hget;
      cbn [snd with_workflows with_loop engine workflows _running_workflows];
      (split; [done|]);
      (split; [rewrite keys_set; unfold OrderedDict.mem; by rewrite Hget|]);
      by rewrite get_set_eq. }
  destruct H as (H1 & H2 & H3).
  destruct (IH (early id h w c) (after_call status c)) as (I1 & I2 & I3);
    [by rewrite H1|done|].
  split; [by rewrite I1|]. split; [by rewrite I2|done].
Qed.



(** What a parallel step gathers is [None] for each nested step. *)
Lemma run_parallel_values py now reg id l :
  forall w vs,
    gathered (run_parallel py now reg id l w).1 = Ok vs ->
    vs = replicate (length l) VNone.
Proof.
  induction l as [|[[sid|] sname stype sconfig] l IH]; intros w vs.
  - simpl. by intros [= <-].
  - cbn [run_parallel sub_id sub_config sub_name sub_type].
    destruct (step_body _ _ _ _ _ _ _ _) as [[?|e] w1].
    + specialize (IH w1). destruct (run_parallel _ _ _ _ _ _) as [rs w2].
      simpl in *. destruct (gathered rs) as [vs'|]; [|done].
      intros [= <-]. by rewrite (IH vs').
    + by destruct (run_parallel _ _ _ _ _ _) as [rs w2].
  - cbn [run_parallel sub_id].
    by destruct (run_parallel _ _ _ _ _ _) as [rs w2].
Qed.

(** X25.  Whenever a parallel step succeeds, its result is
    [{"parallel_results": [None, ..., None]}] with one [None] for each
    nested step: [_execute_step] has no [return], so what the nested steps
    computed is not passed on. *)
Theorem parallel_results_are_none
    (py : PyLib) (now : Z) (reg : ToolRegistry) (cfg : StepConfig)
    (id name : string) (w w' : World) (result : StepResult)
    (Hok : step_body py now reg cfg id name PARALLEL w = (Ok result, w')) :
  result = ResVal (VDict [("parallel_results",
             VList (replicate (length (default [] (cfg_steps cfg))) VNone))]).
Proof.
  destruct cfg as [d f tn ta s c ctx steps]. rewrite step_body_parallel in Hok.
  cbn [cfg_steps].
  pose proof (run_parallel_values py now reg id (default [] steps) w) as H.
  destruct (run_parallel _ _ _ _ _ _) as [rs w1]. simpl in H.
  destruct (gathered rs) as [vs|]; [|done].
  injection Hok as <- _. by rewrite (H vs).
Qed.

Lemma parallel_results_are_none_witness :
  exists result w',
    step_body demo_py 0 echo_registry parallel_config "c" "c" PARALLEL
              init_engine = (Ok result, w') /\
    result = ResVal (VDict [("parallel_results", VList [VNone; VNone])]).
Proof.
  eexists _, _. split; [reflexivity|].
  exact (parallel_results_are_none demo_py 0 echo_registry parallel_config
           "c" "c" init_engine _ _ eq_refl).
Defined.

Lemma execute_task_fresh now id func st task :
  get_task id st = Some task -> task_dependencies task = [] ->
  exists task',
    execute_task now id func st
    = (Some task',
       mkState (mkTaskManager (OrderedDict.set id task' (tasks (manager st)))
                  (<[id := length (loop st)]> (_running_tasks (manager st))))
               (loop st ++ [mkAsyncUnit (ExecuteWrapper id func) Scheduled])) /\
    task_status task' = IN_PROGRESS /\
    task_id task' = task_id task /\
    task_name task' = task_name task /\
    task_metadata task' = task_metadata task /\
    task_result task' = task_result task.
Proof.
  unfold get_task. intros Hget Hdeps. unfold execute_task.
  rewrite Hget, Hdeps. cbn [pending_deps].
  unfold update_task_status. rewrite Hget.
  change (status_eqb IN_PROGRESS COMPLETED) with false. cbv iota.
  cbn [snd loop manager tasks _running_tasks create_unit].
  unfold get_task. cbn [manager tasks]. rewrite get_set_eq.
  by eexists.
Qed.

(** X26.  A task step with an execution function, and a name that can be
    encoded, is marked [COMPLETED] as soon as its task is launched: the
    step's result is the task object, which is only [IN_PROGRESS], has no
    result yet, carries the step id in its metadata, and whose wrapper is
    a scheduled unit of the event loop registered under the task id. *)
Theorem task_step_completes_at_launch
    (py : PyLib) (now : Z) (reg : ToolRegistry) (step : WorkflowStep)
    (w : World) (func : callable)
    (Htask : step_type step = TASK)
    (Hfunc : cfg_execution_func (step_config step) = Some func)
    (Hname : name_encodes py now (step_name step) = true) :
  let r := _execute_step py now reg step w in
  exists task h,
    r.1.1 = Ok tt /\
    step_status r.1.2 = COMPLETED /\
    step_result r.1.2 = Some (ResTask (Some task)) /\
    task_name task = step_name step /\
    task_metadata task
      = [("step_id", VStr (step_id step)); ("workflow", VBool true)] /\
    task_status task = IN_PROGRESS /\
    task_result task = None /\
    get_task (task_id task) (tm_state r.2) = Some task /\
    _running_tasks (task_manager (engine r.2)) !! task_id task = Some h /\
    wloop r.2 !! h
      = Some (mkAsyncUnit (ExecuteWrapper (task_id task) func) Scheduled).
Proof.
  intros r. subst r. unfold _execute_step.
  cbn [step_config step_id step_name step_type set_step_status].
  rewrite Htask. destruct (step_config step) as [d f tn ta s c ctx steps].
  simpl in Hfunc. subst f. cbn [step_body].
  destruct (create_task_encodes py now (step_name step) (default "" d) MEDIUM
              None None
              (Some [("step_id", VStr (step_id step));
                     ("workflow", VBool true)])
              None None (tm_state w) Hname) as (tid & _ & ->).
  cbn [task_id].
  match goal with |- context [execute_task now ?i func ?s] =>
    match s with context [OrderedDict.set i ?t _] =>
      destruct (execute_task_fresh now i func s t) as
        (task' & -> & H1 & H2 & H3 & H4 & H5); [apply get_set_eq|done|]
    end
  end.
  cbn [fst snd step_status step_result set_step_status set_step_result].
  exists task', (length (wloop w)). rewrite H2. cbn [task_id].
  do 3 (split; [done|]). split; [by rewrite H3|]. split; [by rewrite H4|].
  split; [done|]. split; [by rewrite H5|].
  split; [apply get_set_eq|]. split; [apply lookup_insert_eq|].
  cbn [wloop with_tm_state loop tm_state]. by rewrite list_lookup_middle.
Qed.

Lemma task_step_completes_at_launch_witness :
  let r := _execute_step demo_py 0 echo_registry
             (pending_step "a" TASK job_config []) init_engine in
  exists task,
    step_status r.1.2 = COMPLETED /\
    step_result r.1.2 = Some (ResTask (Some task)) /\
    task_status task = IN_PROGRESS /\
    wloop r.2 !! 0%nat
      = Some (mkAsyncUnit (ExecuteWrapper (task_id task) (Callable "job"))
                          Scheduled).
Proof.
  intros r.
  destruct (task_step_completes_at_launch demo_py 0 echo_registry
              (pending_step "a" TASK job_config []) init_engine
              (Callable "job") eq_refl eq_refl eq_refl)
    as (task & h & _ & H2 & H3 & _ & _ & H6 & _ & _ & H9 & H10).
  exists task. split; [exact H2|]. split; [exact H3|]. split; [exact H6|].
  assert (Hh : h = 0%nat).
  { fold r in H3, H9. vm_compute in H3. injection H3 as <-.
    vm_compute in H9. by injection H9. }
  by rewrite <- Hh.
Defined.

(** X27.  The dependency loop of [_execute_workflow_task] never holds a
    step back and never fails it.  It sleeps once for each dependency that
    is unknown or not completed and then goes on to the next one; the only
    other way out is the [CancelledError] of one of those sleeps. *)
Theorem dependencies_only_delay
    (workflow : Workflow) (deps : list string) (w : World) :
  let n := count_waiting workflow deps in
  let r := check_dependencies workflow deps w in
  r.1 = Ok tt /\ script r.2 = drop n (script w) /\
    ~ In true (take n (script w))
  \/ r.1 = Raise CancelledError /\ In true (take n (script w)).
Proof.
  revert w. induction deps as [|d deps IH]; intros w.
  { simpl. left. split; [done|]. split; [done|]. by intros []. }
  cbn zeta. rewrite count_waiting_cons. cbn [check_dependencies].
  change (match _get_step_by_id workflow d with
          | Some dep_step => negb (status_eqb (step_status dep_step) COMPLETED)
          | None => true end) with (waiting workflow d).
  destruct (waiting workflow d); [|apply IH].
  unfold sleep. destruct w as [en lp [|[|] rest]]; cbn [script engine wloop].
  - specialize (IH (mkWorld en lp [])). cbn zeta in IH.
    cbn [script] in IH. by rewrite drop_nil, take_nil in *.
  - right. split; [done|]. by left.
  - specialize (IH (mkWorld en lp rest)). cbn zeta in IH.
    cbn [script] in IH.
    destruct IH as [(I3 & I4 & I5)|(I3 & I4)]; [left|right].
    + split; [done|]. split; [done|]. simpl. by intros [?|?].
    + split; [done|]. simpl. by right.
Qed.

Lemma cancel_unit_twice h l : cancel_unit h (cancel_unit h l) = cancel_unit h l.
Proof.
  unfold cancel_unit. rewrite list_alter_alter_eq.
  apply list_alter_ext; [|done]. intros [c []] _; done.
Qed.

(** X28.  [delete_workflow] removes the workflow from the table and
    nothing else: unlike [delete_task] it neither cancels the running unit
    nor removes its handle.  A later [cancel_workflow] of the deleted id
    therefore still returns [True] and cancels the unit, without bringing
    the workflow back. *)
Theorem delete_workflow_keeps_the_unit
    (id : string) (w : World) (wf : Workflow) (h : nat)
    (Hknown : get_workflow id w = Some wf)
    (Hkeys : NoDup (OrderedDict.keys (workflows (engine w))))
    (Hrunning : _running_workflows (engine w) !! id = Some h) :
  let d := delete_workflow id w in
  let c := cancel_workflow id d.2 in
  d.1 = true /\
  get_workflow id d.2 = None /\
  _running_workflows (engine d.2) = _running_workflows (engine w) /\
  wloop d.2 = wloop w /\
  c.1 = true /\
  wloop c.2 = cancel_unit h (wloop w) /\
  get_workflow id c.2 = None.
Proof.
  intros d c. subst c d. unfold delete_workflow, OrderedDict.mem.
  unfold get_workflow in *. rewrite Hknown. cbn [fst snd].
  assert (Hgone : OrderedDict.get id (OrderedDict.del id (workflows (engine w)))
                  = None) by by apply get_del_eq.
  split; [done|]. split; [exact Hgone|]. split; [done|]. split; [done|].
  unfold cancel_workflow, stop_workflow.
  cbn [with_workflows engine _running_workflows wloop with_loop workflows].
  rewrite Hrunning.
  cbn [with_workflows engine _running_workflows wloop with_loop workflows].
  by rewrite Hgone.
Qed.

Lemma delete_workflow_keeps_the_unit_witness :
  let w0 := (create_workflow demo_py 0 "wf" "" sure_steps None init_engine).2 in
  let w1 := launched "wf_0" w0 in
  let d := delete_workflow "wf_0" w1 in
  d.1 = true /\
  _running_workflows (engine d.2) !! "wf_0" = Some 0%nat /\
  (cancel_workflow "wf_0" d.2).1 = true.
Proof.
  intros w0 w1 d.
  assert (Hkeys : NoDup (OrderedDict.keys (workflows (engine w1)))).
  { apply NoDup_singleton. }
  destruct (delete_workflow_keeps_the_unit "wf_0" w1 _ 0%nat eq_refl Hkeys
              eq_refl) as (H1 & _ & H3 & _ & H5 & _).
  split; [exact H1|]. split; [|exact H5].
  fold d in H3. by rewrite H3.
Defined.

(** X29.  Pausing a workflow that has a registered handle sends
    [cancel()] to its unit, sets the status [W_PAUSED] and keeps the handle
    registered; a [cancel_workflow] that follows returns [True] as well,
    overwrites the status with [W_CANCELLED] and leaves the unit with its
    cancellation requested. *)
Theorem pause_then_cancel
    (id : string) (w : World) (wf : Workflow) (h : nat)
    (Hknown : get_workflow id w = Some wf)
    (Hrunning : _running_workflows (engine w) !! id = Some h) :
  let p := pause_workflow id w in
  let c := cancel_workflow id p.2 in
  p.1 = true /\
  get_workflow id p.2 = Some (set_wf_status W_PAUSED wf) /\
  wloop p.2 = cancel_unit h (wloop w) /\
  _running_workflows (engine p.2) !! id = Some h /\
  c.1 = true /\
  get_workflow id c.2 = Some (set_wf_status W_CANCELLED wf) /\
  wloop c.2 = cancel_unit h (wloop w) /\
  _running_workflows (engine c.2) !! id = Some h.
Proof.
  intros p c. subst c p. unfold pause_workflow, cancel_workflow, stop_workflow.
  unfold get_workflow in *. rewrite Hrunning.
  cbn [with_workflows engine _running_workflows wloop with_loop workflows].
  rewrite Hknown.
  cbn [fst snd with_workflows engine _running_workflows wloop with_loop
       workflows].
  rewrite Hrunning, get_set_eq.
  cbn [fst snd with_workflows engine _running_workflows wloop with_loop
       workflows].
  rewrite !get_set_eq, cancel_unit_twice. by destruct wf.
Qed.

Lemma pause_then_cancel_witness :
  let w0 := (create_workflow demo_py 0 "wf" "" sure_steps None init_engine).2 in
  let w1 := launched "wf_0" w0 in
  let p := pause_workflow "wf_0" w1 in
  let c := cancel_workflow "wf_0" p.2 in
  p.1 = true /\ c.1 = true /\
  exists wf', get_workflow "wf_0" c.2 = Some wf' /\
              wf_status wf' = W_CANCELLED.
Proof.
  intros w0 w1 p c.
  destruct (pause_then_cancel "wf_0" w1 _ 0%nat eq_refl eq_refl)
    as (H1 & _ & _ & _ & H5 & H6 & _).
  split; [exact H1|]. split; [exact H5|].
  eexists. split; [exact H6|reflexivity].
Defined.

(** X30.  Whether [pause_workflow] and [cancel_workflow] still act once
    [execute_workflow] is over depends on whether its unit ever ran.  If
    it did, the handle is gone: both return [False] and change nothing.
    If the unit was cancelled before its first step, the handle was never
    removed: both return [True], and [pause_workflow] sets the status
    [W_PAUSED] on a workflow that does not run. *)
Theorem stopping_after_execute_workflow
    (calls : list early_call) (py : PyLib) (now : Z) (reg : ToolRegistry)
    (id : string) (w : World) (wf : Workflow)
    (Hknown : get_workflow id w = Some wf)
    (Hid : wf_id wf = id) :
  let r := execute_workflow_after calls py now reg id w in
  match calls with
  | [] =>
      pause_workflow id r.2 = (false, r.2) /\
      cancel_workflow id r.2 = (false, r.2)
  | _ :: _ =>
      (pause_workflow id r.2).1 = true /\
      (cancel_workflow id r.2).1 = true /\
      exists wf',
        get_workflow id (pause_workflow id r.2).2 = Some wf' /\
        wf_status wf' = W_PAUSED
  end.
Proof.
  intros r. destruct calls as [|c calls].
  - subst r. cbn [execute_workflow_after].
    destruct (run_steps py now reg (wf_steps wf) 0
                (set_wf_started_at (Some now) (set_wf_status W_RUNNING wf))
                (launched id w)) as [[o wf1] w2] eqn:Hrun.
    destruct (execute_workflow_known py now reg id w wf _ _ _ Hknown Hid Hrun)
      as (_ & _ & H3 & _).
    unfold pause_workflow, cancel_workflow, stop_workflow.
    by rewrite H3, lookup_delete_eq.
  - subst r. unfold execute_workflow_after.
    pose proof Hknown as Hget. unfold get_workflow in Hget. rewrite Hget.
    cbn [create_unit].
    set (base := set_wf_started_at (Some now) (set_wf_status W_RUNNING wf)).
    set (w1 := with_workflows _ _).
    destruct (foldl_early id (length (wloop w)) base (c :: calls) w1 W_RUNNING)
      as (I1 & _ & I3).
    { subst w1. simpl. apply lookup_insert_eq. }
    { subst w1. unfold get_workflow. simpl. apply get_set_eq. }
    set (w2 := foldl _ w1 _) in *.
    assert (Hh : _running_workflows (engine w2) !! id
                 = Some (length (wloop w))).
    { rewrite I1. subst w1. simpl. apply lookup_insert_eq. }
    unfold get_workflow in I3.
    unfold pause_workflow, cancel_workflow, stop_workflow, get_workflow.
    cbn [fst snd with_loop engine workflows _running_workflows].
    rewrite Hh.
    cbn [fst snd with_loop with_workflows engine workflows
         _running_workflows].
    rewrite I3.
    cbn [fst snd with_loop with_workflows engine workflows
         _running_workflows].
    split; [done|]. split; [done|]. eexists. by rewrite get_set_eq.
Qed.

Lemma stopping_after_execute_workflow_witness :
  let w0 := (create_workflow demo_py 0 "wf" "" sure_steps None init_engine).2 in
  let r := execute_workflow_after [] demo_py 1 echo_registry "wf_0" w0 in
  let r' := execute_workflow_after [AwaiterCancelled] demo_py 1 echo_registry
              "wf_0" w0 in
  (pause_workflow "wf_0" r.2).1 = false /\
  (cancel_workflow "wf_0" r.2).1 = false /\
  (pause_workflow "wf_0" r'.2).1 = true /\
  (cancel_workflow "wf_0" r'.2).1 = true.
Proof.
  intros w0 r r'.
  destruct (stopping_after_execute_workflow [] demo_py 1 echo_registry
              "wf_0" w0 _ eq_refl eq_refl) as (H1 & H2).
  destruct (stopping_after_execute_workflow [AwaiterCancelled] demo_py 1
              echo_registry "wf_0" w0 _ eq_refl eq_refl) as (H3 & H4 & _).
  fold r in H1, H2. fold r' in H3, H4.
  split; [by rewrite H1|]. split; [by rewrite H2|].
  split; [exact H3|exact H4].
Defined.

End WorkflowEngineExtras.
